(** * PlantPulse server: time-series retention, history resolution and
    downsampling

    A shallow embedding of [server/index.js].  JavaScript values are modelled
    as follows.
    - Array lengths and indices are [nat]; epoch instants and moisture
      percentages are [Z].  An ISO timestamp string is represented by the
      instant it denotes, in milliseconds since the epoch; the keys of the
      cloud history list are epoch seconds.  Keys and values of the cloud
      list are taken to be numeric, so no [NaN] arises.
    - The two JSON files and the module-level cache variables form the
      [World]; handlers are written in a small state-and-trace monad whose
      trace records file accesses and network calls.  File reads and writes
      are taken to succeed.
    - Network answers, the wall clock and the random mock generator are
      inputs of a request, gathered in an environment record.
    - A loop that need not terminate takes fuel and returns [None] when it
      runs out; the [RangeError] of [toISOString] is the one exception the
      [try] block of the history handler can raise here. *)

From Stdlib Require Import ZArith List Lia String Ascii Permutation Sorted.
From stdpp Require Import gmap strings list pretty.

Set Warnings "-abstract-large-number".

Local Open Scope string_scope.
Local Open Scope nat_scope.
Local Open Scope list_scope.

(** ** Stable sort with a numeric comparator

    [Array.prototype.sort((a, b) => key(a) - key(b))] is stable: elements whose
    keys are equal keep their relative order. *)
Section Sort.
Context {A : Type} (key : A -> Z).

Fixpoint insert_by (x : A) (l : list A) : list A :=
  match l with
  | [] => [x]
  | y :: l' => if (key x <=? key y)%Z then x :: l else y :: insert_by x l'
  end.

Definition sort_by (l : list A) : list A := foldr insert_by [] l.

Definition ascending (l : list A) : Prop :=
  Sorted (fun a b => (key a <= key b)%Z) l.
End Sort.

(** A check of [ascending] that computes. *)
Fixpoint ascendingb {A} (key : A -> Z) (l : list A) : bool :=
  match l with
  | [] => true
  | x :: l' =>
      match l' with
      | [] => true
      | y :: _ => (key x <=? key y)%Z && ascendingb key l'
      end
  end.

(** ** Downsampling of the cloud history (lines 515-553) *)
Module Downsample.

(** One parsed entry of the cloud list: [{ time, value }]. *)
Record RawReading := { time : Z; value : Z }.

Definition maxPoints (period : string) : nat :=
  if String.eqb period "1h" then 100
  else if String.eqb period "24h" then 300
  else if String.eqb period "7d" then 400
  else if String.eqb period "30d" then 300
  else 200.

(** [Math.ceil(n / m)] for a positive divisor. *)
Definition ceil_div (n m : nat) : nat := (n + m - 1) / m.

(** [arr.slice(i, j)] for [0 <= i], [0 <= j]. *)
Definition slice {A} (i j : nat) (l : list A) : list A :=
  take (j - i) (drop i l).

(** The inner [for (const point of bucket)] loop, started at [bucket[0]]:
    the pair is [(minPoint, maxPoint)]. *)
Definition scanStep (acc : RawReading * RawReading) (point : RawReading)
  : RawReading * RawReading :=
  let '(minPoint, maxPoint) := acc in
  (if (value point <? value minPoint)%Z then point else minPoint,
   if (value point >? value maxPoint)%Z then point else maxPoint).

Definition scanBucket (first : RawReading) (bucket : list RawReading)
  : RawReading * RawReading :=
  fold_left scanStep bucket (first, first).

(** What one bucket pushes onto [reduced]. *)
Definition emitBucket (bucket : list RawReading) : list RawReading :=
  match bucket with
  | [] => []
  | first :: _ =>
      let '(minPoint, maxPoint) := scanBucket first bucket in
      if (time minPoint <? time maxPoint)%Z then
        minPoint ::
          (if (value maxPoint - value minPoint >=? 2)%Z then [maxPoint] else [])
      else
        maxPoint ::
          (if (value maxPoint - value minPoint >=? 2)%Z then [minPoint] else [])
  end.

(** The bucket starting at index [i]. *)
Definition bucketAt (bucketSize : nat) (readings : list RawReading) (i : nat)
  : list RawReading :=
  slice i (Nat.min (i + bucketSize) (length readings)) readings.

(** [for (let i = 0; i < readings.length; i += bucketSize)].  The loop does
    not terminate for [bucketSize = 0]; [None] is "out of fuel". *)
Fixpoint bucketLoop (fuel bucketSize : nat) (readings : list RawReading)
    (i : nat) : option (list RawReading) :=
  if i <? length readings then
    match fuel with
    | 0 => None
    | S fuel' =>
        rest ← bucketLoop fuel' bucketSize readings (i + bucketSize);
        Some (emitBucket (bucketAt bucketSize readings i) ++ rest)
    end
  else Some [].

Definition downsample (period : string) (readings : list RawReading)
  : option (list RawReading) :=
  let maxPoints := maxPoints period in
  if length readings <=? maxPoints then Some readings
  else
    let bucketSize := ceil_div (length readings) maxPoints in
    reduced ← bucketLoop (length readings) bucketSize readings 0;
    Some (sort_by time reduced).

(** *** What the loop is expected to do, in the words of the specification *)

(** A reading of least, respectively greatest, value in a bucket. *)
Definition is_min (mn : RawReading) (l : list RawReading) : Prop :=
  In mn l /\ forall p, In p l -> (value mn <= value p)%Z.
Definition is_max (mx : RawReading) (l : list RawReading) : Prop :=
  In mx l /\ forall p, In p l -> (value p <= value mx)%Z.

(** The buckets the loop visits from index [i] on. *)
Definition bucketsFrom (k : nat) (readings : list RawReading) (i : nat)
  : list (list RawReading) :=
  map (fun j => bucketAt k readings (i + j * k))
      (seq 0 (ceil_div (length readings - i) k)).


End Downsample.

(** ** Values exchanged with the outside *)

(** JSON values, for the settings record; [truthy] is JavaScript's
    truthiness on them. *)
#[warnings="-register-all"] Inductive JSON : Type :=
| JNull
| JBool (b : bool)
| JNum (n : Z)
| JStr (s : string)
| JArr (items : list JSON)
| JObj (fields : list (string * JSON)).

Definition truthy (v : JSON) : bool :=
  match v with
  | JNull => false
  | JBool b => b
  | JNum n => negb (n =? 0)%Z
  | JStr s => negb (String.eqb s "")
  | JArr _ | JObj _ => true
  end.

(** A string used as a condition: only the empty string is falsy. *)
Definition truthyStr (s : option string) : bool :=
  match s with
  | Some s => negb (String.eqb s "")
  | None => false
  end.

(** A stored entry of [sensor_history.json]: [{ moisture, timestamp }]. *)
Module Reading.
Record t := { moisture : Z; timestamp : Z }.
End Reading.

(** A chart point: [{ timestamp, moisture, label }]. *)
Module Point.
Record t := { timestamp : Z; moisture : Z; label : string }.
End Point.

(** A live sensor value as built by [fetchEcowittData]. *)
Module Sensor.
Record t := {
  id : string;
  accountId : string;
  sensorKey : string;
  moisture : Z;
  unit : string;
  ad : option Z;
  timestamp : option Z
}.
End Sensor.

(** The body of a [/api/sensors] answer; [mock] and [errors] are absent
    ([false], [None]) where the handler does not set them. *)
Module SensorsResponse.
Record t := {
  sensors : list Sensor.t;
  mock : bool;
  errors : option (list (string * string));
  lastUpdated : Z
}.
End SensorsResponse.

(** What [fetchEcowittData] resolves to for one account. *)
Module Realtime.
Record t := {
  accountId : string;
  error : option string;
  sensors : list Sensor.t
}.
End Realtime.

(** What [fetchEcowittHistory] resolves to: [{ error, data }] or
    [{ data, raw }].  [data] is keyed by channel ([soil_ch<N>]); the list of a
    channel is given as its [Object.entries], keys and values already read as
    numbers. *)
Module Cloud.
Record SoilMoisture := { list : option (list (Z * Z)) }.
Record Channel := { soilmoisture : option SoilMoisture }.
Record t := { error : option string; data : gmap string Channel }.
End Cloud.

(** The settings record; an absent field is [None]. *)
Module Settings.
Record t := {
  names : option JSON;
  colors : option JSON;
  order : option JSON;
  hidden : option JSON;
  thresholds : option JSON
}.
End Settings.

Inductive Source := local | ecowitt.

(** The body of a [/api/sensors/:sensorId/history] answer. *)
Module HistoryResponse.
Record t := {
  sensorId : string;
  period : string;
  data : list Point.t;
  source : option Source;
  error : option string
}.
End HistoryResponse.

(** ** Configuration, world and effects *)

Record Account := { id : string; appKey : string; apiKey : string; mac : string }.

(** The four shapes of locale label the handlers ask for. *)
Inductive LabelStyle := HourMinute | WeekdayHour | MonthDay | MonthLong.

(** What is fixed when the process starts: the environment flags, the accounts
    that have all three credentials, and the host's time zone and locale
    ([localMinute] stands for the local calendar fields year, month, date,
    hours, minutes of an instant, [toLocale] for the [toLocale...String]
    calls). *)
Record Config := {
  USE_MOCK_DATA : bool;
  accounts : list Account;
  localMinute : Z -> Z;
  toLocale : LabelStyle -> Z -> string
}.

(** The two JSON files and the module-level cache.  A history file that is
    missing or unreadable reads as the empty object, a settings file that is
    missing or unreadable is [None]; writes are taken to succeed. *)
Record World := {
  historyFile : gmap string (list Reading.t);
  settingsFile : option Settings.t;
  sensorCache : option SensorsResponse.t;
  sensorCacheTime : Z
}.

Inductive Event :=
| ReadHistoryFile
| WriteHistoryFile
| ReadSettingsFile
| WriteSettingsFile
| FetchHistory (account : Account) (startDate endDate : Z) (channel : string)
| FetchRealtime (account : Account).

Definition isUpstream (e : Event) : bool :=
  match e with
  | FetchHistory _ _ _ _ | FetchRealtime _ => true
  | _ => false
  end.

(** State and trace monad of the handlers. *)
Definition M (A : Type) : Type := World -> A * World * list Event.

Definition ret {A} (a : A) : M A := fun w => (a, w, []).

Definition bind {A B} (m : M A) (k : A -> M B) : M B :=
  fun w =>
    let '(a, w1, t1) := m w in
    let '(b, w2, t2) := k a w1 in
    (b, w2, t1 ++ t2).

Declare Scope handler_scope.
Delimit Scope handler_scope with handler.
Notation "x <- m ;; k" := (bind m (fun x => k))
  (at level 100, m at next level, right associativity) : handler_scope.
Notation "m ;; k" := (bind m (fun _ => k))
  (at level 100, right associativity) : handler_scope.
Local Open Scope handler_scope.

Definition emit (e : Event) : M unit := fun w => (tt, w, [e]).

Fixpoint forEach {A} (f : A -> M unit) (l : list A) : M unit :=
  match l with
  | [] => ret tt
  | x :: l' => f x ;; forEach f l'
  end.

Definition value_of {A} (r : A * World * list Event) : A := fst (fst r).
Definition world_of {A} (r : A * World * list Event) : World := snd (fst r).
Definition trace_of {A} (r : A * World * list Event) : list Event := snd r.

(** ** The reading store (lines 16-26, 52-159) *)
Module Store.

Definition loadHistory : M (gmap string (list Reading.t)) :=
  fun w => (historyFile w, w, [ReadHistoryFile]).

Definition saveHistory (history : gmap string (list Reading.t)) : M unit :=
  fun w =>
    (tt,
     {| historyFile := history; settingsFile := settingsFile w;
        sensorCache := sensorCache w; sensorCacheTime := sensorCacheTime w |},
     [WriteHistoryFile]).

Definition retentionCap : nat := 50000.

(** [arr.slice(-n)] *)
Definition lastN {A} (n : nat) (l : list A) : list A := drop (length l - n) l.

Definition storeReading (sensorId : string) (moisture timestamp : Z) : M unit :=
  history <- loadHistory ;;
  let series := default [] (history !! sensorId) in
  let series :=
    series ++ [{| Reading.moisture := moisture; Reading.timestamp := timestamp |}] in
  let series :=
    if retentionCap <? length series then lastN retentionCap series else series in
  saveHistory (<[sensorId := series]> history).

(** A run of appends, [(sensorId, moisture, timestamp)] each, and the
    readings among them that are for one sensor. *)
Definition storeAll (appends : list (string * Z * Z)) : M unit :=
  forEach (fun a => storeReading (fst (fst a)) (snd (fst a)) (snd a)) appends.

Definition appendsFor (sensorId : string) (appends : list (string * Z * Z))
  : list Reading.t :=
  map (fun a => {| Reading.moisture := snd (fst a); Reading.timestamp := snd a |})
      (List.filter (fun a => String.eqb (fst (fst a)) sensorId) appends).

Definition day : Z := 24 * 60 * 60 * 1000.

Definition cutoffTime (period : string) (now : Z) : Z :=
  if String.eqb period "1h" then now - day
  else if String.eqb period "24h" then now - day
  else if String.eqb period "7d" then now - 7 * day
  else if String.eqb period "30d" then now - 30 * day
  else if String.eqb period "1y" then now - 365 * day
  else now - day.

Definition labelStyle (period : string) : LabelStyle :=
  if String.eqb period "1h" then HourMinute
  else if String.eqb period "24h" then HourMinute
  else if String.eqb period "7d" then WeekdayHour
  else if String.eqb period "30d" then MonthDay
  else if String.eqb period "1y" then MonthLong
  else HourMinute.

Definition skipFactor (period : string) : nat :=
  if String.eqb period "1h" then 1
  else if String.eqb period "24h" then 5
  else if String.eqb period "7d" then 60
  else if String.eqb period "30d" then 360
  else if String.eqb period "1y" then 1440
  else 1.

(** [arr.filter((_, i) => i % k === 0)], the index counted from [i]. *)
Fixpoint everyNthFrom {A} (k i : nat) (l : list A) : list A :=
  match l with
  | [] => []
  | x :: l' =>
      if i mod k =? 0 then x :: everyNthFrom k (S i) l'
      else everyNthFrom k (S i) l'
  end.

Definition everyNth {A} (k : nat) (l : list A) : list A := everyNthFrom k 0 l.

(** The [Map] of the hourly path, in insertion order. *)
Definition mapHas (seen : list (Z * Reading.t)) (key : Z) : bool :=
  existsb (fun e => (fst e =? key)%Z) seen.

Definition seeReading (minuteKey : Reading.t -> Z)
    (seen : list (Z * Reading.t)) (r : Reading.t) : list (Z * Reading.t) :=
  if mapHas seen (minuteKey r) then seen else seen ++ [(minuteKey r, r)].

Definition dedupBy (minuteKey : Reading.t -> Z) (reduced : list Reading.t)
  : list Reading.t :=
  map snd (fold_left (seeReading minuteKey) reduced []).

Definition dedupMinute (cfg : Config) (reduced : list Reading.t)
  : list Reading.t :=
  dedupBy (fun r => localMinute cfg (Reading.timestamp r)) reduced.

(** The loop invariant of the hourly [Map]: keys are distinct, every entry is
    the first reading of its minute among those processed, and every
    processed reading has its minute in the map. *)
Definition sameMinute (minuteKey : Reading.t -> Z) (key : Z) (r : Reading.t)
  : bool :=
  (minuteKey r =? key)%Z.

Record seenInv (minuteKey : Reading.t -> Z) (seen : list (Z * Reading.t))
    (processed : list Reading.t) : Prop := {
  seen_nodup : NoDup (map fst seen);
  seen_first : forall e, In e seen ->
    fst e = minuteKey (snd e) /\
    List.find (sameMinute minuteKey (fst e)) processed = Some (snd e);
  seen_all : forall r, In r processed -> exists e, In e seen /\ fst e = minuteKey r
}.

Definition toPoint (cfg : Config) (period : string) (r : Reading.t) : Point.t :=
  {| Point.timestamp := Reading.timestamp r;
     Point.moisture := Reading.moisture r;
     Point.label := toLocale cfg (labelStyle period) (Reading.timestamp r) |}.

(** The readings [getHistory] keeps, before they are labelled. *)
Definition selectReadings (cfg : Config) (now : Z) (period : string)
    (readings : list Reading.t) : list Reading.t :=
  let cutoffTime := cutoffTime period now in
  let filtered :=
    List.filter (fun r => (cutoffTime <=? Reading.timestamp r)%Z) readings in
  let reduced := everyNth (skipFactor period) filtered in
  if String.eqb period "1h" then
    sort_by Reading.timestamp (dedupMinute cfg reduced)
  else reduced.

(** [now] is the clock as [getHistory] reads it. *)
Definition getHistory (cfg : Config) (now : Z) (sensorId period : string)
  : M (list Point.t) :=
  history <- loadHistory ;;
  let readings := default [] (history !! sensorId) in
  if length readings =? 0 then ret []
  else ret (map (toPoint cfg period) (selectReadings cfg now period readings)).

End Store.

(** ** The history resolver (lines 423-573) *)
Module Resolver.
Import Store.

(** *** [sensorId.match(/^(account\d+)_soil_ch(\d+)$/)] *)
Definition isDigit (c : ascii) : bool :=
  (48 <=? nat_of_ascii c) && (nat_of_ascii c <=? 57).

(** The longest run of digits at the front, and what follows it. *)
Fixpoint spanDigits (s : string) : string * string :=
  match s with
  | EmptyString => (EmptyString, EmptyString)
  | String c s' =>
      if isDigit c then
        let '(ds, rest) := spanDigits s' in (String c ds, rest)
      else (EmptyString, s)
  end.

Fixpoint stripPrefix (p s : string) : option string :=
  match p with
  | EmptyString => Some s
  | String a p' =>
      match s with
      | EmptyString => None
      | String b s' => if Ascii.eqb a b then stripPrefix p' s' else None
      end
  end.

(** The two capture groups, when the whole id matches. *)
Definition matchSensorId (sensorId : string) : option (string * string) :=
  match stripPrefix "account" sensorId with
  | None => None
  | Some afterAccount =>
      let '(accountDigits, afterDigits) := spanDigits afterAccount in
      if String.eqb accountDigits "" then None
      else
        match stripPrefix "_soil_ch" afterDigits with
        | None => None
        | Some afterChannel =>
            let '(channel, rest) := spanDigits afterChannel in
            if String.eqb channel "" then None
            else if String.eqb rest "" then
              Some (String.append "account" accountDigits, channel)
            else None
        end
  end.

(** The pattern in words: [account<digits>_soil_ch<digits>], its two parts
    named. *)
Fixpoint allDigits (s : string) : bool :=
  match s with
  | EmptyString => true
  | String c s' => isDigit c && allDigits s'
  end.

Definition startsWithDigit (s : string) : bool :=
  match s with
  | EmptyString => false
  | String c _ => isDigit c
  end.

Definition wellFormedId (sensorId accountId channel : string) : Prop :=
  exists digits,
    accountId = String.append "account" digits /\
    digits <> "" /\ allDigits digits = true /\
    channel <> "" /\ allDigits channel = true /\
    sensorId = String.append accountId (String.append "_soil_ch" channel).

(** *** What a request sees of the outside *)
Record Env := {
  now : Z;                 (* [new Date()] in the handler *)
  nowLocal : Z;            (* [new Date()] inside [getHistory] *)
  fetchEcowittHistory : Account -> Z -> Z -> string -> Cloud.t
}.

Definition startDate (period : string) (now : Z) : Z :=
  if String.eqb period "1h" then now - 60 * 60 * 1000
  else if String.eqb period "24h" then now - day
  else if String.eqb period "7d" then now - 7 * day
  else if String.eqb period "30d" then now - 30 * day
  else if String.eqb period "1y" then now - 365 * day
  else now - day.

Definition labelFormat (period : string) : LabelStyle :=
  if String.eqb period "24h" then HourMinute
  else if String.eqb period "7d" then WeekdayHour
  else if String.eqb period "30d" then MonthDay
  else if String.eqb period "1y" then MonthLong
  else HourMinute.

(** How the body of the [try] block ends. *)
Inductive Outcome (A : Type) : Type :=
| Done (a : A)
| Thrown (message : string)
| Unfinished.
Arguments Done {A} a.
Arguments Thrown {A} message.
Arguments Unfinished {A}.

(** [new Date(ms).toISOString()] throws a [RangeError] outside the range of
    valid dates. *)
Definition validDate (ms : Z) : bool :=
  (-8640000000000000 <=? ms)%Z && (ms <=? 8640000000000000)%Z.

Fixpoint renderPoints (cfg : Config) (period : string)
    (reduced : list Downsample.RawReading) : Outcome (list Point.t) :=
  match reduced with
  | [] => Done []
  | r :: rest =>
      let ms := (Downsample.time r * 1000)%Z in
      if validDate ms then
        match renderPoints cfg period rest with
        | Done points =>
            Done ({| Point.timestamp := ms;
                     Point.moisture := Downsample.value r;
                     Point.label := toLocale cfg (labelFormat period) ms |}
                  :: points)
        | Thrown message => Thrown message
        | Unfinished => Unfinished
        end
      else Thrown "Invalid time value"
  end.

Definition localResponse (sensorId period : string) (localData : list Point.t)
    (error : option string) : HistoryResponse.t :=
  {| HistoryResponse.sensorId := sensorId;
     HistoryResponse.period := period;
     HistoryResponse.data := localData;
     HistoryResponse.source := Some local;
     HistoryResponse.error := error |}.

Definition errorResponse (sensorId period error : string) : HistoryResponse.t :=
  {| HistoryResponse.sensorId := sensorId;
     HistoryResponse.period := period;
     HistoryResponse.data := [];
     HistoryResponse.source := None;
     HistoryResponse.error := Some error |}.

(** [channelData?.soilmoisture?.list] *)
Definition channelList (result : Cloud.t) (channelKey : string)
  : option (list (Z * Z)) :=
  match Cloud.data result !! channelKey with
  | None => None
  | Some channelData =>
      match Cloud.soilmoisture channelData with
      | None => None
      | Some soil => Cloud.list soil
      end
  end.

(** The body of the [try] block. *)
Definition tryHistory (cfg : Config) (env : Env) (account : Account)
    (sensorId period channel : string) : M (Outcome HistoryResponse.t) :=
  let startDate := startDate period (now env) in
  emit (FetchHistory account startDate (now env) channel) ;;
  let result := fetchEcowittHistory env account startDate (now env) channel in
  if truthyStr (Cloud.error result) then
    localData <- getHistory cfg (nowLocal env) sensorId period ;;
    ret (Done (localResponse sensorId period localData None))
  else
    let channelKey := String.append "soil_ch" channel in
    match channelList result channelKey with
    | None =>
        localData <- getHistory cfg (nowLocal env) sensorId period ;;
        ret (Done (localResponse sensorId period localData None))
    | Some listObj =>
        let readings :=
          sort_by Downsample.time
            (map (fun e => {| Downsample.time := fst e;
                              Downsample.value := snd e |}) listObj) in
        match Downsample.downsample period readings with
        | None => ret Unfinished
        | Some reduced =>
            match renderPoints cfg period reduced with
            | Done data =>
                ret (Done {| HistoryResponse.sensorId := sensorId;
                             HistoryResponse.period := period;
                             HistoryResponse.data := data;
                             HistoryResponse.source := Some ecowitt;
                             HistoryResponse.error := None |})
            | Thrown message => ret (Thrown message)
            | Unfinished => ret Unfinished
            end
        end
    end.

(** [app.get('/api/sensors/:sensorId/history', ...)]; [None] is a request
    that does not finish. *)
Definition historyHandler (cfg : Config) (env : Env) (sensorId period : string)
  : M (option HistoryResponse.t) :=
  match matchSensorId sensorId with
  | None => ret (Some (errorResponse sensorId period "Invalid sensor ID format"))
  | Some (accountId, channel) =>
      match List.find (fun a => String.eqb (id a) accountId) (accounts cfg) with
      | None => ret (Some (errorResponse sensorId period "Account not found"))
      | Some account =>
          if String.eqb period "1h" then
            localData <- getHistory cfg (nowLocal env) sensorId "1h" ;;
            ret (Some (localResponse sensorId period localData None))
          else
            outcome <- tryHistory cfg env account sensorId period channel ;;
            match outcome with
            | Done response => ret (Some response)
            | Thrown message =>
                localData <- getHistory cfg (nowLocal env) sensorId period ;;
                ret (Some (localResponse sensorId period localData (Some message)))
            | Unfinished => ret None
            end
      end
  end.

(** [const { period = '24h' } = req.query] *)
Definition historyRoute (cfg : Config) (env : Env) (sensorId : string)
    (period : option string) : M (option HistoryResponse.t) :=
  historyHandler cfg env sensorId (default "24h" period).

End Resolver.

(** ** The live poller and its cache (lines 281-357) *)
Module Poller.
Import Store.

Definition SENSOR_CACHE_TTL : Z := 5000.

Record Env := {
  nowCheck : Z;            (* [Date.now()] at the freshness test *)
  nowStored : Z;           (* [new Date()] used for readings without a time *)
  nowUpdated : Z;          (* [new Date()] used for [lastUpdated] *)
  nowCached : Z;           (* [Date.now()] when the cache is written *)
  fetchEcowittData : Account -> Realtime.t;
  generateMockSensors : list Sensor.t
}.

Definition setCache (response : SensorsResponse.t) (at_ : Z) : M unit :=
  fun w =>
    (tt,
     {| historyFile := historyFile w; settingsFile := settingsFile w;
        sensorCache := Some response; sensorCacheTime := at_ |},
     []).

Definition getCache : M (option SensorsResponse.t * Z) :=
  fun w => ((sensorCache w, sensorCacheTime w), w, []).

Definition mockResponse (env : Env) (errors : option (list (string * string)))
  : SensorsResponse.t :=
  {| SensorsResponse.sensors := generateMockSensors env;
     SensorsResponse.mock := true;
     SensorsResponse.errors := errors;
     SensorsResponse.lastUpdated := nowUpdated env |}.

(** [Promise.all(accounts.map(fetchEcowittData))] *)
Definition fetchAll (env : Env) (accounts : list Account) : M (list Realtime.t) :=
  forEach (fun a => emit (FetchRealtime a)) accounts ;;
  ret (map (fetchEcowittData env) accounts).

Definition latestSensorTime (allSensors : list Sensor.t) : Z :=
  fold_left
    (fun latest sensor =>
       match Sensor.timestamp sensor with
       | None => latest
       | Some t => if (t >? latest)%Z then t else latest
       end)
    allSensors 0%Z.

(** [USE_MOCK_DATA || accounts.length === 0] *)
Definition mockMode (cfg : Config) : bool :=
  USE_MOCK_DATA cfg || (length (accounts cfg) =? 0).

(** [sameCache w w']: the two cache variables are the same in both worlds. *)
Definition sameCache (w w' : World) : Prop :=
  sensorCache w' = sensorCache w /\ sensorCacheTime w' = sensorCacheTime w.

(** The handler past the cache test: poll every account, store what came
    back, answer and remember the answer. *)
Definition refresh (cfg : Config) (env : Env) : M SensorsResponse.t :=
  results <- fetchAll env (accounts cfg) ;;
  let allSensors := flat_map Realtime.sensors results in
  let errors :=
    map (fun r => (Realtime.accountId r, default "" (Realtime.error r)))
        (List.filter (fun r => truthyStr (Realtime.error r)) results) in
  forEach (fun sensor =>
             storeReading (Sensor.id sensor) (Sensor.moisture sensor)
               (default (nowStored env) (Sensor.timestamp sensor)))
          allSensors ;;
  if (length allSensors =? 0) && (0 <? length errors) then
    ret (mockResponse env (Some errors))
  else
    let latest := latestSensorTime allSensors in
    let response :=
      {| SensorsResponse.sensors := allSensors;
         SensorsResponse.mock := false;
         SensorsResponse.errors :=
           if 0 <? length errors then Some errors else None;
         SensorsResponse.lastUpdated :=
           if (latest >? 0)%Z then latest else nowUpdated env |} in
    setCache response (nowCached env) ;;
    ret response.

(** [app.get('/api/sensors', ...)] *)
Definition sensorsHandler (cfg : Config) (env : Env) : M SensorsResponse.t :=
  if USE_MOCK_DATA cfg || (length (accounts cfg) =? 0) then
    ret (mockResponse env None)
  else
    cached <- getCache ;;
    match cached with
    | (Some snapshot, cacheTime) =>
        if (nowCheck env - cacheTime <? SENSOR_CACHE_TTL)%Z then ret snapshot
        else refresh cfg env
    | (None, _) => refresh cfg env
    end.

End Poller.

(** ** The settings record (lines 28-50, 585-607) *)
Module SettingsApi.

Definition defaults : Settings.t :=
  {| Settings.names := Some (JObj []);
     Settings.colors := Some (JObj []);
     Settings.order := Some (JArr []);
     Settings.hidden := Some (JArr []);
     Settings.thresholds := Some (JObj []) |}.

Definition falsy (v : option JSON) : bool :=
  match v with
  | None => true
  | Some v => negb (truthy v)
  end.

Definition loadSettings : M Settings.t :=
  fun w =>
    (match settingsFile w with
     | Some settings =>
         if falsy (Settings.thresholds settings) then
           {| Settings.names := Settings.names settings;
              Settings.colors := Settings.colors settings;
              Settings.order := Settings.order settings;
              Settings.hidden := Settings.hidden settings;
              Settings.thresholds := Some (JObj []) |}
         else settings
     | None => defaults
     end,
     w, [ReadSettingsFile]).

Definition saveSettings (settings : Settings.t) : M unit :=
  fun w =>
    (tt,
     {| historyFile := historyFile w; settingsFile := Some settings;
        sensorCache := sensorCache w; sensorCacheTime := sensorCacheTime w |},
     [WriteSettingsFile]).

(** [x !== undefined ? x : current] *)
Definition orCurrent (x current : option JSON) : option JSON :=
  match x with
  | Some v => Some v
  | None => current
  end.

Definition merge (body currentSettings : Settings.t) : Settings.t :=
  {| Settings.names :=
       orCurrent (Settings.names body) (Settings.names currentSettings);
     Settings.colors :=
       orCurrent (Settings.colors body) (Settings.colors currentSettings);
     Settings.order :=
       orCurrent (Settings.order body) (Settings.order currentSettings);
     Settings.hidden :=
       orCurrent (Settings.hidden body) (Settings.hidden currentSettings);
     Settings.thresholds :=
       orCurrent (Settings.thresholds body) (Settings.thresholds currentSettings) |}.

(** [app.post('/api/settings', ...)]: the request body is the partial record. *)
Definition postSettings (body : Settings.t) : M Settings.t :=
  currentSettings <- loadSettings ;;
  let newSettings := merge body currentSettings in
  saveSettings newSettings ;;
  ret newSettings.

(** [app.get('/api/settings', ...)] *)
Definition getSettings : M Settings.t := loadSettings.

End SettingsApi.

(** ** The states the server can be in

    The cache starts empty; the files may hold anything, and may change
    between two requests (the single-field settings routes, an operator). *)
Inductive reachable (cfg : Config) : World -> Prop :=
| reach_start (history : gmap string (list Reading.t))
    (settings : option Settings.t) :
    reachable cfg
      {| historyFile := history; settingsFile := settings;
         sensorCache := None; sensorCacheTime := 0 |}
| reach_files (w : World) (history : gmap string (list Reading.t))
    (settings : option Settings.t) :
    reachable cfg w ->
    reachable cfg
      {| historyFile := history; settingsFile := settings;
         sensorCache := sensorCache w; sensorCacheTime := sensorCacheTime w |}
| reach_sensors (w : World) (env : Poller.Env) :
    reachable cfg w ->
    reachable cfg (world_of (Poller.sensorsHandler cfg env w))
| reach_history (w : World) (env : Resolver.Env) (sensorId period : string) :
    reachable cfg w ->
    reachable cfg (world_of (Resolver.historyHandler cfg env sensorId period w))
| reach_settings (w : World) (body : Settings.t) :
    reachable cfg w ->
    reachable cfg (world_of (SettingsApi.postSettings body w)).

(** ** Sample configurations, worlds and inputs *)
Module Samples.

(** Readings that swing by 10 points at every step, one per second. *)
Definition zigzag (n : nat) : list Downsample.RawReading :=
  map (fun i => {| Downsample.time := Z.of_nat i; Downsample.value := if Nat.even i then 0 else 10 |})
      (seq 0 n).

Definition account1 : Account :=
  {| id := "account1"; appKey := "app"; apiKey := "key"; mac := "mac" |}.

(** One configured account, a host on UTC. *)
Definition utc : Config :=
  {| USE_MOCK_DATA := false;
     accounts := [account1];
     localMinute := fun t => (t / 60000)%Z;
     toLocale := fun _ _ => "" |}.

Definition emptyWorld : World :=
  {| historyFile := ∅; settingsFile := None;
     sensorCache := None; sensorCacheTime := 0 |}.

Definition reading (moisture timestamp : Z) : Reading.t :=
  {| Reading.moisture := moisture; Reading.timestamp := timestamp |}.

Definition worldWith (series : list Reading.t) : World :=
  {| historyFile := {[ "account1_soil_ch1" := series ]}; settingsFile := None;
     sensorCache := None; sensorCacheTime := 0 |}.

(** A minute-by-minute run of [n] readings of one sensor, and a world with
    empty files and an empty cache. *)
Fixpoint burstFrom (timestamp : Z) (n : nat) : list (string * Z * Z) :=
  match n with
  | 0 => []
  | S n' =>
      ("account1_soil_ch1", 50%Z, timestamp) :: burstFrom (timestamp + 60000)%Z n'
  end.

Definition burst (n : nat) : list (string * Z * Z) := burstFrom 0 n.

(** A cloud that reports an error, asked at two different times. *)
Definition env0 : Resolver.Env :=
  {| Resolver.now := 600000; Resolver.nowLocal := 600000;
     Resolver.fetchEcowittHistory := fun _ _ _ _ =>
       {| Cloud.error := Some "timeout"; Cloud.data := ∅ |} |}.

Definition envLate : Resolver.Env :=
  {| Resolver.now := 10000000; Resolver.nowLocal := 10000000;
     Resolver.fetchEcowittHistory := fun _ _ _ _ =>
       {| Cloud.error := Some "timeout"; Cloud.data := ∅ |} |}.

(** A cloud answer whose only key is far outside the range of dates: the
    rendering throws, and the catch block answers from the local store with
    the message attached. *)
Definition envBadKey : Resolver.Env :=
  {| Resolver.now := 600000; Resolver.nowLocal := 600000;
     Resolver.fetchEcowittHistory := fun _ _ _ _ =>
       {| Cloud.error := None;
          Cloud.data :=
            {[ "soil_ch1" :=
                 {| Cloud.soilmoisture :=
                      Some {| Cloud.list := Some [(99999999999999%Z, 64%Z)] |} |} ]} |} |}.

(** A poll at time [t] in which the one account reports one sensor. *)
Definition sensor1 : Sensor.t :=
  {| Sensor.id := "account1_soil_ch1"; Sensor.accountId := "account1";
     Sensor.sensorKey := "Channel 1"; Sensor.moisture := 64; Sensor.unit := "%";
     Sensor.ad := Some 210%Z; Sensor.timestamp := Some 1768775100000%Z |}.

Definition pollAt (t : Z) : Poller.Env :=
  {| Poller.nowCheck := t; Poller.nowStored := t; Poller.nowUpdated := t; Poller.nowCached := t;
     Poller.fetchEcowittData := fun a =>
       {| Realtime.accountId := id a; Realtime.error := None;
          Realtime.sensors := [sensor1] |};
     Poller.generateMockSensors := [] |}.

Definition polled : SensorsResponse.t :=
  {| SensorsResponse.sensors := [sensor1]; SensorsResponse.mock := false;
     SensorsResponse.errors := None;
     SensorsResponse.lastUpdated := 1768775100000 |}.

(** A settings file written before thresholds existed, and an update that
    carries only [hidden]. *)
Definition olderSettings : Settings.t :=
  {| Settings.names := Some (JObj [("account1_soil_ch1", JStr "Fern")]);
     Settings.colors := Some (JObj [("account1_soil_ch1", JStr "green")]);
     Settings.order := Some (JArr [JStr "account1_soil_ch1"]);
     Settings.hidden := Some (JArr []);
     Settings.thresholds := None |}.


Definition worldWithSettings (settings : Settings.t) : World :=
  {| historyFile := ∅; settingsFile := Some settings;
     sensorCache := None; sensorCacheTime := 0 |}.

End Samples.

(** ** The configured accounts and the two cloud calls (lines 161-163,
    190-279)

    The network is an input: a call either fails with a message or is answered
    with a parsed JSON body, whose numeric strings are given as numbers. *)
Module ProcessEnv.
Record t := {
  ECOWITT_APP_KEY_1 : option string;
  ECOWITT_API_KEY_1 : option string;
  ECOWITT_MAC_1 : option string;
  ECOWITT_APP_KEY_2 : option string;
  ECOWITT_API_KEY_2 : option string;
  ECOWITT_MAC_2 : option string;
  USE_MOCK_DATA : option string
}.
End ProcessEnv.

Module RawAccount.
Record t := {
  id : string;
  appKey : option string;
  apiKey : option string;
  mac : option string
}.
End RawAccount.

(** The body of a real-time answer: [{ code, msg, data }], [data] as its
    [Object.entries] ([data.data || {}] has none when [data] is missing). *)
Module RealtimeBody.
Record Measure := { value : Z; unit : string; time : Z }.
Record Channel := { soilmoisture : option Measure; ad : option Z }.
Record t := {
  code : option Z;
  msg : option string;
  data : list (string * option Channel)
}.
End RealtimeBody.

(** The body of a history answer. *)
Module HistoryBody.
Record t := {
  code : option Z;
  msg : option string;
  data : option (gmap string Cloud.Channel)
}.
End HistoryBody.

Inductive Net (A : Type) : Type :=
| Failed (message : string)
| Answered (data : A).
Arguments Failed {A} message.
Arguments Answered {A} data.

Module Ecowitt.

Definition credentialed (acc : RawAccount.t) : bool :=
  truthyStr (RawAccount.appKey acc) && truthyStr (RawAccount.apiKey acc)
  && truthyStr (RawAccount.mac acc).

Definition toAccount (acc : RawAccount.t) : Account :=
  {| id := RawAccount.id acc;
     appKey := default "" (RawAccount.appKey acc);
     apiKey := default "" (RawAccount.apiKey acc);
     mac := default "" (RawAccount.mac acc) |}.

(** [const accounts = [ {...}, {...} ].filter(acc => acc.appKey && acc.apiKey
    && acc.mac)] *)
Definition accountsOf (env : ProcessEnv.t) : list Account :=
  map toAccount
    (List.filter credentialed
       [ {| RawAccount.id := "account1";
            RawAccount.appKey := ProcessEnv.ECOWITT_APP_KEY_1 env;
            RawAccount.apiKey := ProcessEnv.ECOWITT_API_KEY_1 env;
            RawAccount.mac := ProcessEnv.ECOWITT_MAC_1 env |};
         {| RawAccount.id := "account2";
            RawAccount.appKey := ProcessEnv.ECOWITT_APP_KEY_2 env;
            RawAccount.apiKey := ProcessEnv.ECOWITT_API_KEY_2 env;
            RawAccount.mac := ProcessEnv.ECOWITT_MAC_2 env |} ]).

(** The configuration of a process started in [env] on a host with the given
    calendar and locale. *)
Definition configOf (env : ProcessEnv.t) (localMinute : Z -> Z)
    (toLocale : LabelStyle -> Z -> string) : Config :=
  {| USE_MOCK_DATA :=
       match ProcessEnv.USE_MOCK_DATA env with
       | Some v => String.eqb v "true"
       | None => false
       end;
     accounts := accountsOf env;
     localMinute := localMinute;
     toLocale := toLocale |}.

(** The loop over [Object.entries(deviceData)]; [inl] is the message of the
    [RangeError] that [toISOString] throws on a time outside the range of
    dates. *)
Fixpoint soilSensors (account : Account)
    (entries : list (string * option RealtimeBody.Channel))
  : string + list Sensor.t :=
  match entries with
  | [] => inr []
  | (key, value) :: rest =>
      match Resolver.stripPrefix "soil_ch" key,
            value ≫= RealtimeBody.soilmoisture with
      | Some channelNum, Some soilmoisture =>
          let ms := (RealtimeBody.time soilmoisture * 1000)%Z in
          if Resolver.validDate ms then
            match soilSensors account rest with
            | inr sensors =>
                inr ({| Sensor.id :=
                          String.append (id account)
                            (String.append "_soil_ch" channelNum);
                        Sensor.accountId := id account;
                        Sensor.sensorKey := String.append "Channel " channelNum;
                        Sensor.moisture := RealtimeBody.value soilmoisture;
                        Sensor.unit := RealtimeBody.unit soilmoisture;
                        Sensor.ad := value ≫= RealtimeBody.ad;
                        Sensor.timestamp := Some ms |} :: sensors)
            | inl message => inl message
            end
          else inl "Invalid time value"
      | _, _ => soilSensors account rest
      end
  end.

(** [data.code !== 0] *)
Definition notZero (code : option Z) : bool :=
  match code with
  | Some c => negb (c =? 0)%Z
  | None => true
  end.

(** [data.msg || 'API error'] *)
Definition apiMessage (msg : option string) : string :=
  if truthyStr msg then default "" msg else "API error".

Definition failedAccount (account : Account) (message : string) : Realtime.t :=
  {| Realtime.accountId := id account;
     Realtime.error := Some message;
     Realtime.sensors := [] |}.

(** [fetchEcowittData], given what the network call gives. *)
Definition fetchEcowittData (net : Account -> Net RealtimeBody.t)
    (account : Account) : Realtime.t :=
  match net account with
  | Failed message => failedAccount account message
  | Answered data =>
      if notZero (RealtimeBody.code data) then
        failedAccount account (apiMessage (RealtimeBody.msg data))
      else
        match soilSensors account (RealtimeBody.data data) with
        | inr sensors =>
            {| Realtime.accountId := id account;
               Realtime.error := None;
               Realtime.sensors := sensors |}
        | inl message => failedAccount account message
        end
  end.

(** [fetchEcowittHistory], given what the network call gives. *)
Definition fetchEcowittHistory
    (net : Account -> Z -> Z -> string -> Net HistoryBody.t)
    (account : Account) (startDate endDate : Z) (channel : string) : Cloud.t :=
  match net account startDate endDate channel with
  | Failed message => {| Cloud.error := Some message; Cloud.data := ∅ |}
  | Answered data =>
      if notZero (HistoryBody.code data) then
        {| Cloud.error := Some (apiMessage (HistoryBody.msg data));
           Cloud.data := ∅ |}
      else
        {| Cloud.error := None;
           Cloud.data := default ∅ (HistoryBody.data data) |}
  end.

(** The environments of the two handlers, over a given network. *)
Definition historyEnv (now nowLocal : Z)
    (net : Account -> Z -> Z -> string -> Net HistoryBody.t) : Resolver.Env :=
  {| Resolver.now := now; Resolver.nowLocal := nowLocal;
     Resolver.fetchEcowittHistory := fetchEcowittHistory net |}.

(** The entries the loop turns into sensors: key beginning with [soil_ch],
    value carrying [soilmoisture]; each with what follows the prefix. *)
Fixpoint soilEntries (entries : list (string * option RealtimeBody.Channel))
  : list (string * RealtimeBody.Measure * option Z) :=
  match entries with
  | [] => []
  | (key, value) :: rest =>
      match Resolver.stripPrefix "soil_ch" key,
            value ≫= RealtimeBody.soilmoisture with
      | Some channelNum, Some soilmoisture =>
          (channelNum, soilmoisture, value ≫= RealtimeBody.ad) :: soilEntries rest
      | _, _ => soilEntries rest
      end
  end.

Definition sensorOf (account : Account)
    (entry : string * RealtimeBody.Measure * option Z) : Sensor.t :=
  let '(channelNum, soilmoisture, ad) := entry in
  {| Sensor.id :=
       String.append (id account) (String.append "_soil_ch" channelNum);
     Sensor.accountId := id account;
     Sensor.sensorKey := String.append "Channel " channelNum;
     Sensor.moisture := RealtimeBody.value soilmoisture;
     Sensor.unit := RealtimeBody.unit soilmoisture;
     Sensor.ad := ad;
     Sensor.timestamp := Some (RealtimeBody.time soilmoisture * 1000)%Z |}.

Definition validEntry (entry : string * RealtimeBody.Measure * option Z) : bool :=
  Resolver.validDate (RealtimeBody.time (snd (fst entry)) * 1000).

End Ecowitt.

(** What one downsampled reading is rendered as. *)
Module Rendering.
Definition cloudPoint (cfg : Config) (period : string) (r : Downsample.RawReading)
  : Point.t :=
  {| Point.timestamp := Downsample.time r * 1000;
     Point.moisture := Downsample.value r;
     Point.label :=
       toLocale cfg (Resolver.labelFormat period) (Downsample.time r * 1000) |}.

Definition validReading (r : Downsample.RawReading) : bool :=
  Resolver.validDate (Downsample.time r * 1000).

Definition parsed (listObj : list (Z * Z)) : list Downsample.RawReading :=
  sort_by Downsample.time
    (map (fun e => {| Downsample.time := fst e; Downsample.value := snd e |})
         listObj).
End Rendering.

(** ** The single-field settings routes that assign a whole field
    (lines 627-643) *)
Module SettingsRoutes.
Import SettingsApi.

(** [settings.order = order] and [settings.hidden = hidden]; a field missing
    from the request body is [None]. *)
Definition setOrder (settings : Settings.t) (order : option JSON) : Settings.t :=
  {| Settings.names := Settings.names settings;
     Settings.colors := Settings.colors settings;
     Settings.order := order;
     Settings.hidden := Settings.hidden settings;
     Settings.thresholds := Settings.thresholds settings |}.

Definition setHidden (settings : Settings.t) (hidden : option JSON) : Settings.t :=
  {| Settings.names := Settings.names settings;
     Settings.colors := Settings.colors settings;
     Settings.order := Settings.order settings;
     Settings.hidden := hidden;
     Settings.thresholds := Settings.thresholds settings |}.

(** [app.post('/api/settings/order', ...)]; the answer is
    [{ success: true, order: settings.order }], given by its [order]. *)
Definition postOrder (order : option JSON) : M (option JSON) :=
  settings <- loadSettings ;;
  let settings := setOrder settings order in
  saveSettings settings ;;
  ret (Settings.order settings).

(** [app.post('/api/settings/hidden', ...)] *)
Definition postHidden (hidden : option JSON) : M (option JSON) :=
  settings <- loadSettings ;;
  let settings := setHidden settings hidden in
  saveSettings settings ;;
  ret (Settings.hidden settings).

(** What [loadSettings] makes of a record. *)
Definition normal (settings : Settings.t) : Settings.t :=
  if falsy (Settings.thresholds settings) then
    {| Settings.names := Settings.names settings;
       Settings.colors := Settings.colors settings;
       Settings.order := Settings.order settings;
       Settings.hidden := Settings.hidden settings;
       Settings.thresholds := Some (JObj []) |}
  else settings.

End SettingsRoutes.

(** ** The date format of the cloud API (lines 206-210)

    [formatEcowittDate] reads six local calendar fields of a date; they are
    given here as a record. *)
Module DateFormat.

Record LocalDate := {
  getFullYear : Z;
  getMonth : nat;
  getDate : nat;
  getHours : nat;
  getMinutes : nat;
  getSeconds : nat
}.

Fixpoint zeros (n : nat) : string :=
  match n with
  | 0 => ""
  | S n' => String "0" (zeros n')
  end.

(** [n.toString().padStart(2, '0')] *)
Definition pad (n : nat) : string :=
  let s := pretty n in
  String.append (zeros (2 - String.length s)) s.

Definition formatEcowittDate (date : LocalDate) : string :=
  String.append (pretty (getFullYear date))
    (String.append "-"
       (String.append (pad (getMonth date + 1))
          (String.append "-"
             (String.append (pad (getDate date))
                (String.append " "
                   (String.append (pad (getHours date))
                      (String.append ":"
                         (String.append (pad (getMinutes date))
                            (String.append ":" (pad (getSeconds date))))))))))).

(** The fields of a date of the common era with a four-digit year. *)
Definition fourDigitYear (date : LocalDate) : Prop :=
  (1000 <= getFullYear date <= 9999)%Z /\
  getMonth date < 12 /\ getDate date < 32 /\ getHours date < 24 /\
  getMinutes date < 60 /\ getSeconds date < 60.

End DateFormat.

(** ** What a poll works with, named *)
Module Polling.
Import Poller.

Definition results (cfg : Config) (env : Env) : list Realtime.t :=
  map (fetchEcowittData env) (accounts cfg).

Definition allSensors (cfg : Config) (env : Env) : list Sensor.t :=
  flat_map Realtime.sensors (results cfg env).

Definition errors (cfg : Config) (env : Env) : list (string * string) :=
  map (fun r => (Realtime.accountId r, default "" (Realtime.error r)))
      (List.filter (fun r => truthyStr (Realtime.error r)) (results cfg env)).

(** The appends the poll makes, one per sensor. *)
Definition appends (env : Env) (sensors : list Sensor.t) : list (string * Z * Z) :=
  map (fun sensor =>
         (Sensor.id sensor, Sensor.moisture sensor,
          default (nowStored env) (Sensor.timestamp sensor)))
      sensors.

(** No snapshot, or one that is 5 seconds old or older. *)
Definition stale (env : Env) (w : World) : Prop :=
  forall snapshot, sensorCache w = Some snapshot ->
    (SENSOR_CACHE_TTL <= nowCheck env - sensorCacheTime w)%Z.

(** The answer of a poll in which not every account failed. *)
Definition polledResponse (cfg : Config) (env : Env) : SensorsResponse.t :=
  {| SensorsResponse.sensors := allSensors cfg env;
     SensorsResponse.mock := false;
     SensorsResponse.errors :=
       if 0 <? length (errors cfg env) then Some (errors cfg env) else None;
     SensorsResponse.lastUpdated :=
       if (latestSensorTime (allSensors cfg env) >? 0)%Z
       then latestSensorTime (allSensors cfg env) else nowUpdated env |}.

Definition storeEvents (sensors : list Sensor.t) : list Event :=
  flat_map (fun _ => [ReadHistoryFile; WriteHistoryFile]) sensors.

End Polling.

(** ** Further sample inputs *)
Module MoreSamples.
Import Samples.

(** A cloud that answers every call with a list for [soil_ch1]. *)
Definition envCloud (listObj : list (Z * Z)) : Resolver.Env :=
  {| Resolver.now := 600000; Resolver.nowLocal := 600000;
     Resolver.fetchEcowittHistory := fun _ _ _ _ =>
       {| Cloud.error := None;
          Cloud.data :=
            {[ "soil_ch1" :=
                 {| Cloud.soilmoisture :=
                      Some {| Cloud.list := Some listObj |} |} ]} |} |}.

(** Two entries as the cloud lists them, newest first. *)
Definition twoEntries : list (Z * Z) :=
  [(1768775400, 63); (1768775100, 64)]%Z.

(** A process with the credentials of the first account only. *)
Definition oneAccountEnv : ProcessEnv.t :=
  {| ProcessEnv.ECOWITT_APP_KEY_1 := Some "app";
     ProcessEnv.ECOWITT_API_KEY_1 := Some "key";
     ProcessEnv.ECOWITT_MAC_1 := Some "mac";
     ProcessEnv.ECOWITT_APP_KEY_2 := Some "app2";
     ProcessEnv.ECOWITT_API_KEY_2 := None;
     ProcessEnv.ECOWITT_MAC_2 := Some "";
     ProcessEnv.USE_MOCK_DATA := None |}.

(** A process without any credentials. *)
Definition bareEnv : ProcessEnv.t :=
  {| ProcessEnv.ECOWITT_APP_KEY_1 := None;
     ProcessEnv.ECOWITT_API_KEY_1 := None;
     ProcessEnv.ECOWITT_MAC_1 := None;
     ProcessEnv.ECOWITT_APP_KEY_2 := None;
     ProcessEnv.ECOWITT_API_KEY_2 := None;
     ProcessEnv.ECOWITT_MAC_2 := None;
     ProcessEnv.USE_MOCK_DATA := None |}.

Definition configUTC (env : ProcessEnv.t) : Config :=
  Ecowitt.configOf env (fun t => (t / 60000)%Z) (fun _ _ => "").

(** A network that is down, and one that answers a real-time call with two
    soil channels and an unrelated key. *)
Definition netDown {A} : Net A := Failed "fetch failed".

Definition twoChannels : RealtimeBody.t :=
  {| RealtimeBody.code := Some 0%Z;
     RealtimeBody.msg := Some "success";
     RealtimeBody.data :=
       [("outdoor", None);
        ("soil_ch1",
         Some {| RealtimeBody.soilmoisture :=
                   Some {| RealtimeBody.value := 64; RealtimeBody.unit := "%";
                           RealtimeBody.time := 1768775100 |};
                 RealtimeBody.ad := Some 210%Z |});
        ("soil_ch2",
         Some {| RealtimeBody.soilmoisture :=
                   Some {| RealtimeBody.value := 38; RealtimeBody.unit := "%";
                           RealtimeBody.time := 1768775160 |};
                 RealtimeBody.ad := None |})] |}.

(** A poll at time [t] over a given network. *)
Definition pollOver (net : Account -> Net RealtimeBody.t) (t : Z) : Poller.Env :=
  {| Poller.nowCheck := t; Poller.nowStored := t; Poller.nowUpdated := t;
     Poller.nowCached := t;
     Poller.fetchEcowittData := Ecowitt.fetchEcowittData net;
     Poller.generateMockSensors := [] |}.

(** 18 January 2026, 22:25:00. *)
Definition eveningDate : DateFormat.LocalDate :=
  {| DateFormat.getFullYear := 2026; DateFormat.getMonth := 0;
     DateFormat.getDate := 18; DateFormat.getHours := 22;
     DateFormat.getMinutes := 25; DateFormat.getSeconds := 0 |}.

(** An update that sets [thresholds] to null. *)
Definition nullThresholds : Settings.t :=
  {| Settings.names := None; Settings.colors := None; Settings.order := None;
     Settings.hidden := None; Settings.thresholds := Some JNull |}.

(** A period the handlers do not know, and a series of three readings. *)
Definition unknownPeriod : string := "3d".

Definition threeReadings : list Reading.t :=
  [Samples.reading 50 60000; Samples.reading 51 120000; Samples.reading 52 180000].

End MoreSamples.

(** * Properties *)

Section SortFacts.
Context {A : Type} (key : A -> Z).

Lemma insert_by_perm (x : A) (l : list A) :
  Permutation (insert_by key x l) (x :: l).
Proof.
  induction l as [|y l IH]; simpl; [reflexivity|].
  destruct (key x <=? key y)%Z; [reflexivity|].
  rewrite IH. apply perm_swap.
Qed.

Lemma sort_by_perm (l : list A) : Permutation (sort_by key l) l.
Proof.
  induction l as [|x l IH]; simpl; [reflexivity|].
  rewrite insert_by_perm. now constructor.
Qed.

Lemma length_sort_by (l : list A) : length (sort_by key l) = length l.
Proof. apply Permutation_length, sort_by_perm. Qed.

Lemma insert_by_hdrel (a x : A) (l : list A) :
  (key a <= key x)%Z ->
  HdRel (fun a b => (key a <= key b)%Z) a l ->
  HdRel (fun a b => (key a <= key b)%Z) a (insert_by key x l).
Proof.
  intros Hax Hl. destruct l as [|y l]; simpl; [now constructor|].
  destruct (key x <=? key y)%Z; constructor; [assumption|].
  now inversion Hl.
Qed.

Lemma insert_by_ascending (x : A) (l : list A) :
  ascending key l -> ascending key (insert_by key x l).
Proof.
  unfold ascending. induction 1 as [|y l Hs IH Hhd]; simpl.
  - repeat constructor.
  - destruct (key x <=? key y)%Z eqn:E.
    + apply Z.leb_le in E. repeat constructor; assumption.
    + apply Z.leb_gt in E. constructor; [assumption|].
      apply insert_by_hdrel; [lia | assumption].
Qed.

Lemma sort_by_ascending (l : list A) : ascending key (sort_by key l).
Proof.
  induction l as [|x l IH]; simpl; [constructor|].
  now apply insert_by_ascending.
Qed.

(** Stability: a list that is already in order is left as it is. *)
Lemma sort_by_id (l : list A) : ascending key l -> sort_by key l = l.
Proof.
  unfold ascending. induction 1 as [|x l Hs IH Hhd]; simpl; [reflexivity|].
  rewrite IH. destruct Hhd as [|y l' Hxy]; simpl; [reflexivity|].
  apply Z.leb_le in Hxy. now rewrite Hxy.
Qed.
End SortFacts.

Lemma ascendingb_sound {A} (key : A -> Z) (l : list A) :
  ascendingb key l = true -> ascending key l.
Proof.
  unfold ascending. induction l as [|x l IH]; [constructor|].
  destruct l as [|y l]; [repeat constructor|].
  intros H. change (((key x <=? key y)%Z && ascendingb key (y :: l)) = true) in H.
  apply andb_prop in H as [H1 H2]. apply Z.leb_le in H1.
  constructor; [now apply IH | now constructor].
Qed.

Module DownsampleFacts.
Import Downsample Samples.

Lemma maxPoints_pos (period : string) : 100 <= maxPoints period.
Proof. unfold maxPoints. repeat case_match; lia. Qed.

Lemma ceil_div_mul (n m : nat) : 0 < m -> n <= m * ceil_div n m.
Proof.
  intros Hm. unfold ceil_div.
  pose proof (Nat.div_mod (n + m - 1) m ltac:(lia)) as E.
  pose proof (Nat.mod_upper_bound (n + m - 1) m ltac:(lia)) as B.
  lia.
Qed.

Lemma ceil_div_pos (n m : nat) : 0 < m -> 0 < n -> 0 < ceil_div n m.
Proof.
  intros Hm Hn. pose proof (ceil_div_mul n m Hm).
  destruct (ceil_div n m); lia.
Qed.

Lemma ceil_div_step (n k : nat) : 0 < k -> 0 < n ->
  ceil_div n k = S (ceil_div (n - k) k).
Proof.
  intros Hk Hn. unfold ceil_div.
  destruct (Nat.le_gt_cases k n) as [Hle|Hgt].
  - replace (n + k - 1) with ((n - k + k - 1) + 1 * k) by lia.
    rewrite Nat.div_add by lia. lia.
  - replace (n - k) with 0 by lia. simpl.
    rewrite (Nat.div_small (k - 1) k) by lia.
    replace (n + k - 1) with ((n - 1) + 1 * k) by lia.
    rewrite Nat.div_add by lia. rewrite Nat.div_small by lia. lia.
Qed.

(** The number of buckets never exceeds the budget. *)
Lemma bucket_count_le (n m : nat) : 0 < m -> 0 < n ->
  ceil_div n (ceil_div n m) <= m.
Proof.
  intros Hm Hn.
  pose proof (ceil_div_mul n m Hm) as Hmul.
  pose proof (ceil_div_pos n m Hm Hn) as Hk.
  set (k := ceil_div n m) in *.
  unfold ceil_div. apply Nat.lt_succ_r.
  apply Nat.Div0.div_lt_upper_bound. nia.
Qed.

Lemma scan_fold (seen rest : list RawReading) (mn mx : RawReading) :
  is_min mn seen -> is_max mx seen ->
  is_min (fst (fold_left scanStep rest (mn, mx))) (seen ++ rest) /\
  is_max (snd (fold_left scanStep rest (mn, mx))) (seen ++ rest).
Proof.
  revert seen mn mx. induction rest as [|p rest IH]; intros seen mn mx Hmn Hmx.
  - rewrite app_nil_r. now split.
  - simpl. replace (seen ++ p :: rest) with ((seen ++ [p]) ++ rest)
      by now rewrite <- app_assoc.
    destruct Hmn as [Imn Lmn], Hmx as [Imx Lmx].
    apply IH; split.
    + destruct (value p <? value mn)%Z; apply in_or_app; simpl; auto.
    + intros q Hq. apply in_app_or in Hq. simpl in Hq.
      destruct (value p <? value mn)%Z eqn:E;
        [apply Z.ltb_lt in E | apply Z.ltb_ge in E];
        destruct Hq as [Hq|[<-|[]]]; try specialize (Lmn _ Hq); lia.
    + destruct (value p >? value mx)%Z; apply in_or_app; simpl; auto.
    + intros q Hq. apply in_app_or in Hq. simpl in Hq.
      rewrite Z.gtb_ltb.
      destruct (value mx <? value p)%Z eqn:E;
        [apply Z.ltb_lt in E | apply Z.ltb_ge in E];
        destruct Hq as [Hq|[<-|[]]]; try specialize (Lmx _ Hq); lia.
Qed.

Lemma scanBucket_spec (first : RawReading) (tl : list RawReading) :
  is_min (fst (scanBucket first (first :: tl))) (first :: tl) /\
  is_max (snd (scanBucket first (first :: tl))) (first :: tl).
Proof.
  unfold scanBucket. simpl.
  rewrite Z.ltb_irrefl, Z.gtb_ltb, Z.ltb_irrefl.
  apply (scan_fold [first] tl first first); split; simpl; auto;
    intros p [<-|[]]; lia.
Qed.

Lemma bucketLoop_unroll (fuel k : nat) (readings : list RawReading) (i : nat) :
  0 < k -> ceil_div (length readings - i) k <= fuel ->
  bucketLoop fuel k readings i =
    Some (flat_map emitBucket (bucketsFrom k readings i)).
Proof.
  intros Hk. revert i. unfold bucketsFrom.
  induction fuel as [|fuel IH]; intros i Hfuel.
  - simpl. destruct (Nat.ltb_spec i (length readings)) as [Hlt|Hge].
    + pose proof (ceil_div_pos (length readings - i) k Hk ltac:(lia)). lia.
    + replace (length readings - i) with 0 by lia.
      unfold ceil_div. simpl. rewrite Nat.div_small by lia. reflexivity.
  - simpl. destruct (Nat.ltb_spec i (length readings)) as [Hlt|Hge].
    + rewrite (ceil_div_step (length readings - i) k) in * by lia.
      replace (length readings - i - k) with (length readings - (i + k))
        in * by lia.
      rewrite IH by lia. simpl. rewrite Nat.add_0_r. do 2 f_equal.
      rewrite <- seq_shift, map_map, flat_map_concat_map, flat_map_concat_map.
      do 2 f_equal. apply map_ext. intros j. f_equal. lia.
    + replace (length readings - i) with 0 by lia.
      unfold ceil_div. simpl. rewrite Nat.div_small by lia. reflexivity.
Qed.

Lemma ceil_div_le (n k : nat) : 0 < k -> ceil_div n k <= n.
Proof.
  intros Hk. destruct n as [|n].
  - unfold ceil_div. simpl. rewrite Nat.div_small by lia. lia.
  - unfold ceil_div. apply Nat.lt_succ_r.
    apply Nat.Div0.div_lt_upper_bound. nia.
Qed.

Lemma downsample_over (period : string) (readings : list RawReading) :
  maxPoints period < length readings ->
  downsample period readings =
    Some (sort_by time (flat_map emitBucket
      (bucketsFrom (ceil_div (length readings) (maxPoints period)) readings 0))).
Proof.
  intros Hlen. unfold downsample.
  pose proof (maxPoints_pos period) as Hm.
  destruct (Nat.leb_spec (length readings) (maxPoints period)); [lia|].
  rewrite bucketLoop_unroll; [reflexivity| |].
  - apply ceil_div_pos; lia.
  - rewrite Nat.sub_0_r. apply ceil_div_le, ceil_div_pos; lia.
Qed.

Lemma emitBucket_length (bucket : list RawReading) :
  length (emitBucket bucket) <= 2 /\ length (emitBucket bucket) <= length bucket.
Proof.
  destruct bucket as [|first tl]; simpl; [lia|].
  unfold emitBucket.
  destruct (scanBucket first (first :: tl)) as [mn mx] eqn:E.
  destruct tl as [|second tl].
  - unfold scanBucket in E. simpl in E.
    rewrite Z.ltb_irrefl, Z.gtb_ltb, Z.ltb_irrefl in E.
    injection E as <- <-. rewrite Z.ltb_irrefl, Z.sub_diag. simpl. lia.
  - repeat case_match; simpl; lia.
Qed.

Lemma flat_emit_length (buckets : list (list RawReading)) :
  length (flat_map emitBucket buckets) <= 2 * length buckets /\
  length (flat_map emitBucket buckets) <= length (concat buckets).
Proof.
  induction buckets as [|b bs [IH1 IH2]]; simpl; [lia|].
  rewrite !length_app. pose proof (emitBucket_length b). lia.
Qed.

Lemma bucketAt_take (k : nat) (readings : list RawReading) (i : nat) :
  bucketAt k readings i = take k (drop i readings).
Proof.
  unfold bucketAt, slice.
  destruct (Nat.le_gt_cases (i + k) (length readings)) as [Hle|Hgt].
  - rewrite Nat.min_l by lia. f_equal. lia.
  - rewrite Nat.min_r by lia.
    rewrite !take_ge; [reflexivity| |]; rewrite length_drop; lia.
Qed.

Lemma concat_chunks (k c : nat) (readings : list RawReading) :
  concat (map (fun j => bucketAt k readings (0 + j * k)) (seq 0 c))
  = take (c * k) readings.
Proof.
  induction c as [|c IH]; [reflexivity|].
  rewrite seq_S, map_app, concat_app, IH. simpl.
  rewrite app_nil_r, bucketAt_take, take_take_drop. f_equal. lia.
Qed.

(** The buckets partition the input, in order. *)
Lemma buckets_partition (k : nat) (readings : list RawReading) :
  0 < k -> concat (bucketsFrom k readings 0) = readings.
Proof.
  intros Hk. unfold bucketsFrom. rewrite concat_chunks, Nat.sub_0_r.
  apply take_ge. pose proof (ceil_div_mul (length readings) k Hk). lia.
Qed.



(** The loop never runs out of fuel: the engine always returns. *)
Lemma downsample_total (period : string) (readings : list RawReading) :
  exists out, downsample period readings = Some out.
Proof.
  destruct (Nat.le_gt_cases (length readings) (maxPoints period)) as [Hle|Hgt].
  - exists readings. unfold downsample.
    destruct (Nat.leb_spec (length readings) (maxPoints period)); [reflexivity|lia].
  - eexists. now apply downsample_over.
Qed.

(** The two buckets of the specification's examples: a swing from 20 to 80
    keeps both extrema in time order, a step from 50 to 51 keeps one point. *)
Example emitBucket_swing :
  emitBucket [{| time := 1; value := 50 |}; {| time := 2; value := 20 |};
              {| time := 3; value := 80 |}; {| time := 4; value := 55 |}]
  = [{| time := 2; value := 20 |}; {| time := 3; value := 80 |}].
Proof. reflexivity. Qed.

Example emitBucket_flat :
  emitBucket [{| time := 1; value := 50 |}; {| time := 2; value := 51 |}]
  = [{| time := 1; value := 50 |}].
Proof. reflexivity. Qed.

(** C1, as stated, fails: 201 readings that swing by 10 points at every step
    are cut into 101 buckets for the one-year budget of 200, and every
    two-element bucket hands back both of its readings. *)
Lemma downsample_budget_counterexample :
  ~ (forall period readings out,
       ascending time readings ->
       maxPoints period < length readings ->
       downsample period readings = Some out ->
       length out <= maxPoints period).
Proof.
  intros H.
  specialize (H "1y" (zigzag 201) (zigzag 201)).
  assert (length (zigzag 201) <= maxPoints "1y") as Hbad.
  { apply H.
    - apply ascendingb_sound. vm_compute. reflexivity.
    - vm_compute. lia.
    - vm_compute. reflexivity. }
  vm_compute in Hbad. lia.
Qed.

(** C1, amended: over budget, the loop visits at most [maxPoints] buckets and
    each bucket hands back one or two of its readings, so the output has at
    most twice the budget's number of points and never more points than the
    input. *)
Theorem downsample_point_bound (period : string) (readings : list RawReading) :
  maxPoints period < length readings ->
  exists out,
    downsample period readings = Some out /\
    length (bucketsFrom (ceil_div (length readings) (maxPoints period))
                        readings 0) <= maxPoints period /\
    length out <= 2 * maxPoints period /\
    length out <= length readings.
Proof.
  intros Hlen. pose proof (maxPoints_pos period) as Hm.
  eexists. split; [now apply downsample_over|].
  set (k := ceil_div (length readings) (maxPoints period)).
  assert (0 < k) as Hk by (apply ceil_div_pos; lia).
  assert (length (bucketsFrom k readings 0) <= maxPoints period) as Hcount.
  { unfold bucketsFrom. rewrite length_map, length_seq, Nat.sub_0_r.
    apply bucket_count_le; lia. }
  split; [assumption|]. rewrite length_sort_by.
  pose proof (flat_emit_length (bucketsFrom k readings 0)) as [H2 Hn].
  rewrite buckets_partition in Hn by assumption. lia.
Qed.

Lemma downsample_point_bound_witness :
  maxPoints "1y" < length (zigzag 201) /\
  exists out,
    downsample "1y" (zigzag 201) = Some out /\
    length (bucketsFrom (ceil_div (length (zigzag 201)) (maxPoints "1y"))
                        (zigzag 201) 0) <= maxPoints "1y" /\
    length out <= 2 * maxPoints "1y" /\
    length out <= length (zigzag 201).
Proof.
  assert (maxPoints "1y" < length (zigzag 201)) as H by (vm_compute; lia).
  split; [exact H | exact (downsample_point_bound "1y" (zigzag 201) H)].
Defined.



(** C8: at or under the budget the readings come back as they are, so a
    second pass over that result changes nothing. *)
Theorem downsample_under_budget (period : string) (readings : list RawReading) :
  length readings <= maxPoints period ->
  downsample period readings = Some readings /\
  downsample period readings ≫= downsample period = downsample period readings.
Proof.
  intros Hlen.
  assert (downsample period readings = Some readings) as E.
  { unfold downsample.
    destruct (Nat.leb_spec (length readings) (maxPoints period)); [reflexivity|lia]. }
  split; [exact E|]. rewrite E. simpl. exact E.
Qed.

Lemma downsample_under_budget_witness :
  length (zigzag 4) <= maxPoints "7d" /\
  downsample "7d" (zigzag 4) = Some (zigzag 4) /\
  downsample "7d" (zigzag 4) ≫= downsample "7d" = downsample "7d" (zigzag 4).
Proof.
  assert (length (zigzag 4) <= maxPoints "7d") as H by (vm_compute; lia).
  split; [exact H | exact (downsample_under_budget "7d" (zigzag 4) H)].
Defined.

End DownsampleFacts.

(** ** The monad *)
Lemma world_of_bind {A B} (m : M A) (k : A -> M B) (w : World) :
  world_of (bind m k w) = world_of (k (value_of (m w)) (world_of (m w))).
Proof.
  unfold bind, world_of, value_of. destruct (m w) as [[a w1] t1]. simpl.
  destruct (k a w1) as [[b w2] t2]. reflexivity.
Qed.

Lemma value_of_bind {A B} (m : M A) (k : A -> M B) (w : World) :
  value_of (bind m k w) = value_of (k (value_of (m w)) (world_of (m w))).
Proof.
  unfold bind, world_of, value_of. destruct (m w) as [[a w1] t1]. simpl.
  destruct (k a w1) as [[b w2] t2]. reflexivity.
Qed.

Lemma trace_of_bind {A B} (m : M A) (k : A -> M B) (w : World) :
  trace_of (bind m k w) =
  trace_of (m w) ++ trace_of (k (value_of (m w)) (world_of (m w))).
Proof.
  unfold bind, world_of, value_of, trace_of. destruct (m w) as [[a w1] t1]. simpl.
  destruct (k a w1) as [[b w2] t2]. reflexivity.
Qed.

Module StoreFacts.
Import Store Samples.

Lemma lastN_length {A} (n : nat) (l : list A) :
  length (lastN n l) = Nat.min n (length l).
Proof. unfold lastN. rewrite length_drop. lia. Qed.

Lemma lastN_app {A} (n : nat) (a b : list A) :
  lastN n (a ++ b) = lastN (n - length b) a ++ lastN n b.
Proof.
  unfold lastN. rewrite drop_app, length_app.
  destruct (Nat.le_gt_cases (length b) n) as [Hle|Hgt].
  - f_equal; f_equal; lia.
  - rewrite (drop_ge a) by lia. rewrite (drop_ge a) by lia.
    simpl. f_equal. lia.
Qed.

Lemma lastN_lastN {A} (m n : nat) (l : list A) :
  m <= n -> lastN m (lastN n l) = lastN m l.
Proof.
  intros Hmn. unfold lastN. rewrite drop_drop, length_drop. f_equal. lia.
Qed.

Lemma lastN_app_lastN {A} (n : nat) (a b : list A) :
  lastN n (lastN n a ++ b) = lastN n (a ++ b).
Proof. rewrite !lastN_app, lastN_lastN by lia. reflexivity. Qed.

Lemma lastN_all {A} (n : nat) (l : list A) : length l <= n -> lastN n l = l.
Proof. intros H. unfold lastN. replace (length l - n) with 0 by lia. reflexivity. Qed.

(** The guard around [slice(-50000)] changes nothing: the slice of a short
    series is the series. *)
Lemma capped_lastN {A} (n : nat) (l : list A) :
  (if n <? length l then lastN n l else l) = lastN n l.
Proof.
  destruct (Nat.ltb_spec n (length l)); [reflexivity|].
  symmetry. apply lastN_all. lia.
Qed.

Lemma storeReading_history (sensorId : string) (moisture timestamp : Z) (w : World) :
  historyFile (world_of (storeReading sensorId moisture timestamp w)) =
  <[sensorId :=
      lastN retentionCap
        (default [] (historyFile w !! sensorId) ++
         [{| Reading.moisture := moisture; Reading.timestamp := timestamp |}])]>
    (historyFile w).
Proof.
  unfold storeReading, bind, loadHistory, saveHistory, world_of. simpl.
  rewrite capped_lastN. reflexivity.
Qed.

Lemma storeAll_cons (a : string * Z * Z) (appends : list (string * Z * Z)) (w : World) :
  world_of (storeAll (a :: appends) w) =
  world_of (storeAll appends
              (world_of (storeReading (fst (fst a)) (snd (fst a)) (snd a) w))).
Proof.
  unfold storeAll. cbn [forEach]. apply world_of_bind.
Qed.

(** What a run of appends leaves under a sensor's key. *)
Lemma storeAll_lookup (appends : list (string * Z * Z)) (w : World) (sensorId : string) :
  historyFile (world_of (storeAll appends w)) !! sensorId =
  match appendsFor sensorId appends with
  | [] => historyFile w !! sensorId
  | mine =>
      Some (lastN retentionCap (default [] (historyFile w !! sensorId) ++ mine))
  end.
Proof.
  revert w. induction appends as [|[[sid m] t] appends IH]; intros w.
  - reflexivity.
  - rewrite storeAll_cons, IH, storeReading_history. clear IH.
    unfold appendsFor. simpl.
    destruct (String.eqb_spec sid sensorId) as [->|Hne].
    + rewrite lookup_insert_eq. simpl.
      destruct (map _ (List.filter _ appends)) as [|r mine]; [reflexivity|].
      rewrite lastN_app_lastN, <- app_assoc. reflexivity.
    + rewrite lookup_insert_ne by assumption. reflexivity.
Qed.

(** C2: once more than 50,000 readings have been appended for a sensor, its
    stored series is exactly the last 50,000 of them, in the order they were
    appended, whatever was stored before and whatever was appended for other
    sensors in between. *)
Theorem retention_invariant (w : World) (appends : list (string * Z * Z))
    (sensorId : string) :
  retentionCap < length (appendsFor sensorId appends) ->
  exists series,
    historyFile (world_of (storeAll appends w)) !! sensorId = Some series /\
    length series = retentionCap /\
    series = lastN retentionCap (appendsFor sensorId appends) /\
    exists evicted, appendsFor sensorId appends = evicted ++ series.
Proof.
  intros Hlen.
  exists (lastN retentionCap (appendsFor sensorId appends)).
  rewrite storeAll_lookup.
  destruct (appendsFor sensorId appends) as [|r mine] eqn:E;
    [simpl in Hlen; lia|]. rewrite <- E in *. clear E r mine.
  generalize dependent retentionCap. intros cap Hlen.
  split; [|split; [|split]].
  - f_equal. rewrite lastN_app.
    replace (cap - length (appendsFor sensorId appends)) with 0 by lia.
    unfold lastN at 1. rewrite Nat.sub_0_r, drop_all. reflexivity.
  - rewrite lastN_length. lia.
  - reflexivity.
  - exists (take (length (appendsFor sensorId appends) - cap)
                 (appendsFor sensorId appends)).
    unfold lastN. symmetry. apply take_drop.
Qed.

Lemma retention_invariant_witness :
  retentionCap < length (appendsFor "account1_soil_ch1" (burst 50001)) /\
  exists series,
    historyFile (world_of (storeAll (burst 50001) emptyWorld))
      !! "account1_soil_ch1" = Some series /\
    length series = retentionCap /\
    series = lastN retentionCap (appendsFor "account1_soil_ch1" (burst 50001)) /\
    exists evicted,
      appendsFor "account1_soil_ch1" (burst 50001) = evicted ++ series.
Proof.
  assert (retentionCap < length (appendsFor "account1_soil_ch1" (burst 50001)))
    as H by (apply Nat.ltb_lt; vm_compute; reflexivity).
  split; [exact H|].
  exact (retention_invariant emptyWorld (burst 50001) "account1_soil_ch1" H).
Defined.

(** *** Every k-th element *)
Lemma everyNthFrom_shift {A} (k i : nat) (l : list A) :
  0 < k -> everyNthFrom k (i + k) l = everyNthFrom k i l.
Proof.
  intros Hk. revert i. induction l as [|x l IH]; intros i; simpl; [reflexivity|].
  replace (i + k) with (i + 1 * k) by lia.
  rewrite Nat.Div0.mod_add. replace (S (i + 1 * k)) with (S i + k) by lia.
  rewrite IH. reflexivity.
Qed.

Lemma everyNthFrom_skip {A} (k i : nat) (l : list A) :
  0 < i <= k -> everyNthFrom k i l = everyNth k (drop (k - i) l).
Proof.
  unfold everyNth. revert i. induction l as [|x l IH]; intros i Hi.
  - rewrite drop_nil. reflexivity.
  - destruct (Nat.eq_dec i k) as [->|Hne].
    + rewrite Nat.sub_diag. simpl. rewrite Nat.Div0.mod_same. simpl.
      rewrite Nat.Div0.mod_0_l. simpl. f_equal.
      apply (everyNthFrom_shift k 1 l). lia.
    + simpl. rewrite Nat.mod_small by lia.
      destruct (Nat.eqb_spec i 0) as [|_]; [lia|].
      rewrite IH by lia. replace (k - i) with (S (k - S i)) by lia. reflexivity.
Qed.

Lemma everyNth_cons {A} (k : nat) (x : A) (l : list A) :
  0 < k -> everyNth k (x :: l) = x :: everyNth k (drop (k - 1) l).
Proof.
  intros Hk. unfold everyNth at 1. simpl. rewrite Nat.Div0.mod_0_l. simpl.
  f_equal. apply everyNthFrom_skip. lia.
Qed.

(** The filter keeps the elements at positions 0, k, 2k, ... *)
Lemma everyNth_lookup {A} (k : nat) (l : list A) (j : nat) :
  0 < k -> everyNth k l !! j = l !! (j * k).
Proof.
  intros Hk. revert l. induction j as [|j IH]; intros l.
  - destruct l as [|x l]; [reflexivity|]. rewrite everyNth_cons by assumption.
    reflexivity.
  - destruct l as [|x l]; [reflexivity|]. rewrite everyNth_cons by assumption.
    simpl. rewrite IH, lookup_drop.
    replace (k + j * k) with (S (k - 1 + j * k)) by lia. reflexivity.
Qed.

Lemma everyNth_one {A} (l : list A) : everyNth 1 l = l.
Proof.
  induction l as [|x l IH]; [reflexivity|].
  rewrite everyNth_cons by lia. simpl. rewrite drop_0. now f_equal.
Qed.

Lemma everyNthFrom_In {A} (k i : nat) (l : list A) (x : A) :
  In x (everyNthFrom k i l) -> In x l.
Proof.
  revert i. induction l as [|y l IH]; intros i; simpl; [tauto|].
  destruct (i mod k =? 0); simpl; intros H; [destruct H|]; eauto.
Qed.

Lemma skipFactor_pos (period : string) : 0 < skipFactor period.
Proof. unfold skipFactor. repeat case_match; lia. Qed.

(** *** Order is kept by the filters *)
Lemma ascending_strong {A} (key : A -> Z) (l : list A) :
  ascending key l <-> StronglySorted (fun a b => (key a <= key b)%Z) l.
Proof.
  unfold ascending. split.
  - apply Sorted_StronglySorted. intros a b c. lia.
  - apply StronglySorted_Sorted.
Qed.

Lemma ascending_filter {A} (key : A -> Z) (f : A -> bool) (l : list A) :
  ascending key l -> ascending key (List.filter f l).
Proof.
  rewrite !ascending_strong. induction 1 as [|x l Hs IH Hall]; simpl.
  - constructor.
  - destruct (f x); [|assumption]. constructor; [assumption|].
    rewrite List.Forall_forall in *. intros y Hy. apply filter_In in Hy.
    apply Hall, Hy.
Qed.

Lemma ascending_everyNthFrom {A} (key : A -> Z) (k i : nat) (l : list A) :
  ascending key l -> ascending key (everyNthFrom k i l).
Proof.
  rewrite !ascending_strong. intros Hs. revert i.
  induction Hs as [|x l Hs IH Hall]; intros i; simpl.
  - constructor.
  - destruct (i mod k =? 0); [|apply IH]. constructor; [apply IH|].
    rewrite List.Forall_forall in *. intros y Hy.
    apply Hall. eapply everyNthFrom_In, Hy.
Qed.

Lemma ascending_map {A B} (key : B -> Z) (f : A -> B) (l : list A) :
  ascending key (map f l) <-> ascending (fun a => key (f a)) l.
Proof.
  rewrite !ascending_strong. induction l as [|x l IH]; simpl.
  - split; constructor.
  - split; intros H; inversion H; subst; constructor;
      try (apply IH; assumption);
      rewrite List.Forall_forall in *; intros y Hy.
    + match goal with H : forall _, In _ (map f l) -> _ |- _ =>
        apply H, in_map, Hy end.
    + apply in_map_iff in Hy as (a & <- & Ha). auto.
Qed.

(** *** One reading per minute, first seen wins *)
Section Dedup.
Variable minuteKey : Reading.t -> Z.

Lemma find_snoc {A} (f : A -> bool) (l : list A) (x : A) :
  List.find f (l ++ [x]) =
  match List.find f l with
  | Some y => Some y
  | None => if f x then Some x else None
  end.
Proof.
  induction l as [|y l IH]; simpl; [reflexivity|].
  destruct (f y); [reflexivity | exact IH].
Qed.

Lemma mapHas_spec (seen : list (Z * Reading.t)) (key : Z) :
  mapHas seen key = true <-> In key (map fst seen).
Proof.
  unfold mapHas. rewrite existsb_exists, in_map_iff. split.
  - intros (e & He & Hk). apply Z.eqb_eq in Hk. eauto.
  - intros (e & Hk & He). exists e. split; [assumption|]. now apply Z.eqb_eq.
Qed.

Lemma seeReading_inv (seen : list (Z * Reading.t)) (processed : list Reading.t)
    (r : Reading.t) :
  seenInv minuteKey seen processed ->
  seenInv minuteKey (seeReading minuteKey seen r) (processed ++ [r]).
Proof.
  intros [Hnd Hfirst Hall]. unfold seeReading.
  destruct (mapHas seen (minuteKey r)) eqn:Hhas.
  - apply mapHas_spec, in_map_iff in Hhas as (e0 & Hk0 & He0).
    split; [assumption| |].
    + intros e He. destruct (Hfirst e He) as [Hk Hf].
      split; [assumption|]. rewrite find_snoc, Hf. reflexivity.
    + intros r' Hr'. apply in_app_or in Hr' as [Hr'|[<-|[]]]; eauto.
  - assert (~ In (minuteKey r) (map fst seen)) as Hfresh.
    { intros Hin. apply mapHas_spec in Hin. congruence. }
    split.
    + rewrite map_app. simpl. apply NoDup_app. split; [assumption|].
      split; [|apply NoDup_singleton].
      intros k Hk Hk'. apply list_elem_of_In in Hk, Hk'.
      destruct Hk' as [<-|[]]. contradiction.
    + intros e He. apply in_app_or in He as [He|[<-|[]]].
      * destruct (Hfirst e He) as [Hk Hf]. split; [assumption|].
        rewrite find_snoc, Hf. reflexivity.
      * simpl. split; [reflexivity|]. rewrite find_snoc.
        destruct (List.find (sameMinute minuteKey (minuteKey r)) processed) as [r'|] eqn:Hf.
        -- apply find_some in Hf as [Hin Hsame].
           unfold sameMinute in Hsame. apply Z.eqb_eq in Hsame.
           destruct (Hall r' Hin) as (e & He & Hk).
           exfalso. apply Hfresh. rewrite <- Hsame, <- Hk. now apply in_map.
        -- unfold sameMinute. rewrite Z.eqb_refl. reflexivity.
    + intros r' Hr'. apply in_app_or in Hr' as [Hr'|[<-|[]]].
      * destruct (Hall r' Hr') as (e & He & Hk). exists e.
        split; [apply in_or_app; now left | assumption].
      * exists (minuteKey r, r). split; [|reflexivity].
        apply in_or_app. right. now left.
Qed.

Lemma fold_seen_inv (rest : list Reading.t) (seen : list (Z * Reading.t))
    (processed : list Reading.t) :
  seenInv minuteKey seen processed ->
  seenInv minuteKey (fold_left (seeReading minuteKey) rest seen) (processed ++ rest).
Proof.
  revert seen processed. induction rest as [|r rest IH]; intros seen processed H.
  - rewrite app_nil_r. exact H.
  - simpl. replace (processed ++ r :: rest) with ((processed ++ [r]) ++ rest)
      by now rewrite <- app_assoc.
    apply IH, seeReading_inv, H.
Qed.

Lemma dedup_inv (l : list Reading.t) :
  seenInv minuteKey (fold_left (seeReading minuteKey) l []) l.
Proof.
  apply (fold_seen_inv l [] []). split; simpl; [constructor|tauto|tauto].
Qed.

Lemma dedupBy_keys (l : list Reading.t) :
  map minuteKey (dedupBy minuteKey l) = map fst (fold_left (seeReading minuteKey) l []).
Proof.
  unfold dedupBy. rewrite map_map. apply map_ext_in.
  intros e He. symmetry. apply (seen_first _ _ _ (dedup_inv l) e He).
Qed.

Lemma dedupBy_nodup (l : list Reading.t) : NoDup (map minuteKey (dedupBy minuteKey l)).
Proof. rewrite dedupBy_keys. apply (seen_nodup _ _ _ (dedup_inv l)). Qed.

Lemma dedupBy_first (l : list Reading.t) (r : Reading.t) :
  In r (dedupBy minuteKey l) -> List.find (sameMinute minuteKey (minuteKey r)) l = Some r.
Proof.
  unfold dedupBy. intros Hr. apply in_map_iff in Hr as (e & <- & He).
  destruct (seen_first _ _ _ (dedup_inv l) e He) as [Hk Hf].
  rewrite <- Hk. exact Hf.
Qed.

Lemma dedupBy_covers (l : list Reading.t) (r : Reading.t) :
  In r l -> exists r', In r' (dedupBy minuteKey l) /\ minuteKey r' = minuteKey r.
Proof.
  intros Hr. destruct (seen_all _ _ _ (dedup_inv l) r Hr) as (e & He & Hk).
  exists (snd e). split; [unfold dedupBy; now apply in_map|].
  destruct (seen_first _ _ _ (dedup_inv l) e He) as [Hk' _]. congruence.
Qed.

Lemma dedupBy_In (l : list Reading.t) (r : Reading.t) : In r (dedupBy minuteKey l) -> In r l.
Proof. intros Hr. apply dedupBy_first, find_some in Hr. tauto. Qed.
End Dedup.

(** *** The local query *)
Lemma getHistory_run (cfg : Config) (now : Z) (sensorId period : string) (w : World) :
  getHistory cfg now sensorId period w =
  (map (toPoint cfg period)
       (selectReadings cfg now period (default [] (historyFile w !! sensorId))),
   w, [ReadHistoryFile]).
Proof.
  unfold getHistory, bind, loadHistory, ret.
  destruct (default [] (historyFile w !! sensorId)) as [|r readings]; simpl.
  - unfold selectReadings. simpl. destruct (String.eqb period "1h"); reflexivity.
  - reflexivity.
Qed.

(** C4, as stated, fails: of two retained readings inside the 24-hour window
    the query for [24h] hands back only the first, because it keeps every
    fifth reading. *)
Lemma local_query_counterexample :
  ~ (forall cfg now sensorId period w r,
       In r (default [] (historyFile w !! sensorId)) ->
       (cutoffTime period now <= Reading.timestamp r)%Z ->
       In (toPoint cfg period r)
          (value_of (getHistory cfg now sensorId period w))).
Proof.
  intros H.
  specialize (H utc 600000%Z "account1_soil_ch1" "24h"
                (worldWith [reading 50 60000; reading 51 120000])
                (reading 51 120000)).
  assert (In (toPoint utc "24h" (reading 51 120000))
             [toPoint utc "24h" (reading 50 60000)]) as Hin.
  { apply H.
    - vm_compute. auto.
    - vm_compute. discriminate. }
  destruct Hin as [E|[]]. vm_compute in E. discriminate.
Qed.

(** C4, amended: the local query keeps, in stored order, the retained readings
    at or after the cutoff and returns those at positions 0, k, 2k, ... of
    them, k being the period's skip factor; for [1h] the readings kept are
    further reduced to one per minute and sorted.  What is returned is in
    ascending time order whenever the stored series is, and always for
    [1h]. *)
Theorem local_query_selection (cfg : Config) (now : Z) (sensorId period : string)
    (w : World) :
  let stored := default [] (historyFile w !! sensorId) in
  let inWindow :=
    List.filter (fun r => (cutoffTime period now <=? Reading.timestamp r)%Z) stored in
  let picked := everyNth (skipFactor period) inWindow in
  let kept :=
    if String.eqb period "1h" then sort_by Reading.timestamp (dedupMinute cfg picked)
    else picked in
  getHistory cfg now sensorId period w =
    (map (toPoint cfg period) kept, w, [ReadHistoryFile]) /\
  (forall j, picked !! j = inWindow !! (j * skipFactor period)) /\
  (forall r, In r kept ->
     In r stored /\ (cutoffTime period now <= Reading.timestamp r)%Z) /\
  (period = "1h" -> ascending Point.timestamp (map (toPoint cfg period) kept)) /\
  (ascending Reading.timestamp stored ->
   ascending Point.timestamp (map (toPoint cfg period) kept)).
Proof.
  intros stored inWindow picked kept.
  assert (forall r, In r picked ->
            In r stored /\ (cutoffTime period now <= Reading.timestamp r)%Z) as Hpicked.
  { intros r Hr. apply everyNthFrom_In, filter_In in Hr as [Hin Hcut].
    split; [assumption | now apply Z.leb_le]. }
  assert (String.eqb period "1h" = true ->
          ascending Point.timestamp (map (toPoint cfg period) kept)) as Hhour.
  { intros E. subst kept. rewrite E. apply ascending_map. simpl.
    apply sort_by_ascending. }
  split; [apply getHistory_run|].
  split; [intros j; apply everyNth_lookup, skipFactor_pos|].
  split; [|split].
  - subst kept. destruct (String.eqb period "1h"); [|exact Hpicked].
    intros r Hr. apply Hpicked.
    apply (Permutation_in _ (sort_by_perm Reading.timestamp _)) in Hr.
    eapply dedupBy_In, Hr.
  - intros ->. now apply Hhour.
  - intros Hasc. subst kept.
    destruct (String.eqb period "1h") eqn:E; [now apply Hhour|].
    apply ascending_map. simpl.
    apply ascending_everyNthFrom, ascending_filter, Hasc.
Qed.

Lemma local_query_selection_witness :
  ascending Reading.timestamp
    (default [] (historyFile (worldWith [reading 50 60000; reading 51 120000])
                   !! "account1_soil_ch1")) /\
  ascending Point.timestamp
    (map (toPoint utc "24h")
       (everyNth (skipFactor "24h")
          (List.filter
             (fun r => (cutoffTime "24h" 600000 <=? Reading.timestamp r)%Z)
             (default [] (historyFile (worldWith [reading 50 60000; reading 51 120000])
                            !! "account1_soil_ch1"))))).
Proof.
  assert (ascending Reading.timestamp
    (default [] (historyFile (worldWith [reading 50 60000; reading 51 120000])
                   !! "account1_soil_ch1"))) as H.
  { apply ascendingb_sound. vm_compute. reflexivity. }
  split; [exact H|].
  apply (local_query_selection utc 600000 "account1_soil_ch1" "24h"
           (worldWith [reading 50 60000; reading 51 120000])).
  exact H.
Defined.

End StoreFacts.

Module ResolverFacts.
Import Store Resolver StoreFacts Samples.

Lemma append_cons (x : ascii) (a b : string) :
  String.append (String x a) b = String x (String.append a b).
Proof. reflexivity. Qed.

Lemma append_empty_l (a : string) : String.append "" a = a.
Proof. reflexivity. Qed.

Lemma append_assoc (a b c : string) :
  String.append (String.append a b) c = String.append a (String.append b c).
Proof.
  induction a as [|x a IH]; [reflexivity|].
  rewrite !append_cons. f_equal. exact IH.
Qed.

Lemma append_empty_r (a : string) : String.append a "" = a.
Proof.
  induction a as [|x a IH]; [reflexivity|].
  rewrite append_cons. f_equal. exact IH.
Qed.

Lemma stripPrefix_spec (p s r : string) :
  stripPrefix p s = Some r <-> s = String.append p r.
Proof.
  revert s. induction p as [|a p IH]; intros s; simpl.
  - rewrite append_empty_l. split; congruence.
  - rewrite append_cons. destruct s as [|b s]; [split; discriminate|].
    destruct (Ascii.eqb_spec a b) as [->|Hne].
    + rewrite IH. split; congruence.
    + split; [discriminate | congruence].
Qed.

Lemma spanDigits_spec (s : string) :
  s = String.append (fst (spanDigits s)) (snd (spanDigits s)) /\
  allDigits (fst (spanDigits s)) = true /\
  startsWithDigit (snd (spanDigits s)) = false.
Proof.
  induction s as [|c s (IH1 & IH2 & IH3)]; simpl; [auto|].
  destruct (isDigit c) eqn:Hc.
  - destruct (spanDigits s) as [ds rest]. simpl in *.
    rewrite append_cons, Hc, IH2. repeat split; [congruence | assumption].
  - simpl. auto.
Qed.

Lemma spanDigits_app (ds rest : string) :
  allDigits ds = true -> startsWithDigit rest = false ->
  spanDigits (String.append ds rest) = (ds, rest).
Proof.
  intros Hds Hrest. induction ds as [|c ds IH].
  - rewrite append_empty_l.
    destruct rest as [|c rest]; [reflexivity|]. simpl in *. now rewrite Hrest.
  - simpl in Hds. apply andb_prop in Hds as [Hc Hds].
    rewrite append_cons. simpl. rewrite Hc, IH by assumption. reflexivity.
Qed.

Lemma eqb_empty (s : string) : String.eqb s "" = false <-> s <> "".
Proof. destruct (String.eqb_spec s ""); split; congruence. Qed.

(** The matcher accepts exactly the ids of the pattern. *)
Lemma matchSensorId_spec (sensorId accountId channel : string) :
  matchSensorId sensorId = Some (accountId, channel) <->
  wellFormedId sensorId accountId channel.
Proof.
  unfold matchSensorId, wellFormedId. split.
  - destruct (stripPrefix "account" sensorId) as [afterAccount|] eqn:E1;
      [|discriminate].
    apply stripPrefix_spec in E1.
    pose proof (spanDigits_spec afterAccount) as (S1 & D1 & _).
    destruct (spanDigits afterAccount) as [digits afterDigits]. cbn [fst snd] in *.
    destruct (String.eqb digits "") eqn:N1; [discriminate|].
    destruct (stripPrefix "_soil_ch" afterDigits) as [afterChannel|] eqn:E2;
      [|discriminate].
    apply stripPrefix_spec in E2.
    pose proof (spanDigits_spec afterChannel) as (S2 & D2 & _).
    destruct (spanDigits afterChannel) as [ch rest]. cbn [fst snd] in *.
    destruct (String.eqb ch "") eqn:N2; [discriminate|].
    destruct (String.eqb_spec rest "") as [->|]; [|discriminate].
    intros [= <- <-]. exists digits.
    rewrite append_empty_r in S2. subst afterChannel.
    apply eqb_empty in N1, N2.
    repeat (split; [assumption || reflexivity|]).
    rewrite E1, S1, E2. rewrite !append_assoc. reflexivity.
  - intros (digits & -> & N1 & D1 & N2 & D2 & ->).
    rewrite append_assoc.
    assert (stripPrefix "account"
              (String.append "account"
                 (String.append digits (String.append "_soil_ch" channel)))
            = Some (String.append digits (String.append "_soil_ch" channel))) as ->
      by now apply stripPrefix_spec.
    rewrite spanDigits_app by (assumption || reflexivity).
    apply eqb_empty in N1. rewrite N1.
    assert (stripPrefix "_soil_ch" (String.append "_soil_ch" channel)
            = Some channel) as -> by now apply stripPrefix_spec.
    rewrite <- (append_empty_r channel) at 1.
    rewrite spanDigits_app by (assumption || reflexivity).
    apply eqb_empty in N2. rewrite N2. reflexivity.
Qed.

Lemma find_account_none (cfg : Config) (accountId : string) :
  List.find (fun a => String.eqb (id a) accountId) (accounts cfg) = None <->
  (forall a, In a (accounts cfg) -> id a <> accountId).
Proof.
  split.
  - intros Hnone a Ha E. apply (find_none _ _ Hnone) in Ha.
    apply String.eqb_neq in Ha. contradiction.
  - intros Hall. destruct (List.find _ (accounts cfg)) as [a|] eqn:E; [|reflexivity].
    apply find_some in E as [Ha Heq]. apply String.eqb_eq in Heq.
    exfalso. eapply Hall; eassumption.
Qed.

(** C10: a sensor id that is not of the form [account<digits>_soil_ch<digits>],
    or whose account is not configured, is answered with an empty data list
    and an error message; nothing is fetched, no file is read and the world
    is left as it was. *)
Theorem invalid_sensor_rejected (cfg : Config) (env : Env)
    (sensorId period : string) (w : World) :
  (forall accountId channel, ~ wellFormedId sensorId accountId channel) \/
  (exists accountId channel,
     wellFormedId sensorId accountId channel /\
     forall a, In a (accounts cfg) -> id a <> accountId) ->
  exists message,
    historyHandler cfg env sensorId period w =
      (Some {| HistoryResponse.sensorId := sensorId;
               HistoryResponse.period := period;
               HistoryResponse.data := [];
               HistoryResponse.source := None;
               HistoryResponse.error := Some message |},
       w, []).
Proof.
  intros [Hbad|(accountId & channel & Hwf & Hacc)]; unfold historyHandler.
  - destruct (matchSensorId sensorId) as [[accountId channel]|] eqn:E.
    + apply matchSensorId_spec in E. destruct (Hbad _ _ E).
    + eexists. reflexivity.
  - apply matchSensorId_spec in Hwf. rewrite Hwf.
    apply find_account_none in Hacc. rewrite Hacc.
    eexists. reflexivity.
Qed.

Lemma invalid_sensor_rejected_witness :
  (forall accountId channel, ~ wellFormedId "greenhouse" accountId channel) /\
  exists message,
    historyHandler utc env0 "greenhouse" "24h" emptyWorld =
      (Some {| HistoryResponse.sensorId := "greenhouse";
               HistoryResponse.period := "24h";
               HistoryResponse.data := [];
               HistoryResponse.source := None;
               HistoryResponse.error := Some message |},
       emptyWorld, []).
Proof.
  assert (forall accountId channel, ~ wellFormedId "greenhouse" accountId channel)
    as H.
  { intros accountId channel Hwf.
    apply matchSensorId_spec in Hwf. vm_compute in Hwf. discriminate. }
  split; [exact H|].
  apply (invalid_sensor_rejected utc env0 "greenhouse" "24h" emptyWorld).
  left. exact H.
Defined.

(** *** The fallback to local data *)
Lemma tryHistory_run (cfg : Config) (env : Env) (account : Account)
    (sensorId period channel : string) (w : World) :
  let start := startDate period (now env) in
  let result := fetchEcowittHistory env account start (now env) channel in
  let fallback :=
    (Done (localResponse sensorId period
             (value_of (getHistory cfg (nowLocal env) sensorId period w)) None),
     w, [FetchHistory account start (now env) channel; ReadHistoryFile]) in
  tryHistory cfg env account sensorId period channel w =
  if truthyStr (Cloud.error result) then fallback
  else
    match channelList result (String.append "soil_ch" channel) with
    | None => fallback
    | Some listObj =>
        (match
           Downsample.downsample period
             (sort_by Downsample.time
                (map (fun e => {| Downsample.time := fst e;
                                  Downsample.value := snd e |}) listObj))
         with
         | None => Unfinished
         | Some reduced =>
             match renderPoints cfg period reduced with
             | Done data =>
                 Done {| HistoryResponse.sensorId := sensorId;
                         HistoryResponse.period := period;
                         HistoryResponse.data := data;
                         HistoryResponse.source := Some ecowitt;
                         HistoryResponse.error := None |}
             | Thrown message => Thrown message
             | Unfinished => Unfinished
             end
         end,
         w, [FetchHistory account start (now env) channel])
    end.
Proof.
  intros start result fallback. subst fallback.
  unfold tryHistory, bind, emit, ret. fold start. fold result.
  rewrite getHistory_run. unfold value_of. cbn [fst].
  destruct (truthyStr (Cloud.error result));
    [cbv beta iota; rewrite getHistory_run; reflexivity|].
  destruct (channelList result _);
    [|cbv beta iota; rewrite getHistory_run; reflexivity].
  destruct (Downsample.downsample _ _); [|reflexivity].
  destruct (renderPoints _ _ _); reflexivity.
Qed.

(** C5: when the cloud call reports an error, or its answer has no list for
    the channel, or the handling of the answer throws, the request is answered
    from the local store, tagged [local], with the world left as it was. *)
Theorem upstream_failure_falls_back (cfg : Config) (env : Env)
    (sensorId period accountId channel : string) (account : Account) (w : World) :
  matchSensorId sensorId = Some (accountId, channel) ->
  List.find (fun a => String.eqb (id a) accountId) (accounts cfg) = Some account ->
  period <> "1h" ->
  let start := startDate period (now env) in
  let result := fetchEcowittHistory env account start (now env) channel in
  truthyStr (Cloud.error result) = true \/
  channelList result (String.append "soil_ch" channel) = None \/
  (exists message,
     value_of (tryHistory cfg env account sensorId period channel w)
     = Thrown message) ->
  exists error,
    historyHandler cfg env sensorId period w =
      (Some {| HistoryResponse.sensorId := sensorId;
               HistoryResponse.period := period;
               HistoryResponse.data :=
                 map (toPoint cfg period)
                   (selectReadings cfg (nowLocal env) period
                      (default [] (historyFile w !! sensorId)));
               HistoryResponse.source := Some local;
               HistoryResponse.error := error |},
       w, [FetchHistory account start (now env) channel; ReadHistoryFile]).
Proof.
  intros Hmatch Hfind Hperiod start result Hfail.
  unfold historyHandler. rewrite Hmatch, Hfind.
  apply String.eqb_neq in Hperiod. rewrite Hperiod.
  unfold bind at 1. rewrite tryHistory_run in *. fold start in Hfail |- *.
  fold result in Hfail |- *. rewrite getHistory_run in *.
  unfold value_of in *. cbn [fst] in *.
  destruct (truthyStr (Cloud.error result)) eqn:Herr.
  { exists None. reflexivity. }
  destruct (channelList result (String.append "soil_ch" channel)) as [listObj|] eqn:Hlist.
  2:{ exists None. reflexivity. }
  destruct Hfail as [Hfail|[Hfail|[message Hfail]]]; [discriminate..|].
  cbn [fst] in Hfail. rewrite Hfail.
  exists (Some message). unfold bind, ret. rewrite getHistory_run. reflexivity.
Qed.

Lemma upstream_failure_falls_back_witness :
  matchSensorId "account1_soil_ch1" = Some ("account1", "1") /\
  List.find (fun a => String.eqb (id a) "account1") (accounts utc) = Some account1 /\
  "24h" <> "1h" /\
  exists error,
    historyHandler utc env0 "account1_soil_ch1" "24h"
      (worldWith [reading 50 60000; reading 51 120000]) =
      (Some {| HistoryResponse.sensorId := "account1_soil_ch1";
               HistoryResponse.period := "24h";
               HistoryResponse.data :=
                 map (toPoint utc "24h")
                   (selectReadings utc (nowLocal env0) "24h"
                      (default []
                         (historyFile (worldWith [reading 50 60000; reading 51 120000])
                            !! "account1_soil_ch1")));
               HistoryResponse.source := Some local;
               HistoryResponse.error := error |},
       worldWith [reading 50 60000; reading 51 120000],
       [FetchHistory account1 (startDate "24h" (now env0)) (now env0) "1";
        ReadHistoryFile]).
Proof.
  assert (matchSensorId "account1_soil_ch1" = Some ("account1", "1")) as H1
    by (vm_compute; reflexivity).
  assert (List.find (fun a => String.eqb (id a) "account1") (accounts utc)
          = Some account1) as H2 by (vm_compute; reflexivity).
  assert ("24h" <> "1h") as H3 by discriminate.
  split; [exact H1|]. split; [exact H2|]. split; [exact H3|].
  apply (upstream_failure_falls_back utc env0 "account1_soil_ch1" "24h"
           "account1" "1" account1 _ H1 H2 H3).
  left. vm_compute. reflexivity.
Defined.

Example thrown_falls_back :
  value_of (historyHandler utc envBadKey "account1_soil_ch1" "24h"
              (worldWith [reading 50 60000])) =
  Some {| HistoryResponse.sensorId := "account1_soil_ch1";
          HistoryResponse.period := "24h";
          HistoryResponse.data :=
            [{| Point.timestamp := 60000; Point.moisture := 50; Point.label := "" |}];
          HistoryResponse.source := Some local;
          HistoryResponse.error := Some "Invalid time value" |}.
Proof. vm_compute. reflexivity. Qed.

(** *** The hourly path *)
Lemma selectReadings_hour (cfg : Config) (now : Z) (readings : list Reading.t) :
  selectReadings cfg now "1h" readings =
  sort_by Reading.timestamp
    (dedupMinute cfg
       (List.filter (fun r => (now - day <=? Reading.timestamp r)%Z) readings)).
Proof.
  unfold selectReadings. change (skipFactor "1h") with 1.
  rewrite everyNth_one. reflexivity.
Qed.

(** C6, as stated, fails: a reading taken 2 h 45 min before the request is
    served for [1h], because the local query for [1h] looks back 24 hours. *)
Lemma hourly_window_counterexample :
  ~ (forall cfg env sensorId w response w' trace,
       historyHandler cfg env sensorId "1h" w = (Some response, w', trace) ->
       Forall (fun p => (nowLocal env - 60 * 60 * 1000 <= Point.timestamp p)%Z)
              (HistoryResponse.data response)).
Proof.
  intros H.
  specialize (H utc envLate "account1_soil_ch1" (worldWith [reading 50 60000])
                _ _ _ eq_refl).
  vm_compute in H. inversion H as [|p l Hp]. apply Hp. reflexivity.
Qed.

(** C6, amended: a request for [1h] never reaches the cloud.  With a
    well-formed id of a configured account it is answered, tagged [local],
    with the retained readings of the trailing 24 hours, reduced to the first
    reading seen in each minute (in stored order) and sorted ascending by
    time; otherwise its data list is empty. *)
Theorem hourly_served_locally (cfg : Config) (env : Env) (sensorId : string)
    (w : World) :
  let stored := default [] (historyFile w !! sensorId) in
  let inWindow :=
    List.filter (fun r => (nowLocal env - day <=? Reading.timestamp r)%Z) stored in
  let served := sort_by Reading.timestamp (dedupMinute cfg inWindow) in
  let minute := fun r => localMinute cfg (Reading.timestamp r) in
  (exists response trace,
     historyHandler cfg env sensorId "1h" w = (Some response, w, trace) /\
     (forall e, In e trace -> isUpstream e = false) /\
     (HistoryResponse.data response = [] \/
      response = localResponse sensorId "1h" (map (toPoint cfg "1h") served) None) /\
     (forall accountId channel account,
        matchSensorId sensorId = Some (accountId, channel) ->
        List.find (fun a => String.eqb (id a) accountId) (accounts cfg)
          = Some account ->
        response = localResponse sensorId "1h" (map (toPoint cfg "1h") served) None /\
        trace = [ReadHistoryFile])) /\
  (forall r, In r served ->
     In r stored /\ (nowLocal env - day <= Reading.timestamp r)%Z) /\
  NoDup (map minute served) /\
  (forall r, In r served ->
     List.find (fun r' => (minute r' =? minute r)%Z) inWindow = Some r) /\
  (forall r, In r inWindow -> exists r', In r' served /\ minute r' = minute r) /\
  ascending Reading.timestamp served.
Proof.
  intros stored inWindow served minute.
  assert (Permutation served (dedupBy minute inWindow)) as Hperm
    by apply sort_by_perm.
  split; [|split; [|split; [|split; [|split]]]].
  - unfold historyHandler.
    destruct (matchSensorId sensorId) as [[accountId channel]|] eqn:Hmatch.
    2:{ do 2 eexists. split; [reflexivity|]. split; [intros e []|].
        split; [now left | discriminate]. }
    destruct (List.find _ (accounts cfg)) as [account|] eqn:Hfind.
    2:{ do 2 eexists. split; [reflexivity|]. split; [intros e []|].
        split; [now left|]. intros a c acc [= <- <-]. congruence. }
    change (String.eqb "1h" "1h") with true. cbv beta iota.
    unfold bind, ret. rewrite getHistory_run, selectReadings_hour.
    do 2 eexists. split; [reflexivity|].
    split; [intros e [<-|[]]; reflexivity|].
    split; [now right|]. intros a c acc _ _. split; reflexivity.
  - intros r Hr. apply (Permutation_in _ Hperm), dedupBy_In, filter_In in Hr.
    destruct Hr as [Hin Hcut]. split; [assumption | now apply Z.leb_le].
  - pose proof (Permutation_map minute Hperm) as Hkeys.
    rewrite Hkeys. apply dedupBy_nodup.
  - intros r Hr. apply (Permutation_in _ Hperm) in Hr.
    apply (dedupBy_first minute inWindow r Hr).
  - intros r Hr. destruct (dedupBy_covers minute inWindow r Hr) as (r' & Hr' & Hk).
    exists r'. split; [|assumption].
    apply (Permutation_in _ (Permutation_sym Hperm)), Hr'.
  - apply sort_by_ascending.
Qed.

Lemma hourly_served_locally_witness :
  exists response trace,
    historyHandler utc envLate "account1_soil_ch1" "1h"
      (worldWith [reading 50 60000; reading 51 61000; reading 52 120000])
    = (Some response,
       worldWith [reading 50 60000; reading 51 61000; reading 52 120000], trace) /\
    HistoryResponse.data response =
      [toPoint utc "1h" (reading 50 60000); toPoint utc "1h" (reading 52 120000)] /\
    trace = [ReadHistoryFile].
Proof.
  destruct (hourly_served_locally utc envLate "account1_soil_ch1"
              (worldWith [reading 50 60000; reading 51 61000; reading 52 120000]))
    as [(response & trace & Hrun & _ & _ & Hvalid) _].
  destruct (Hvalid "account1" "1" account1 eq_refl eq_refl) as [-> ->].
  do 2 eexists. split; [exact Hrun|]. split; [|reflexivity].
  vm_compute. reflexivity.
Defined.

(** *** Every request is answered *)
Lemma renderPoints_finishes (cfg : Config) (period : string)
    (reduced : list Downsample.RawReading) :
  renderPoints cfg period reduced <> Unfinished.
Proof.
  induction reduced as [|r rest IH]; simpl; [discriminate|].
  destruct (validDate _); [|discriminate].
  destruct (renderPoints cfg period rest); congruence.
Qed.

Lemma historyHandler_finishes (cfg : Config) (env : Env)
    (sensorId period : string) (w : World) :
  exists response, value_of (historyHandler cfg env sensorId period w) = Some response.
Proof.
  unfold historyHandler.
  destruct (matchSensorId sensorId) as [[accountId channel]|];
    [|eexists; reflexivity].
  destruct (List.find _ (accounts cfg)) as [account|]; [|eexists; reflexivity].
  destruct (String.eqb period "1h").
  - rewrite value_of_bind. eexists. reflexivity.
  - rewrite value_of_bind, tryHistory_run.
    destruct (truthyStr _); [eexists; reflexivity|].
    destruct (channelList _ _) as [listObj|]; [|eexists; reflexivity].
    unfold value_of at 2, world_of. cbn [fst snd].
    destruct (DownsampleFacts.downsample_total period
                (sort_by Downsample.time
                   (map (fun e => {| Downsample.time := fst e;
                                     Downsample.value := snd e |}) listObj)))
      as [reduced ->].
    pose proof (renderPoints_finishes cfg period reduced) as Hfin.
    destruct (renderPoints cfg period reduced); [eexists; reflexivity| |congruence].
    rewrite value_of_bind. eexists. reflexivity.
Qed.

End ResolverFacts.

Module PollerFacts.
Import Store Poller Samples.

Lemma sameCache_refl (w : World) : sameCache w w.
Proof. split; reflexivity. Qed.

Lemma sameCache_trans (w1 w2 w3 : World) :
  sameCache w1 w2 -> sameCache w2 w3 -> sameCache w1 w3.
Proof. unfold sameCache. intros [] []. split; congruence. Qed.

Lemma forEach_sameCache {A} (f : A -> M unit) (l : list A) (w : World) :
  (forall x w0, sameCache w0 (world_of (f x w0))) ->
  sameCache w (world_of (forEach f l w)).
Proof.
  intros Hf. revert w. induction l as [|x l IH]; intros w; simpl.
  - apply sameCache_refl.
  - rewrite world_of_bind. eapply sameCache_trans; [apply Hf | apply IH].
Qed.

Lemma storeReading_sameCache (sensorId : string) (moisture timestamp : Z) (w : World) :
  sameCache w (world_of (storeReading sensorId moisture timestamp w)).
Proof. split; reflexivity. Qed.

Lemma fetchAll_sameCache (env : Env) (accounts : list Account) (w : World) :
  sameCache w (world_of (fetchAll env accounts w)).
Proof.
  unfold fetchAll. rewrite world_of_bind. unfold ret, world_of at 1. simpl.
  apply forEach_sameCache. intros a w0. apply sameCache_refl.
Qed.

(** How a poll leaves the cache: untouched when every account failed,
    otherwise holding the answer just given. *)
Lemma refresh_cache (cfg : Config) (env : Env) (w : World) :
  sameCache w (world_of (refresh cfg env w)) \/
  (sensorCache (world_of (refresh cfg env w)) = Some (value_of (refresh cfg env w)) /\
   sensorCacheTime (world_of (refresh cfg env w)) = nowCached env).
Proof.
  unfold refresh.
  rewrite !world_of_bind, !value_of_bind.
  set (results := value_of (fetchAll env (accounts cfg) w)).
  pose proof (fetchAll_sameCache env (accounts cfg) w) as H1.
  set (w1 := world_of (fetchAll env (accounts cfg) w)) in *.
  set (allSensors := flat_map Realtime.sensors results).
  set (store := forEach _ allSensors).
  assert (sameCache w1 (world_of (store w1))) as H2.
  { apply forEach_sameCache. intros s w0. apply storeReading_sameCache. }
  set (w2 := world_of (store w1)) in *.
  destruct ((length allSensors =? 0) && _).
  - left. unfold ret, world_of at 1. simpl. eapply sameCache_trans; eassumption.
  - right. rewrite world_of_bind, value_of_bind. split; reflexivity.
Qed.

(** The four ways a request to [/api/sensors] can go. *)
Lemma sensorsHandler_cases (cfg : Config) (env : Env) (w : World) :
  (mockMode cfg = true /\ world_of (sensorsHandler cfg env w) = w) \/
  (mockMode cfg = false /\
   exists snapshot,
     sensorCache w = Some snapshot /\
     (nowCheck env - sensorCacheTime w < SENSOR_CACHE_TTL)%Z /\
     sensorsHandler cfg env w = (snapshot, w, [])) \/
  (mockMode cfg = false /\
   (forall snapshot, sensorCache w = Some snapshot ->
      (SENSOR_CACHE_TTL <= nowCheck env - sensorCacheTime w)%Z) /\
   sensorsHandler cfg env w = refresh cfg env w).
Proof.
  unfold sensorsHandler. fold (mockMode cfg).
  destruct (mockMode cfg); [left; split; reflexivity|]. right.
  unfold bind, getCache. cbv beta iota.
  destruct (sensorCache w) as [snapshot|] eqn:Hcache.
  - destruct (Z.ltb_spec (nowCheck env - sensorCacheTime w) SENSOR_CACHE_TTL).
    + left. split; [reflexivity|]. exists snapshot. repeat split; assumption.
    + right. split; [reflexivity|]. split; [intros s _; assumption|].
      destruct (refresh cfg env w) as [[r w'] t]. reflexivity.
  - right. split; [reflexivity|]. split; [discriminate|].
    destruct (refresh cfg env w) as [[r w'] t]. reflexivity.
Qed.

Lemma historyHandler_world (cfg : Config) (env : Resolver.Env)
    (sensorId period : string) (w : World) :
  world_of (Resolver.historyHandler cfg env sensorId period w) = w.
Proof.
  unfold Resolver.historyHandler.
  destruct (Resolver.matchSensorId sensorId) as [[accountId channel]|];
    [|reflexivity].
  destruct (List.find _ (accounts cfg)) as [account|]; [|reflexivity].
  destruct (String.eqb period "1h").
  - rewrite world_of_bind, StoreFacts.getHistory_run. reflexivity.
  - rewrite world_of_bind, ResolverFacts.tryHistory_run.
    rewrite StoreFacts.getHistory_run. unfold value_of, world_of. cbn [fst snd].
    destruct (truthyStr _); [reflexivity|].
    destruct (Resolver.channelList _ _); [|reflexivity].
    cbn [fst snd]. destruct (Downsample.downsample _ _); [|reflexivity].
    destruct (Resolver.renderPoints _ _ _); try reflexivity.
    unfold bind, ret. rewrite StoreFacts.getHistory_run. reflexivity.
Qed.

(** A snapshot is only ever cached by a server that polls the cloud. *)
Lemma reachable_cache_live (cfg : Config) (w : World) :
  reachable cfg w -> sensorCache w <> None -> mockMode cfg = false.
Proof.
  induction 1 as [h s|w h s Hw IH|w env Hw IH|w env sid p Hw IH|w body Hw IH];
    simpl; intros Hcache.
  - congruence.
  - auto.
  - destruct (sensorsHandler_cases cfg env w) as [[Hmock Hw']|[[Hlive _]|[Hlive _]]];
      [|assumption..].
    rewrite Hw' in Hcache. auto.
  - rewrite historyHandler_world in Hcache. auto.
  - auto.
Qed.

Lemma cache_hit (cfg : Config) (env : Env) (w : World) (snapshot : SensorsResponse.t) :
  mockMode cfg = false ->
  sensorCache w = Some snapshot ->
  (nowCheck env - sensorCacheTime w < SENSOR_CACHE_TTL)%Z ->
  sensorsHandler cfg env w = (snapshot, w, []).
Proof.
  intros Hlive Hcache Hfresh.
  destruct (sensorsHandler_cases cfg env w)
    as [[Hmock _]|[(_ & s & Hs & _ & Hrun)|(_ & Hstale & _)]].
  - congruence.
  - congruence.
  - specialize (Hstale _ Hcache). lia.
Qed.

(** C7: take a request to [/api/sensors] after which a snapshot is cached, and
    a later request that arrives less than 5 seconds after that snapshot was
    stored, the cache not having been written in between.  The later request
    is answered with the snapshot itself, fetches nothing and changes nothing,
    and the snapshot is what the earlier request answered. *)
Theorem fresh_cache_is_served (cfg : Config) (w w2 : World) (env1 env2 : Env)
    (snapshot : SensorsResponse.t) :
  reachable cfg w ->
  let first := sensorsHandler cfg env1 w in
  sensorCache (world_of first) = Some snapshot ->
  sameCache (world_of first) w2 ->
  (nowCheck env1 <= nowCheck env2)%Z ->
  (nowCheck env2 - sensorCacheTime (world_of first) < SENSOR_CACHE_TTL)%Z ->
  sensorsHandler cfg env2 w2 = (snapshot, w2, []) /\
  value_of first = snapshot.
Proof.
  intros Hreach first Hcache [Hsame Htime] Hclock Hfresh.
  assert (mockMode cfg = false) as Hlive.
  { apply (reachable_cache_live cfg (world_of first)).
    - apply reach_sensors, Hreach.
    - congruence. }
  split.
  - apply cache_hit; [assumption | congruence | rewrite Htime; assumption].
  - subst first.
    destruct (sensorsHandler_cases cfg env1 w)
      as [[Hmock _]|[(_ & s & Hs & _ & Hrun)|(_ & Hstale & Hrun)]].
    + congruence.
    + rewrite Hrun in *. unfold world_of, value_of in *. simpl in *. congruence.
    + rewrite Hrun in *.
      destruct (refresh_cache cfg env1 w) as [[Hc Ht]|[Hc _]].
      * rewrite Hc in Hcache. specialize (Hstale _ Hcache).
        rewrite Ht in Hfresh. lia.
      * congruence.
Qed.

Lemma fresh_cache_is_served_witness :
  reachable utc emptyWorld /\
  sensorCache (world_of (sensorsHandler utc (pollAt 1000) emptyWorld)) = Some polled /\
  (nowCheck (pollAt 1000) <= nowCheck (pollAt 5999))%Z /\
  (nowCheck (pollAt 5999)
   - sensorCacheTime (world_of (sensorsHandler utc (pollAt 1000) emptyWorld))
   < SENSOR_CACHE_TTL)%Z /\
  sensorsHandler utc (pollAt 5999)
    (world_of (sensorsHandler utc (pollAt 1000) emptyWorld))
  = (polled, world_of (sensorsHandler utc (pollAt 1000) emptyWorld), []) /\
  value_of (sensorsHandler utc (pollAt 1000) emptyWorld) = polled.
Proof.
  assert (reachable utc emptyWorld) as H0 by apply reach_start.
  assert (sensorCache (world_of (sensorsHandler utc (pollAt 1000) emptyWorld))
          = Some polled) as H1 by (vm_compute; reflexivity).
  assert (nowCheck (pollAt 1000) <= nowCheck (pollAt 5999))%Z as H2
    by (vm_compute; discriminate).
  assert (nowCheck (pollAt 5999)
          - sensorCacheTime (world_of (sensorsHandler utc (pollAt 1000) emptyWorld))
          < SENSOR_CACHE_TTL)%Z as H3 by (vm_compute; reflexivity).
  split; [exact H0|]. split; [exact H1|]. split; [exact H2|]. split; [exact H3|].
  exact (fresh_cache_is_served utc emptyWorld _ (pollAt 1000) (pollAt 5999) polled
           H0 H1 (sameCache_refl _) H2 H3).
Defined.

End PollerFacts.

Module SettingsFacts.
Import SettingsApi Samples.



End SettingsFacts.

(** ** More on the downsampling engine *)
Module EngineFacts.
Import Downsample DownsampleFacts Samples.

Lemma emitBucket_In (bucket : list RawReading) (x : RawReading) :
  In x (emitBucket bucket) -> In x bucket.
Proof.
  destruct bucket as [|first tl]; [intros []|].
  pose proof (scanBucket_spec first tl) as [[Hmn _] [Hmx _]].
  unfold emitBucket. destruct (scanBucket first (first :: tl)) as [mn mx].
  cbn [fst snd] in Hmn, Hmx.
  destruct (time mn <? time mx)%Z, (value mx - value mn >=? 2)%Z;
    simpl; intros H; intuition (subst; assumption).
Qed.

Lemma emitBucket_NoDup (bucket : list RawReading) : NoDup (emitBucket bucket).
Proof.
  destruct bucket as [|first tl]; [constructor|].
  unfold emitBucket. destruct (scanBucket first (first :: tl)) as [mn mx].
  assert (forall a b : RawReading, (value b - value a >= 2)%Z -> NoDup [a; b]) as H2.
  { intros a b Hd. apply NoDup_cons. split; [|apply NoDup_singleton].
    intros Hin. apply list_elem_of_In in Hin as [<-|[]]. lia. }
  assert (forall a b : RawReading, (value a - value b >= 2)%Z -> NoDup [a; b]) as H2'.
  { intros a b Hd. apply NoDup_cons. split; [|apply NoDup_singleton].
    intros Hin. apply list_elem_of_In in Hin as [<-|[]]. lia. }
  destruct (time mn <? time mx)%Z;
    destruct (Z.geb_spec (value mx - value mn) 2);
    try apply NoDup_singleton; [apply H2 | apply H2']; lia.
Qed.

Lemma emitBucket_submseteq (bucket : list RawReading) : emitBucket bucket ⊆+ bucket.
Proof.
  apply NoDup_submseteq; [apply emitBucket_NoDup|].
  intros x Hx. apply list_elem_of_In, emitBucket_In, list_elem_of_In, Hx.
Qed.

Lemma flat_emit_submseteq (buckets : list (list RawReading)) :
  flat_map emitBucket buckets ⊆+ concat buckets.
Proof.
  induction buckets as [|b bs IH]; simpl; [constructor|].
  apply submseteq_app; [apply emitBucket_submseteq | exact IH].
Qed.

Lemma downsample_sub (period : string) (readings out : list RawReading) :
  downsample period readings = Some out -> out ⊆+ readings.
Proof.
  destruct (Nat.le_gt_cases (length readings) (maxPoints period)) as [Hle|Hgt].
  - unfold downsample.
    destruct (Nat.leb_spec (length readings) (maxPoints period)); [|lia].
    intros [= <-]. reflexivity.
  - rewrite downsample_over by assumption. intros [= <-].
    rewrite sort_by_perm. pose proof (maxPoints_pos period).
    etransitivity; [apply flat_emit_submseteq|].
    rewrite buckets_partition by (apply ceil_div_pos; lia). reflexivity.
Qed.

Lemma downsample_length (period : string) (readings out : list RawReading) :
  downsample period readings = Some out ->
  length out <= 2 * maxPoints period /\ length out <= length readings.
Proof.
  intros Hrun. split; [|apply submseteq_length, (downsample_sub period), Hrun].
  destruct (Nat.le_gt_cases (length readings) (maxPoints period)) as [Hle|Hgt].
  - unfold downsample in Hrun.
    destruct (Nat.leb_spec (length readings) (maxPoints period)); [|lia].
    injection Hrun as <-. lia.
  - rewrite downsample_over in Hrun by assumption. injection Hrun as <-.
    rewrite length_sort_by. pose proof (maxPoints_pos period).
    set (k := ceil_div (length readings) (maxPoints period)).
    pose proof (flat_emit_length (bucketsFrom k readings 0)) as [H2 _].
    assert (length (bucketsFrom k readings 0) <= maxPoints period); [|lia].
    unfold bucketsFrom. rewrite length_map, length_seq, Nat.sub_0_r.
    apply bucket_count_le; lia.
Qed.

Lemma downsample_ascending (period : string) (readings out : list RawReading) :
  ascending time readings ->
  downsample period readings = Some out -> ascending time out.
Proof.
  intros Hasc.
  destruct (Nat.le_gt_cases (length readings) (maxPoints period)) as [Hle|Hgt].
  - unfold downsample.
    destruct (Nat.leb_spec (length readings) (maxPoints period)); [|lia].
    intros [= <-]. exact Hasc.
  - rewrite downsample_over by assumption. intros [= <-]. apply sort_by_ascending.
Qed.

(** X1: the engine hands back a selection of its input: every output point
    is an input reading, and no reading comes out more often than it went
    in. *)
Theorem downsample_selects (period : string) (readings : list RawReading) :
  exists out,
    downsample period readings = Some out /\
    out ⊆+ readings /\
    forall x, In x out -> In x readings.
Proof.
  assert (exists out, downsample period readings = Some out /\ out ⊆+ readings)
    as (out & Hrun & Hsub).
  { destruct (Nat.le_gt_cases (length readings) (maxPoints period)) as [Hle|Hgt].
    - exists readings. split; [|reflexivity]. unfold downsample.
      destruct (Nat.leb_spec (length readings) (maxPoints period)); [reflexivity|lia].
    - eexists. split; [now apply downsample_over|].
      rewrite sort_by_perm.
      pose proof (maxPoints_pos period).
      etransitivity; [apply flat_emit_submseteq|].
      rewrite buckets_partition by (apply ceil_div_pos; lia). reflexivity. }
  exists out. split; [assumption|]. split; [assumption|].
  intros x Hx. apply list_elem_of_In. eapply elem_of_submseteq; [|exact Hsub].
  now apply list_elem_of_In.
Qed.

(** X2: what the engine returns for time-ordered readings, and whatever it
    returns for an input over the budget, is in ascending time order. *)
Theorem downsample_keeps_order (period : string) (readings : list RawReading) :
  ascending time readings \/ maxPoints period < length readings ->
  exists out, downsample period readings = Some out /\ ascending time out.
Proof.
  intros H.
  destruct (Nat.le_gt_cases (length readings) (maxPoints period)) as [Hle|Hgt].
  - destruct H as [Hasc|Hover]; [|lia].
    exists readings. split; [|assumption]. unfold downsample.
    destruct (Nat.leb_spec (length readings) (maxPoints period)); [reflexivity|lia].
  - eexists. split; [now apply downsample_over | apply sort_by_ascending].
Qed.

Lemma downsample_keeps_order_witness :
  (ascending time (zigzag 201) \/ maxPoints "1y" < length (zigzag 201)) /\
  exists out, downsample "1y" (zigzag 201) = Some out /\ ascending time out.
Proof.
  assert (ascending time (zigzag 201) \/ maxPoints "1y" < length (zigzag 201)) as H.
  { left. apply ascendingb_sound. vm_compute. reflexivity. }
  split; [exact H | exact (downsample_keeps_order "1y" (zigzag 201) H)].
Defined.



End EngineFacts.

(** ** More on the reading store *)
Module StoreRuns.
Import Store StoreFacts Samples.

Lemma retentionCap_pos : 0 < retentionCap.
Proof. apply Nat.ltb_lt. vm_compute. reflexivity. Qed.

Lemma last_lastN_snoc {A} (n : nat) (l : list A) (x : A) :
  0 < n -> last (lastN n (l ++ [x])) = Some x.
Proof.
  intros Hn. rewrite lastN_app. simpl.
  rewrite (lastN_all n [x]) by (simpl; lia). apply last_snoc.
Qed.

(** X4: one append leaves the sensor's series non-empty, ending with the new
    reading and no longer than 50,000; every other series, the settings file
    and the cache stay as they were, and the history file is read once and
    written once. *)
Theorem storeReading_effect (sensorId : string) (moisture timestamp : Z) (w : World) :
  exists series w',
    storeReading sensorId moisture timestamp w
      = (tt, w', [ReadHistoryFile; WriteHistoryFile]) /\
    historyFile w' !! sensorId = Some series /\
    last series =
      Some {| Reading.moisture := moisture; Reading.timestamp := timestamp |} /\
    length series <= retentionCap /\
    (forall other, other <> sensorId ->
       historyFile w' !! other = historyFile w !! other) /\
    settingsFile w' = settingsFile w /\
    sensorCache w' = sensorCache w /\
    sensorCacheTime w' = sensorCacheTime w.
Proof.
  pose proof (storeReading_history sensorId moisture timestamp w) as Hh.
  destruct (storeReading sensorId moisture timestamp w) as [[[] w'] t] eqn:E.
  unfold world_of in Hh. cbn [fst snd] in Hh.
  eexists _, w'. split.
  { unfold storeReading, bind, loadHistory, saveHistory in E.
    cbv beta iota in E. injection E as _ <-. reflexivity. }
  rewrite Hh, lookup_insert_eq. split; [reflexivity|].
  split; [apply last_lastN_snoc, retentionCap_pos|].
  split; [rewrite lastN_length; lia|].
  split; [intros other Hne; now rewrite lookup_insert_ne|].
  unfold storeReading, bind, loadHistory, saveHistory in E.
  cbv beta iota in E. injection E as <- _. auto.
Qed.

(** X5: after a run of appends, a sensor that got at least one of them holds
    the last 50,000 of its previous series followed by its new readings, all
    of them while that total is within 50,000; a sensor that got none is
    untouched. *)
Theorem storeAll_series (appends : list (string * Z * Z)) (w : World)
    (sensorId : string) :
  let before := default [] (historyFile w !! sensorId) in
  let mine := appendsFor sensorId appends in
  let after := historyFile (world_of (storeAll appends w)) !! sensorId in
  (mine = [] -> after = historyFile w !! sensorId) /\
  (mine <> [] -> after = Some (lastN retentionCap (before ++ mine))) /\
  (mine <> [] -> length (before ++ mine) <= retentionCap ->
   after = Some (before ++ mine)).
Proof.
  intros before mine after. subst after. rewrite storeAll_lookup. fold mine.
  destruct mine as [|r mine].
  - split; [reflexivity|]. split; intros H; now destruct H.
  - split; [discriminate|]. split; [reflexivity|].
    intros _ Hlen. f_equal. apply lastN_all. exact Hlen.
Qed.

Lemma storeAll_series_witness :
  appendsFor "account1_soil_ch1" (burst 3) <> [] /\
  length (default [] (historyFile (worldWith [reading 40 0]) !! "account1_soil_ch1")
          ++ appendsFor "account1_soil_ch1" (burst 3)) <= retentionCap /\
  historyFile (world_of (storeAll (burst 3) (worldWith [reading 40 0])))
    !! "account1_soil_ch1"
  = Some (default [] (historyFile (worldWith [reading 40 0]) !! "account1_soil_ch1")
          ++ appendsFor "account1_soil_ch1" (burst 3)).
Proof.
  assert (appendsFor "account1_soil_ch1" (burst 3) <> []) as H1
    by (vm_compute; discriminate).
  assert (length (default [] (historyFile (worldWith [reading 40 0])
                                !! "account1_soil_ch1")
                  ++ appendsFor "account1_soil_ch1" (burst 3)) <= retentionCap) as H2
    by (apply Nat.leb_le; vm_compute; reflexivity).
  split; [exact H1|]. split; [exact H2|].
  exact (proj2 (proj2 (storeAll_series (burst 3) (worldWith [reading 40 0])
                         "account1_soil_ch1")) H1 H2).
Defined.

(** *** How many readings the thinning keeps *)
Lemma everyNth_length {A} (k : nat) (l : list A) :
  0 < k -> length (everyNth k l) = Downsample.ceil_div (length l) k.
Proof.
  intros Hk. remember (length l) as n eqn:Hn. revert l Hn.
  induction n as [n IH] using lt_wf_ind. intros l Hn.
  destruct l as [|x l].
  - subst n. unfold Downsample.ceil_div. simpl.
    rewrite Nat.div_small by lia. reflexivity.
  - rewrite everyNth_cons by assumption. simpl in *.
    rewrite (DownsampleFacts.ceil_div_step n k) by lia.
    f_equal. replace (n - k) with (length (drop (k - 1) l))
      by (rewrite length_drop; lia).
    apply (IH (length (drop (k - 1) l))); [rewrite length_drop; lia | reflexivity].
Qed.

Lemma dedupBy_length (minuteKey : Reading.t -> Z) (l : list Reading.t) :
  length (dedupBy minuteKey l) <= length l.
Proof.
  apply submseteq_length, NoDup_submseteq.
  - eapply NoDup_fmap_1. apply (dedupBy_nodup minuteKey l).
  - intros r Hr. apply list_elem_of_In. apply list_elem_of_In in Hr.
    eapply dedupBy_In, Hr.
Qed.

(** X6: the number of points the local query returns.  Outside the hourly
    view it is the number of retained readings in the window divided by the
    skip factor, rounded up; the hourly view returns at most one point per
    reading in its window. *)
Theorem getHistory_count (cfg : Config) (now : Z) (sensorId period : string)
    (w : World) :
  let stored := default [] (historyFile w !! sensorId) in
  let inWindow :=
    List.filter (fun r => (cutoffTime period now <=? Reading.timestamp r)%Z) stored in
  let points := value_of (getHistory cfg now sensorId period w) in
  length points <= Downsample.ceil_div (length inWindow) (skipFactor period) /\
  (period <> "1h" ->
   length points = Downsample.ceil_div (length inWindow) (skipFactor period)).
Proof.
  intros stored inWindow points. subst points.
  rewrite getHistory_run. unfold value_of. cbn [fst].
  rewrite length_map. unfold selectReadings. fold stored. fold inWindow.
  pose proof (everyNth_length (skipFactor period) inWindow (skipFactor_pos period))
    as Hcount.
  destruct (String.eqb_spec period "1h") as [->|Hne].
  - split; [|congruence]. rewrite length_sort_by, <- Hcount.
    apply dedupBy_length.
  - split; [lia|]. intros _. exact Hcount.
Qed.

Lemma getHistory_count_witness :
  "24h" <> "1h" /\
  length (value_of (getHistory utc 600000 "account1_soil_ch1" "24h"
                      (worldWith [reading 50 60000; reading 51 120000])))
  = Downsample.ceil_div
      (length (List.filter
                 (fun r => (cutoffTime "24h" 600000 <=? Reading.timestamp r)%Z)
                 (default [] (historyFile
                                (worldWith [reading 50 60000; reading 51 120000])
                                !! "account1_soil_ch1"))))
      (skipFactor "24h").
Proof.
  assert ("24h" <> "1h") as H by discriminate.
  split; [exact H|].
  exact (proj2 (getHistory_count utc 600000 "account1_soil_ch1" "24h"
                  (worldWith [reading 50 60000; reading 51 120000])) H).
Defined.

Lemma everyNth_nil_iff {A} (k : nat) (l : list A) :
  0 < k -> everyNth k l = [] <-> l = [].
Proof.
  intros Hk. destruct l as [|x l]; [tauto|].
  rewrite everyNth_cons by assumption. split; discriminate.
Qed.

Lemma dedupBy_nil_iff (minuteKey : Reading.t -> Z) (l : list Reading.t) :
  dedupBy minuteKey l = [] <-> l = [].
Proof.
  split; [|intros ->; reflexivity].
  intros E. destruct l as [|r l]; [reflexivity|].
  destruct (dedupBy_covers minuteKey (r :: l) r (or_introl eq_refl)) as (r' & Hr' & _).
  rewrite E in Hr'. destruct Hr'.
Qed.

(** X7: the local query returns no point exactly when the sensor has no
    retained reading at or after the cutoff; an unknown sensor is such a
    case. *)
Theorem getHistory_empty_iff (cfg : Config) (now : Z) (sensorId period : string)
    (w : World) :
  value_of (getHistory cfg now sensorId period w) = [] <->
  List.filter (fun r => (cutoffTime period now <=? Reading.timestamp r)%Z)
              (default [] (historyFile w !! sensorId)) = [].
Proof.
  rewrite getHistory_run. unfold value_of. cbn [fst]. unfold selectReadings.
  set (inWindow := List.filter _ _).
  pose proof (everyNth_nil_iff (skipFactor period) inWindow (skipFactor_pos period))
    as Hnth.
  rewrite <- Hnth.
  destruct (String.eqb period "1h").
  - rewrite <- (dedupBy_nil_iff (fun r => localMinute cfg (Reading.timestamp r))).
    fold (dedupMinute cfg (everyNth (skipFactor period) inWindow)).
    set (kept := dedupMinute cfg _).
    pose proof (length_sort_by Reading.timestamp kept) as Hlen.
    split; intros E.
    + apply map_eq_nil in E. rewrite E in Hlen. now destruct kept.
    + rewrite E. reflexivity.
  - split; intros E; [now apply map_eq_nil in E | now rewrite E].
Qed.

(** X8: a reading stored with a timestamp inside the last 24 hours shows up
    in the hourly view: the view has a point of the same calendar minute. *)
Theorem stored_reading_in_hourly_view (cfg : Config) (now : Z) (sensorId : string)
    (moisture timestamp : Z) (w : World) :
  (now - day <= timestamp)%Z ->
  exists p,
    In p (value_of (getHistory cfg now sensorId "1h"
                      (world_of (storeReading sensorId moisture timestamp w)))) /\
    localMinute cfg (Point.timestamp p) = localMinute cfg timestamp.
Proof.
  intros Hfresh.
  rewrite getHistory_run, storeReading_history, lookup_insert_eq.
  unfold value_of. cbn [fst default].
  rewrite ResolverFacts.selectReadings_hour.
  set (r := {| Reading.moisture := moisture; Reading.timestamp := timestamp |}).
  set (series := lastN retentionCap _).
  assert (In r series) as Hin.
  { pose proof (last_lastN_snoc retentionCap
                  (default [] (historyFile w !! sensorId)) r retentionCap_pos) as Hlast.
    fold series in Hlast. apply last_Some in Hlast as [l' ->].
    apply in_or_app. right. now left. }
  assert (In r (List.filter (fun r => (now - day <=? Reading.timestamp r)%Z) series))
    as Hwin.
  { apply filter_In. split; [assumption|]. apply Z.leb_le. exact Hfresh. }
  destruct (dedupBy_covers (fun r => localMinute cfg (Reading.timestamp r)) _ r Hwin)
    as (r' & Hr' & Hminute).
  exists (toPoint cfg "1h" r'). split; [|exact Hminute].
  apply in_map.
  apply (Permutation_in _ (Permutation_sym (sort_by_perm Reading.timestamp _))).
  exact Hr'.
Qed.

Lemma stored_reading_in_hourly_view_witness :
  (600000 - day <= 540000)%Z /\
  exists p,
    In p (value_of (getHistory utc 600000 "account1_soil_ch1" "1h"
                      (world_of (storeReading "account1_soil_ch1" 47 540000
                                   (worldWith [reading 50 60000]))))) /\
    localMinute utc (Point.timestamp p) = localMinute utc 540000.
Proof.
  assert (600000 - day <= 540000)%Z as H by (vm_compute; discriminate).
  split; [exact H|].
  exact (stored_reading_in_hourly_view utc 600000 "account1_soil_ch1" 47 540000
           (worldWith [reading 50 60000]) H).
Defined.

End StoreRuns.

(** ** More on the history resolver *)
Module ResolverPaths.
Import Store Resolver StoreFacts ResolverFacts Rendering Samples MoreSamples.

Lemma renderPoints_closed (cfg : Config) (period : string)
    (reduced : list Downsample.RawReading) :
  renderPoints cfg period reduced =
  if forallb validReading reduced then Done (map (cloudPoint cfg period) reduced)
  else Thrown "Invalid time value".
Proof.
  induction reduced as [|r rest IH]; [reflexivity|].
  cbn [renderPoints forallb map]. unfold validReading at 1.
  destruct (validDate (Downsample.time r * 1000)); [|reflexivity].
  rewrite IH. cbn [andb]. destruct (forallb validReading rest); reflexivity.
Qed.

(** The handler past its two validation steps, for a period other than
    [1h], in closed form. *)
Lemma historyHandler_cloud_run (cfg : Config) (env : Env)
    (sensorId period accountId channel : string) (account : Account) (w : World) :
  matchSensorId sensorId = Some (accountId, channel) ->
  List.find (fun a => String.eqb (id a) accountId) (accounts cfg) = Some account ->
  period <> "1h" ->
  let start := startDate period (now env) in
  let result := fetchEcowittHistory env account start (now env) channel in
  let fetched := FetchHistory account start (now env) channel in
  let localData :=
    map (toPoint cfg period)
      (selectReadings cfg (nowLocal env) period
         (default [] (historyFile w !! sensorId))) in
  historyHandler cfg env sensorId period w =
  if truthyStr (Cloud.error result) then
    (Some (localResponse sensorId period localData None), w,
     [fetched; ReadHistoryFile])
  else
    match channelList result (String.append "soil_ch" channel) with
    | None =>
        (Some (localResponse sensorId period localData None), w,
         [fetched; ReadHistoryFile])
    | Some listObj =>
        match Downsample.downsample period (parsed listObj) with
        | None => (None, w, [fetched])
        | Some reduced =>
            if forallb validReading reduced then
              (Some {| HistoryResponse.sensorId := sensorId;
                       HistoryResponse.period := period;
                       HistoryResponse.data := map (cloudPoint cfg period) reduced;
                       HistoryResponse.source := Some ecowitt;
                       HistoryResponse.error := None |},
               w, [fetched])
            else
              (Some (localResponse sensorId period localData
                       (Some "Invalid time value")),
               w, [fetched; ReadHistoryFile])
        end
    end.
Proof.
  intros Hmatch Hfind Hperiod start result fetched localData.
  unfold historyHandler. rewrite Hmatch, Hfind.
  apply String.eqb_neq in Hperiod. rewrite Hperiod.
  unfold bind at 1. rewrite tryHistory_run. fold start. fold result. fold fetched.
  rewrite getHistory_run. unfold value_of. cbn [fst]. fold localData.
  destruct (truthyStr (Cloud.error result)); [reflexivity|].
  destruct (channelList result _) as [listObj|]; [|reflexivity].
  fold (parsed listObj).
  destruct (Downsample.downsample period (parsed listObj)) as [reduced|];
    [|reflexivity].
  rewrite renderPoints_closed.
  destruct (forallb validReading reduced); [reflexivity|].
  unfold bind, ret. rewrite getHistory_run. reflexivity.
Qed.

(** X9: a history request never changes the world and never writes a file;
    it makes at most one cloud call, for a configured account and only for a
    period other than [1h], followed by at most one read of the history
    file. *)
Theorem history_is_read_only (cfg : Config) (env : Env)
    (sensorId period : string) (w : World) :
  exists fetches reads,
    world_of (historyHandler cfg env sensorId period w) = w /\
    trace_of (historyHandler cfg env sensorId period w) = fetches ++ reads /\
    (fetches = [] \/
     exists account channel,
       period <> "1h" /\ In account (accounts cfg) /\
       fetches =
         [FetchHistory account (startDate period (now env)) (now env) channel]) /\
    (reads = [] \/ reads = [ReadHistoryFile]).
Proof.
  destruct (matchSensorId sensorId) as [[accountId channel]|] eqn:Hmatch.
  2:{ exists [], []. unfold historyHandler. rewrite Hmatch. auto. }
  destruct (List.find (fun a => String.eqb (id a) accountId) (accounts cfg))
    as [account|] eqn:Hfind.
  2:{ exists [], []. unfold historyHandler. rewrite Hmatch, Hfind. auto. }
  destruct (String.eqb_spec period "1h") as [->|Hperiod].
  { exists [], [ReadHistoryFile]. unfold historyHandler. rewrite Hmatch, Hfind.
    cbn [String.eqb Ascii.eqb Bool.eqb]. unfold bind, ret.
    rewrite getHistory_run. auto. }
  pose proof (find_some _ _ Hfind) as [Hin _].
  rewrite (historyHandler_cloud_run cfg env sensorId period accountId channel
             account w Hmatch Hfind Hperiod).
  set (fetched := FetchHistory _ _ _ _).
  assert (exists account0 channel0,
            period <> "1h" /\ In account0 (accounts cfg) /\
            [fetched] =
              [FetchHistory account0 (startDate period (now env)) (now env) channel0])
    as Hfetch by (exists account, channel; auto).
  destruct (truthyStr _);
    [exists [fetched], [ReadHistoryFile]; auto|].
  destruct (channelList _ _) as [listObj|];
    [|exists [fetched], [ReadHistoryFile]; auto].
  destruct (Downsample.downsample _ _) as [reduced|];
    [|exists [fetched], []; auto].
  destruct (forallb validReading reduced);
    [exists [fetched], [] | exists [fetched], [ReadHistoryFile]]; auto.
Qed.

Lemma parsed_perm (listObj : list (Z * Z)) :
  Permutation (parsed listObj)
    (map (fun e => {| Downsample.time := fst e; Downsample.value := snd e |})
         listObj).
Proof. apply sort_by_perm. Qed.

Lemma parsed_In (listObj : list (Z * Z)) (r : Downsample.RawReading) :
  In r (parsed listObj) ->
  In (Downsample.time r, Downsample.value r) listObj.
Proof.
  intros Hr. apply (Permutation_in _ (parsed_perm listObj)) in Hr.
  apply in_map_iff in Hr as ([t v] & <- & He). exact He.
Qed.

(** X10: a cloud answer that carries the channel's list, every key a valid
    date, is served as it is downsampled, tagged [ecowitt], without reading
    the local store: the points are entries of the list, in ascending time
    order, at most twice the period's budget of them, and all of the entries
    when these are within the budget. *)
Theorem cloud_answer_served (cfg : Config) (env : Env)
    (sensorId period accountId channel : string) (account : Account)
    (listObj : list (Z * Z)) (w : World) :
  matchSensorId sensorId = Some (accountId, channel) ->
  List.find (fun a => String.eqb (id a) accountId) (accounts cfg) = Some account ->
  period <> "1h" ->
  let start := startDate period (now env) in
  let result := fetchEcowittHistory env account start (now env) channel in
  truthyStr (Cloud.error result) = false ->
  channelList result (String.append "soil_ch" channel) = Some listObj ->
  Forall (fun e => validDate (fst e * 1000) = true) listObj ->
  exists reduced,
    historyHandler cfg env sensorId period w =
      (Some {| HistoryResponse.sensorId := sensorId;
               HistoryResponse.period := period;
               HistoryResponse.data := map (cloudPoint cfg period) reduced;
               HistoryResponse.source := Some ecowitt;
               HistoryResponse.error := None |},
       w, [FetchHistory account start (now env) channel]) /\
    (forall r, In r reduced ->
       In (Downsample.time r, Downsample.value r) listObj) /\
    ascending Point.timestamp (map (cloudPoint cfg period) reduced) /\
    length reduced <= 2 * Downsample.maxPoints period /\
    length reduced <= length listObj /\
    (length listObj <= Downsample.maxPoints period -> reduced = parsed listObj).
Proof.
  intros Hmatch Hfind Hperiod start result Herr Hlist Hvalid.
  rewrite (historyHandler_cloud_run cfg env sensorId period accountId channel
             account w Hmatch Hfind Hperiod).
  fold start. fold result. rewrite Herr, Hlist.
  destruct (DownsampleFacts.downsample_total period (parsed listObj))
    as [reduced Hrun].
  rewrite Hrun. exists reduced.
  pose proof (EngineFacts.downsample_sub _ _ _ Hrun) as Hsub.
  assert (forall r, In r reduced ->
            In (Downsample.time r, Downsample.value r) listObj) as Hfrom.
  { intros r Hr. apply parsed_In, list_elem_of_In.
    eapply elem_of_submseteq; [|exact Hsub]. now apply list_elem_of_In. }
  assert (forallb validReading reduced = true) as ->.
  { apply forallb_forall. intros r Hr.
    rewrite List.Forall_forall in Hvalid. apply (Hvalid _ (Hfrom r Hr)). }
  split; [reflexivity|]. split; [exact Hfrom|].
  pose proof (EngineFacts.downsample_length _ _ _ Hrun) as [H2 Hn].
  unfold parsed in Hn at 1. rewrite length_sort_by, length_map in Hn.
  split; [|split; [exact H2|split; [exact Hn|]]].
  - apply ascending_map.
    assert (ascending Downsample.time reduced) as Hasc.
    { eapply EngineFacts.downsample_ascending; [|exact Hrun].
      apply sort_by_ascending. }
    unfold ascending in *. clear -Hasc.
    induction Hasc as [|r l Hs IH Hhd]; constructor; [assumption|].
    destruct Hhd; constructor. simpl. lia.
  - intros Hshort. unfold Downsample.downsample in Hrun.
    destruct (Nat.leb_spec (length (parsed listObj))
                (Downsample.maxPoints period)) as [_|Hgt].
    + now injection Hrun as <-.
    + unfold parsed in Hgt. rewrite length_sort_by, length_map in Hgt. lia.
Qed.

Lemma cloud_answer_served_witness :
  matchSensorId "account1_soil_ch1" = Some ("account1", "1") /\
  truthyStr (Cloud.error (fetchEcowittHistory (envCloud twoEntries) account1
                            (startDate "24h" 600000) 600000 "1")) = false /\
  channelList (fetchEcowittHistory (envCloud twoEntries) account1
                 (startDate "24h" 600000) 600000 "1")
              (String.append "soil_ch" "1") = Some twoEntries /\
  Forall (fun e => validDate (fst e * 1000) = true) twoEntries /\
  exists reduced,
    value_of (historyHandler utc (envCloud twoEntries) "account1_soil_ch1" "24h"
                emptyWorld)
    = Some {| HistoryResponse.sensorId := "account1_soil_ch1";
              HistoryResponse.period := "24h";
              HistoryResponse.data := map (cloudPoint utc "24h") reduced;
              HistoryResponse.source := Some ecowitt;
              HistoryResponse.error := None |} /\
    reduced = parsed twoEntries.
Proof.
  assert (matchSensorId "account1_soil_ch1" = Some ("account1", "1")) as H1
    by (vm_compute; reflexivity).
  assert (List.find (fun a => String.eqb (id a) "account1") (accounts utc)
          = Some account1) as H2 by (vm_compute; reflexivity).
  assert ("24h" <> "1h") as H3 by discriminate.
  assert (truthyStr (Cloud.error (fetchEcowittHistory (envCloud twoEntries) account1
                                    (startDate "24h" 600000) 600000 "1")) = false)
    as H4 by (vm_compute; reflexivity).
  assert (channelList (fetchEcowittHistory (envCloud twoEntries) account1
                         (startDate "24h" 600000) 600000 "1")
                      (String.append "soil_ch" "1") = Some twoEntries) as H5
    by (vm_compute; reflexivity).
  assert (Forall (fun e => validDate (fst e * 1000) = true) twoEntries) as H6
    by (repeat constructor).
  repeat (split; [assumption|]).
  destruct (cloud_answer_served utc (envCloud twoEntries) "account1_soil_ch1" "24h"
              "account1" "1" account1 twoEntries emptyWorld H1 H2 H3 H4 H5 H6)
    as (reduced & Hrun & _ & _ & _ & _ & Hall).
  exists reduced. rewrite Hrun. split; [reflexivity|].
  apply Hall. vm_compute. lia.
Defined.

(** X11: when one of the downsampled readings has a key outside the range
    of dates, nothing of the cloud answer is served: the request is answered
    from the local store, tagged [local], with the message of the error. *)
Theorem invalid_key_falls_back (cfg : Config) (env : Env)
    (sensorId period accountId channel : string) (account : Account)
    (listObj : list (Z * Z)) (reduced : list Downsample.RawReading)
    (r : Downsample.RawReading) (w : World) :
  matchSensorId sensorId = Some (accountId, channel) ->
  List.find (fun a => String.eqb (id a) accountId) (accounts cfg) = Some account ->
  period <> "1h" ->
  let start := startDate period (now env) in
  let result := fetchEcowittHistory env account start (now env) channel in
  truthyStr (Cloud.error result) = false ->
  channelList result (String.append "soil_ch" channel) = Some listObj ->
  Downsample.downsample period (parsed listObj) = Some reduced ->
  In r reduced ->
  validDate (Downsample.time r * 1000) = false ->
  historyHandler cfg env sensorId period w =
    (Some {| HistoryResponse.sensorId := sensorId;
             HistoryResponse.period := period;
             HistoryResponse.data :=
               map (toPoint cfg period)
                 (selectReadings cfg (nowLocal env) period
                    (default [] (historyFile w !! sensorId)));
             HistoryResponse.source := Some local;
             HistoryResponse.error := Some "Invalid time value" |},
     w, [FetchHistory account start (now env) channel; ReadHistoryFile]).
Proof.
  intros Hmatch Hfind Hperiod start result Herr Hlist Hrun Hr Hbad.
  rewrite (historyHandler_cloud_run cfg env sensorId period accountId channel
             account w Hmatch Hfind Hperiod).
  fold start. fold result. rewrite Herr, Hlist, Hrun.
  assert (forallb validReading reduced = false) as ->; [|reflexivity].
  destruct (forallb validReading reduced) eqn:E; [|reflexivity].
  rewrite forallb_forall in E. specialize (E r Hr).
  unfold validReading in E. congruence.
Qed.

Lemma invalid_key_falls_back_witness :
  value_of (historyHandler utc (envCloud [(99999999999999, 64)]%Z)
              "account1_soil_ch1" "24h" (worldWith [reading 50 60000]))
  = Some {| HistoryResponse.sensorId := "account1_soil_ch1";
            HistoryResponse.period := "24h";
            HistoryResponse.data :=
              map (toPoint utc "24h")
                (selectReadings utc 600000 "24h"
                   (default [] (historyFile (worldWith [reading 50 60000])
                                  !! "account1_soil_ch1")));
            HistoryResponse.source := Some local;
            HistoryResponse.error := Some "Invalid time value" |}.
Proof.
  rewrite (invalid_key_falls_back utc (envCloud [(99999999999999, 64)]%Z)
             "account1_soil_ch1" "24h" "account1" "1" account1
             [(99999999999999, 64)]%Z
             [{| Downsample.time := 99999999999999; Downsample.value := 64 |}]
             {| Downsample.time := 99999999999999; Downsample.value := 64 |}
             (worldWith [reading 50 60000])).
  - reflexivity.
  - vm_compute. reflexivity.
  - vm_compute. reflexivity.
  - discriminate.
  - vm_compute. reflexivity.
  - vm_compute. reflexivity.
  - vm_compute. reflexivity.
  - now left.
  - vm_compute. reflexivity.
Defined.

(** X12: with no account configured, every history request is answered with
    an empty data list and an error message, whatever the sensor id and the
    period; nothing is fetched or read. *)
Theorem no_account_no_history (cfg : Config) (env : Env)
    (sensorId period : string) (w : World) :
  accounts cfg = [] ->
  exists message,
    historyHandler cfg env sensorId period w =
      (Some {| HistoryResponse.sensorId := sensorId;
               HistoryResponse.period := period;
               HistoryResponse.data := [];
               HistoryResponse.source := None;
               HistoryResponse.error := Some message |},
       w, []).
Proof.
  intros Hnone. unfold historyHandler. rewrite Hnone.
  destruct (matchSensorId sensorId) as [[accountId channel]|];
    eexists; reflexivity.
Qed.

Lemma no_account_no_history_witness :
  accounts (configUTC bareEnv) = [] /\
  exists message,
    historyHandler (configUTC bareEnv) env0 "account1_soil_ch1" "24h" emptyWorld =
      (Some {| HistoryResponse.sensorId := "account1_soil_ch1";
               HistoryResponse.period := "24h";
               HistoryResponse.data := [];
               HistoryResponse.source := None;
               HistoryResponse.error := Some message |},
       emptyWorld, []).
Proof.
  assert (accounts (configUTC bareEnv) = []) as H by reflexivity.
  split; [exact H|].
  exact (no_account_no_history (configUTC bareEnv) env0 "account1_soil_ch1" "24h"
           emptyWorld H).
Defined.

End ResolverPaths.

(** ** The cloud calls and the configured accounts *)
Module EcowittFacts.
Import Store Resolver StoreFacts ResolverFacts Samples MoreSamples.

Lemma soilSensors_closed (account : Account)
    (entries : list (string * option RealtimeBody.Channel)) :
  Ecowitt.soilSensors account entries =
  if forallb Ecowitt.validEntry (Ecowitt.soilEntries entries) then
    inr (map (Ecowitt.sensorOf account) (Ecowitt.soilEntries entries))
  else inl "Invalid time value".
Proof.
  induction entries as [|[key value] rest IH]; [reflexivity|].
  cbn [Ecowitt.soilSensors Ecowitt.soilEntries].
  destruct (stripPrefix "soil_ch" key) as [channelNum|]; [|exact IH].
  destruct (value ≫= RealtimeBody.soilmoisture) as [soilmoisture|]; [|exact IH].
  cbn [forallb map]. unfold Ecowitt.validEntry at 1. cbn [fst snd].
  destruct (validDate (RealtimeBody.time soilmoisture * 1000)); [|reflexivity].
  rewrite IH. cbn [andb].
  destruct (forallb Ecowitt.validEntry (Ecowitt.soilEntries rest)); reflexivity.
Qed.

Lemma apiMessage_truthy (msg : option string) :
  truthyStr (Some (Ecowitt.apiMessage msg)) = true.
Proof.
  unfold Ecowitt.apiMessage. destruct (truthyStr msg) eqn:E; [|reflexivity].
  destruct msg as [m|]; [exact E | discriminate].
Qed.

(** X13: what [fetchEcowittData] makes of an answer.  The result names the
    account; it never carries both an error and sensors; on a body with code 0
    whose soil entries all have valid times it lists one sensor per soil
    entry, in order, and a single soil entry with a time outside the range of
    dates turns the whole account into an error. *)
Theorem fetchEcowittData_result (net : Account -> Net RealtimeBody.t)
    (account : Account) :
  let r := Ecowitt.fetchEcowittData net account in
  Realtime.accountId r = id account /\
  (Realtime.sensors r = [] \/ Realtime.error r = None) /\
  (forall body,
     net account = Answered body ->
     Ecowitt.notZero (RealtimeBody.code body) = false ->
     let soil := Ecowitt.soilEntries (RealtimeBody.data body) in
     (forallb Ecowitt.validEntry soil = true ->
      Realtime.error r = None /\
      Realtime.sensors r = map (Ecowitt.sensorOf account) soil) /\
     (forallb Ecowitt.validEntry soil = false ->
      Realtime.error r = Some "Invalid time value" /\ Realtime.sensors r = [])) /\
  (forall body,
     net account = Answered body ->
     Ecowitt.notZero (RealtimeBody.code body) = true ->
     Realtime.sensors r = [] /\ truthyStr (Realtime.error r) = true).
Proof.
  intros r. subst r. unfold Ecowitt.fetchEcowittData.
  destruct (net account) as [message|body].
  - split; [reflexivity|]. split; [now left|].
    split; intros body' Hnet; discriminate Hnet.
  - destruct (Ecowitt.notZero (RealtimeBody.code body)) eqn:Hcode.
    + split; [reflexivity|]. split; [now left|]. split.
      * intros body' [= <-] Hzero. congruence.
      * intros body' [= <-] _. split; [reflexivity | apply apiMessage_truthy].
    + rewrite soilSensors_closed.
      destruct (forallb Ecowitt.validEntry
                  (Ecowitt.soilEntries (RealtimeBody.data body))) eqn:Hvalid.
      * split; [reflexivity|]. split; [now right|]. split.
        -- intros body' [= <-] _. cbv zeta. rewrite Hvalid.
           split; [intros _; split; reflexivity | discriminate].
        -- intros body' [= <-] Hnz. congruence.
      * split; [reflexivity|]. split; [now left|]. split.
        -- intros body' [= <-] _. cbv zeta. rewrite Hvalid.
           split; [discriminate | intros _; split; reflexivity].
        -- intros body' [= <-] Hnz. congruence.
Qed.

Lemma fetchEcowittData_result_witness :
  map Sensor.id
      (Realtime.sensors (Ecowitt.fetchEcowittData (fun _ => Answered twoChannels)
                           account1))
  = ["account1_soil_ch1"; "account1_soil_ch2"] /\
  Realtime.error (Ecowitt.fetchEcowittData (fun _ => Answered twoChannels) account1)
  = None.
Proof.
  destruct (fetchEcowittData_result (fun _ => Answered twoChannels) account1)
    as (_ & _ & Hok & _).
  destruct (Hok twoChannels eq_refl eq_refl) as [Hvalid _].
  destruct (Hvalid eq_refl) as [Herr Hsensors].
  split; [rewrite Hsensors; reflexivity | exact Herr].
Defined.

(** The accounts a process can have. *)
Lemma accountsOf_cases (env : ProcessEnv.t) :
  exists a1 a2,
    id a1 = "account1" /\ id a2 = "account2" /\
    (Ecowitt.accountsOf env = [a1; a2] \/ Ecowitt.accountsOf env = [a1] \/
     Ecowitt.accountsOf env = [a2] \/ Ecowitt.accountsOf env = []).
Proof.
  unfold Ecowitt.accountsOf. cbn [List.filter].
  do 2 eexists. split; [|split].
  3:{ destruct (Ecowitt.credentialed _); destruct (Ecowitt.credentialed _);
        cbn [map]; eauto. }
  all: reflexivity.
Qed.

Lemma accountsOf_find (env : ProcessEnv.t) (account : Account) :
  In account (Ecowitt.accountsOf env) ->
  (id account = "account1" \/ id account = "account2") /\
  List.find (fun a => String.eqb (id a) (id account)) (Ecowitt.accountsOf env)
  = Some account.
Proof.
  destruct (accountsOf_cases env) as (a1 & a2 & H1 & H2 & [E|[E|[E|E]]]);
    rewrite E; cbn [In List.find]; rewrite ?H1, ?H2.
  - intros [<-|[<-|[]]]; rewrite ?H1, ?H2; cbn; auto.
  - intros [<-|[]]; rewrite ?H1; cbn; auto.
  - intros [<-|[]]; rewrite ?H2; cbn; auto.
  - intros [].
Qed.

(** X14: the ids the poller builds are ids the history route accepts.  A
    sensor reported for a configured account has the id
    [<account id>_soil_ch<rest of the key>]; when the rest of the key is a
    non-empty run of digits, the history route parses the id back to the
    account and the channel and finds the account. *)
Theorem polled_ids_resolve (env : ProcessEnv.t) (localMinute : Z -> Z)
    (toLocale : LabelStyle -> Z -> string) (net : Account -> Net RealtimeBody.t)
    (account : Account) (s : Sensor.t) :
  In account (Ecowitt.accountsOf env) ->
  In s (Realtime.sensors (Ecowitt.fetchEcowittData net account)) ->
  Sensor.accountId s = id account /\
  exists channelNum,
    Sensor.id s = String.append (id account) (String.append "_soil_ch" channelNum) /\
    (channelNum <> "" -> allDigits channelNum = true ->
     matchSensorId (Sensor.id s) = Some (id account, channelNum) /\
     List.find (fun a => String.eqb (id a) (id account))
               (accounts (Ecowitt.configOf env localMinute toLocale))
     = Some account).
Proof.
  intros Hacc Hs.
  assert (exists entry, s = Ecowitt.sensorOf account entry) as [[[ch m] ad] ->].
  { unfold Ecowitt.fetchEcowittData in Hs.
    destruct (net account) as [message|body]; [destruct Hs|].
    destruct (Ecowitt.notZero _); [destruct Hs|].
    rewrite soilSensors_closed in Hs.
    destruct (forallb _ _); [|destruct Hs].
    cbn [Realtime.sensors] in Hs. apply in_map_iff in Hs as (entry & <- & _).
    eauto. }
  cbn [Ecowitt.sensorOf Sensor.id Sensor.accountId].
  split; [reflexivity|]. exists ch. split; [reflexivity|].
  intros Hne Hdigits.
  destruct (accountsOf_find env account Hacc) as [Hid Hfind].
  split; [|exact Hfind].
  apply matchSensorId_spec.
  destruct Hid as [Hid|Hid]; rewrite Hid;
    [exists "1" | exists "2"]; repeat split; auto; discriminate.
Qed.

Lemma polled_ids_resolve_witness :
  In account1 (Ecowitt.accountsOf oneAccountEnv) /\
  forall s,
    In s (Realtime.sensors
            (Ecowitt.fetchEcowittData (fun _ => Answered twoChannels) account1)) ->
    exists channelNum,
      Sensor.id s = String.append "account1" (String.append "_soil_ch" channelNum).
Proof.
  assert (In account1 (Ecowitt.accountsOf oneAccountEnv)) as H by (now left).
  split; [exact H|]. intros s Hs.
  destruct (polled_ids_resolve oneAccountEnv (fun t => t) (fun _ _ => "")
              (fun _ => Answered twoChannels) account1 s H Hs)
    as (_ & channelNum & Hid & _).
  exists channelNum. exact Hid.
Defined.

(** X15: a history call that fails on the network, or is answered with a
    code other than 0, ends in an answer from the local store, tagged [local]
    and without an error message, the store read once. *)
Theorem failed_history_call_falls_back (cfg : Config) (now nowLocal : Z)
    (net : Account -> Z -> Z -> string -> Net HistoryBody.t)
    (sensorId period accountId channel : string) (account : Account) (w : World) :
  matchSensorId sensorId = Some (accountId, channel) ->
  List.find (fun a => String.eqb (id a) accountId) (accounts cfg) = Some account ->
  period <> "1h" ->
  let start := startDate period now in
  (exists message, net account start now channel = Failed message) \/
  (exists body,
     net account start now channel = Answered body /\
     Ecowitt.notZero (HistoryBody.code body) = true) ->
  historyHandler cfg (Ecowitt.historyEnv now nowLocal net) sensorId period w =
    (Some {| HistoryResponse.sensorId := sensorId;
             HistoryResponse.period := period;
             HistoryResponse.data :=
               map (toPoint cfg period)
                 (selectReadings cfg nowLocal period
                    (default [] (historyFile w !! sensorId)));
             HistoryResponse.source := Some local;
             HistoryResponse.error := None |},
     w, [FetchHistory account start now channel; ReadHistoryFile]).
Proof.
  intros Hmatch Hfind Hperiod start Hfail.
  rewrite (ResolverPaths.historyHandler_cloud_run cfg _ sensorId period accountId
             channel account w Hmatch Hfind Hperiod).
  cbn [Ecowitt.historyEnv Resolver.now Resolver.nowLocal
       Resolver.fetchEcowittHistory].
  fold start. unfold Ecowitt.fetchEcowittHistory.
  destruct Hfail as [[message ->]|(body & -> & ->)].
  - cbn [Cloud.error]. destruct (truthyStr (Some message)); reflexivity.
  - cbn [Cloud.error]. rewrite apiMessage_truthy. reflexivity.
Qed.

Lemma failed_history_call_falls_back_witness :
  value_of (historyHandler utc (Ecowitt.historyEnv 600000 600000 (fun _ _ _ _ => netDown))
              "account1_soil_ch1" "7d" (worldWith [reading 50 60000]))
  = Some {| HistoryResponse.sensorId := "account1_soil_ch1";
            HistoryResponse.period := "7d";
            HistoryResponse.data :=
              map (toPoint utc "7d")
                (selectReadings utc 600000 "7d"
                   (default [] (historyFile (worldWith [reading 50 60000])
                                  !! "account1_soil_ch1")));
            HistoryResponse.source := Some local;
            HistoryResponse.error := None |}.
Proof.
  rewrite (failed_history_call_falls_back utc 600000 600000
             (fun _ _ _ _ => netDown) "account1_soil_ch1" "7d" "account1" "1"
             account1 (worldWith [reading 50 60000])).
  - reflexivity.
  - vm_compute. reflexivity.
  - vm_compute. reflexivity.
  - discriminate.
  - left. exists "fetch failed". reflexivity.
Defined.

End EcowittFacts.

(** ** More on the live poller *)
Module PollerRuns.
Import Store Poller StoreFacts PollerFacts Polling Samples MoreSamples.

Lemma forEach_emit_run {A} (f : A -> Event) (l : list A) (w : World) :
  forEach (fun a => emit (f a)) l w = (tt, w, map f l).
Proof.
  induction l as [|x l IH]; [reflexivity|].
  cbn [forEach map]. unfold bind.
  change (emit (f x) w) with (tt, w, [f x]). cbv beta iota.
  rewrite IH. reflexivity.
Qed.

Lemma fetchAll_run (env : Env) (accounts : list Account) (w : World) :
  fetchAll env accounts w =
  (map (fetchEcowittData env) accounts, w, map FetchRealtime accounts).
Proof.
  unfold fetchAll, bind, ret. cbv beta.
  rewrite (forEach_emit_run FetchRealtime). rewrite app_nil_r. reflexivity.
Qed.

Lemma storeReading_trace (sensorId : string) (moisture timestamp : Z) (w : World) :
  trace_of (storeReading sensorId moisture timestamp w)
  = [ReadHistoryFile; WriteHistoryFile].
Proof. reflexivity. Qed.

Lemma store_sensors_run (env : Env) (sensors : list Sensor.t) (w : World) :
  forEach (fun sensor =>
             storeReading (Sensor.id sensor) (Sensor.moisture sensor)
               (default (nowStored env) (Sensor.timestamp sensor)))
          sensors w
  = (tt, world_of (storeAll (appends env sensors) w), storeEvents sensors).
Proof.
  revert w. induction sensors as [|s sensors IH]; intros w; [reflexivity|].
  cbn [forEach]. unfold appends. cbn [map].
  fold (appends env sensors). rewrite storeAll_cons. cbn [fst snd].
  unfold bind at 1.
  destruct (storeReading (Sensor.id s) (Sensor.moisture s)
              (default (nowStored env) (Sensor.timestamp s)) w)
    as [[[] w1] t1] eqn:E.
  pose proof (storeReading_trace (Sensor.id s) (Sensor.moisture s)
                (default (nowStored env) (Sensor.timestamp s)) w) as Ht.
  rewrite E in Ht. unfold trace_of in Ht. cbn [snd] in Ht. subst t1.
  unfold world_of at 2. cbn [fst snd]. rewrite IH. reflexivity.
Qed.

(** A poll, in closed form. *)
Lemma refresh_run (cfg : Config) (env : Env) (w : World) :
  let w1 := world_of (storeAll (appends env (allSensors cfg env)) w) in
  let trace :=
    map FetchRealtime (accounts cfg) ++ storeEvents (allSensors cfg env) in
  refresh cfg env w =
  if (length (allSensors cfg env) =? 0) && (0 <? length (errors cfg env)) then
    (mockResponse env (Some (errors cfg env)), w1, trace)
  else
    (polledResponse cfg env,
     {| historyFile := historyFile w1; settingsFile := settingsFile w1;
        sensorCache := Some (polledResponse cfg env);
        sensorCacheTime := nowCached env |},
     trace).
Proof.
  intros w1 trace. unfold refresh. unfold bind at 1. rewrite fetchAll_run.
  fold (results cfg env). fold (allSensors cfg env). fold (errors cfg env).
  unfold bind at 1. rewrite store_sensors_run. fold w1.
  destruct ((length (allSensors cfg env) =? 0) && (0 <? length (errors cfg env))).
  - unfold ret. rewrite app_nil_r. reflexivity.
  - unfold bind, setCache, ret. rewrite !app_nil_r. reflexivity.
Qed.

Lemma live_stale_polls (cfg : Config) (env : Env) (w : World) :
  mockMode cfg = false -> stale env w ->
  sensorsHandler cfg env w = refresh cfg env w.
Proof.
  intros Hlive Hstale.
  destruct (sensorsHandler_cases cfg env w)
    as [[Hmock _]|[(_ & s & Hs & Hfresh & _)|(_ & _ & Hrun)]].
  - congruence.
  - specialize (Hstale s Hs). lia.
  - exact Hrun.
Qed.

Lemma refresh_history (cfg : Config) (env : Env) (w : World) :
  historyFile (world_of (refresh cfg env w)) =
  historyFile (world_of (storeAll (appends env (allSensors cfg env)) w)).
Proof.
  rewrite refresh_run. destruct (_ && _); reflexivity.
Qed.

Lemma refresh_trace (cfg : Config) (env : Env) (w : World) :
  trace_of (refresh cfg env w) =
  map FetchRealtime (accounts cfg) ++ storeEvents (allSensors cfg env).
Proof.
  rewrite refresh_run. destruct (_ && _); reflexivity.
Qed.

(** X16: a poll (live mode, no fresh snapshot) appends one reading per
    reported sensor to that sensor's series, in the order reported, under the
    50,000 cap; the series of sensors that were not reported stay as they
    were. *)
Theorem poll_stores_every_sensor (cfg : Config) (env : Env) (w : World)
    (sensorId : string) :
  mockMode cfg = false -> stale env w ->
  let before := default [] (historyFile w !! sensorId) in
  let mine := appendsFor sensorId (appends env (allSensors cfg env)) in
  let after := historyFile (world_of (sensorsHandler cfg env w)) !! sensorId in
  (mine = [] -> after = historyFile w !! sensorId) /\
  (mine <> [] -> after = Some (lastN retentionCap (before ++ mine))).
Proof.
  intros Hlive Hstale before mine after. subst after.
  rewrite (live_stale_polls cfg env w Hlive Hstale), refresh_history.
  rewrite storeAll_lookup. fold mine.
  destruct mine as [|r mine].
  - split; [reflexivity | intros H; now destruct H].
  - split; [discriminate | reflexivity].
Qed.

Lemma poll_stores_every_sensor_witness :
  mockMode utc = false /\ stale (pollAt 1000) emptyWorld /\
  historyFile (world_of (sensorsHandler utc (pollAt 1000) emptyWorld))
    !! "account1_soil_ch1"
  = Some [reading 64 1768775100000].
Proof.
  assert (mockMode utc = false) as H1 by reflexivity.
  assert (stale (pollAt 1000) emptyWorld) as H2 by (intros s Hs; discriminate Hs).
  split; [exact H1|]. split; [exact H2|].
  destruct (poll_stores_every_sensor utc (pollAt 1000) emptyWorld
              "account1_soil_ch1" H1 H2) as [_ Hsome].
  rewrite Hsome; [|vm_compute; discriminate].
  vm_compute. reflexivity.
Defined.

Lemma upstream_of_store_events (sensors : list Sensor.t) :
  List.filter isUpstream (storeEvents sensors) = [].
Proof. induction sensors as [|s l IH]; [reflexivity | exact IH]. Qed.

Lemma upstream_of_fetches (accounts : list Account) :
  List.filter isUpstream (map FetchRealtime accounts) = map FetchRealtime accounts.
Proof.
  induction accounts as [|a l IH]; [reflexivity|]. cbn. now rewrite IH.
Qed.

(** X17: a poll calls the cloud once for each configured account, in the
    order configured, before it touches the history file, which it then reads
    and writes once for each reported sensor. *)
Theorem poll_calls_each_account_once (cfg : Config) (env : Env) (w : World) :
  mockMode cfg = false -> stale env w ->
  trace_of (sensorsHandler cfg env w) =
    map FetchRealtime (accounts cfg) ++ storeEvents (allSensors cfg env) /\
  List.filter isUpstream (trace_of (sensorsHandler cfg env w)) =
    map FetchRealtime (accounts cfg).
Proof.
  intros Hlive Hstale.
  rewrite (live_stale_polls cfg env w Hlive Hstale), refresh_trace.
  split; [reflexivity|].
  rewrite List.filter_app, upstream_of_store_events, upstream_of_fetches.
  apply app_nil_r.
Qed.

Lemma poll_calls_each_account_once_witness :
  mockMode utc = false /\ stale (pollAt 1000) emptyWorld /\
  trace_of (sensorsHandler utc (pollAt 1000) emptyWorld) =
    [FetchRealtime account1; ReadHistoryFile; WriteHistoryFile].
Proof.
  assert (mockMode utc = false) as H1 by reflexivity.
  assert (stale (pollAt 1000) emptyWorld) as H2 by (intros s Hs; discriminate Hs).
  split; [exact H1|]. split; [exact H2|].
  rewrite (proj1 (poll_calls_each_account_once utc (pollAt 1000) emptyWorld H1 H2)).
  reflexivity.
Defined.

(** X18: when every account fails, the poll answers with mock sensors
    flagged [mock], lists the failures, and leaves the history file and the
    cache as they were, so that the next request polls again. *)
Theorem all_accounts_failed (cfg : Config) (env : Env) (w : World) :
  mockMode cfg = false -> stale env w ->
  allSensors cfg env = [] -> errors cfg env <> [] ->
  sensorsHandler cfg env w =
    ({| SensorsResponse.sensors := generateMockSensors env;
        SensorsResponse.mock := true;
        SensorsResponse.errors := Some (errors cfg env);
        SensorsResponse.lastUpdated := nowUpdated env |},
     w, map FetchRealtime (accounts cfg)).
Proof.
  intros Hlive Hstale Hnone Herr.
  rewrite (live_stale_polls cfg env w Hlive Hstale), refresh_run, Hnone.
  destruct (errors cfg env) as [|e es]; [congruence|].
  cbn [length Nat.eqb Nat.ltb Nat.leb andb storeEvents flat_map appends map].
  rewrite app_nil_r. destruct w. reflexivity.
Qed.

Lemma all_accounts_failed_witness :
  mockMode utc = false /\ stale (pollOver (fun _ => netDown) 1000) emptyWorld /\
  allSensors utc (pollOver (fun _ => netDown) 1000) = [] /\
  errors utc (pollOver (fun _ => netDown) 1000) = [("account1", "fetch failed")] /\
  sensorsHandler utc (pollOver (fun _ => netDown) 1000) emptyWorld =
    ({| SensorsResponse.sensors := [];
        SensorsResponse.mock := true;
        SensorsResponse.errors := Some [("account1", "fetch failed")];
        SensorsResponse.lastUpdated := 1000 |},
     emptyWorld, [FetchRealtime account1]).
Proof.
  assert (mockMode utc = false) as H1 by reflexivity.
  assert (stale (pollOver (fun _ => netDown) 1000) emptyWorld) as H2
    by (intros s Hs; discriminate Hs).
  assert (allSensors utc (pollOver (fun _ => netDown) 1000) = []) as H3
    by reflexivity.
  assert (errors utc (pollOver (fun _ => netDown) 1000)
          = [("account1", "fetch failed")]) as H4 by reflexivity.
  repeat (split; [assumption|]).
  rewrite (all_accounts_failed utc (pollOver (fun _ => netDown) 1000) emptyWorld
             H1 H2 H3); [|rewrite H4; discriminate].
  rewrite H4. reflexivity.
Defined.

Section Latest.
Variable step : Z -> Sensor.t -> Z.
Hypothesis step_eq : forall latest sensor,
  step latest sensor =
  match Sensor.timestamp sensor with
  | None => latest
  | Some t => if (t >? latest)%Z then t else latest
  end.

Lemma step_ge (start : Z) (s : Sensor.t) : (start <= step start s)%Z.
Proof.
  rewrite step_eq. destruct (Sensor.timestamp s) as [t|]; [|lia].
  destruct (Z.gtb_spec t start); lia.
Qed.

Lemma latest_fold (sensors : list Sensor.t) (start : Z) :
  (start <= fold_left step sensors start)%Z /\
  (forall s t, In s sensors -> Sensor.timestamp s = Some t ->
               (t <= fold_left step sensors start)%Z) /\
  (fold_left step sensors start = start \/
   exists s, In s sensors /\
             Sensor.timestamp s = Some (fold_left step sensors start)).
Proof.
  revert start. induction sensors as [|s sensors IH]; intros start.
  - cbn. split; [lia|]. split; [intros s t []|now left].
  - cbn [fold_left]. destruct (IH (step start s)) as (Hge & Hall & Hatt).
    pose proof (step_ge start s) as Hstep.
    split; [lia|]. split.
    + intros s' t [Heq|Hin] Ht; [subst s'|now apply (Hall s' t)].
      assert (t <= step start s)%Z; [|lia].
      rewrite step_eq, Ht. destruct (Z.gtb_spec t start); lia.
    + destruct Hatt as [Heq|(s' & Hin & Ht)].
      * rewrite Heq. rewrite step_eq.
        destruct (Sensor.timestamp s) as [t|] eqn:Ets; [|now left].
        destruct (Z.gtb_spec t start); [|now left].
        right. exists s. split; [now left | exact Ets].
      * right. exists s'. split; [now right | exact Ht].
Qed.
End Latest.

(** X19: a poll in which some account answered is answered with all
    reported sensors and cached.  Its [lastUpdated] is the latest of the
    sensors' report times when one of them is positive, attained by a sensor
    and not earlier than any other, and the time of the request otherwise. *)
Theorem polled_last_updated (cfg : Config) (env : Env) (w : World) :
  mockMode cfg = false -> stale env w ->
  allSensors cfg env <> [] \/ errors cfg env = [] ->
  let response := value_of (sensorsHandler cfg env w) in
  let w' := world_of (sensorsHandler cfg env w) in
  SensorsResponse.sensors response = allSensors cfg env /\
  SensorsResponse.mock response = false /\
  sensorCache w' = Some response /\
  sensorCacheTime w' = nowCached env /\
  ((exists s t, In s (allSensors cfg env) /\ Sensor.timestamp s = Some t /\ (0 < t)%Z) ->
   (exists s, In s (allSensors cfg env) /\
              Sensor.timestamp s = Some (SensorsResponse.lastUpdated response)) /\
   (forall s t, In s (allSensors cfg env) -> Sensor.timestamp s = Some t ->
                (t <= SensorsResponse.lastUpdated response)%Z)) /\
  ((forall s t, In s (allSensors cfg env) -> Sensor.timestamp s = Some t -> (t <= 0)%Z) ->
   SensorsResponse.lastUpdated response = nowUpdated env).
Proof.
  intros Hlive Hstale Hsome response w'. subst response w'.
  rewrite (live_stale_polls cfg env w Hlive Hstale), refresh_run.
  assert ((length (allSensors cfg env) =? 0) && (0 <? length (errors cfg env))
          = false) as ->.
  { destruct Hsome as [Hs|He].
    - destruct (allSensors cfg env); [congruence | reflexivity].
    - rewrite He. apply andb_false_r. }
  unfold value_of, world_of. cbn [fst snd sensorCache sensorCacheTime].
  unfold polledResponse at 1 2.
  cbn [SensorsResponse.sensors SensorsResponse.mock].
  repeat (split; [reflexivity|]).
  pose proof (latest_fold _ (fun latest sensor => eq_refl) (allSensors cfg env) 0)
    as (Hge & Hall & Hatt).
  fold (latestSensorTime (allSensors cfg env)) in Hge, Hall, Hatt.
  unfold polledResponse. cbn [SensorsResponse.lastUpdated].
  split.
  - intros (s & t & Hin & Ht & Hpos).
    pose proof (Hall s t Hin Ht).
    destruct (Z.gtb_spec (latestSensorTime (allSensors cfg env)) 0); [|lia].
    split; [|exact Hall].
    destruct Hatt as [E|Hatt]; [lia | exact Hatt].
  - intros Hold.
    destruct (Z.gtb_spec (latestSensorTime (allSensors cfg env)) 0) as [Hpos|];
      [|reflexivity].
    destruct Hatt as [E|(s & Hin & Ht)]; [lia|].
    specialize (Hold s _ Hin Ht). lia.
Qed.

Lemma polled_last_updated_witness :
  mockMode utc = false /\ stale (pollAt 1000) emptyWorld /\
  (allSensors utc (pollAt 1000) <> [] \/ errors utc (pollAt 1000) = []) /\
  SensorsResponse.lastUpdated (value_of (sensorsHandler utc (pollAt 1000) emptyWorld))
  = 1768775100000%Z.
Proof.
  assert (mockMode utc = false) as H1 by reflexivity.
  assert (stale (pollAt 1000) emptyWorld) as H2 by (intros s Hs; discriminate Hs).
  assert (allSensors utc (pollAt 1000) <> [] \/ errors utc (pollAt 1000) = [])
    as H3 by (now right).
  repeat (split; [assumption|]).
  destruct (polled_last_updated utc (pollAt 1000) emptyWorld H1 H2 H3)
    as (_ & _ & _ & _ & Hlatest & _).
  destruct Hlatest as [(s & Hin & Ht) _].
  { exists sensor1, 1768775100000%Z. repeat split. now left. }
  destruct Hin as [<-|[]]. cbn [Sensor.timestamp sensor1] in Ht. congruence.
Defined.

(** X20: a process started with [USE_MOCK_DATA=true], or in which neither
    account has all three credentials set and non-empty, answers every request
    for the sensors with mock data flagged [mock]; it calls nothing, reads and
    writes no file, and caches nothing. *)
Theorem unconfigured_process_serves_mock (penv : ProcessEnv.t)
    (localMinute : Z -> Z) (toLocale : LabelStyle -> Z -> string)
    (env : Env) (w : World) :
  ProcessEnv.USE_MOCK_DATA penv = Some "true" \/
  ((truthyStr (ProcessEnv.ECOWITT_APP_KEY_1 penv)
    && truthyStr (ProcessEnv.ECOWITT_API_KEY_1 penv)
    && truthyStr (ProcessEnv.ECOWITT_MAC_1 penv) = false) /\
   (truthyStr (ProcessEnv.ECOWITT_APP_KEY_2 penv)
    && truthyStr (ProcessEnv.ECOWITT_API_KEY_2 penv)
    && truthyStr (ProcessEnv.ECOWITT_MAC_2 penv) = false)) ->
  sensorsHandler (Ecowitt.configOf penv localMinute toLocale) env w =
    ({| SensorsResponse.sensors := generateMockSensors env;
        SensorsResponse.mock := true;
        SensorsResponse.errors := None;
        SensorsResponse.lastUpdated := nowUpdated env |},
     w, []).
Proof.
  intros Hmock. unfold sensorsHandler.
  assert (USE_MOCK_DATA (Ecowitt.configOf penv localMinute toLocale)
          || (length (accounts (Ecowitt.configOf penv localMinute toLocale)) =? 0)
          = true) as ->; [|reflexivity].
  destruct Hmock as [Hflag|[H1 H2]].
  - cbn [Ecowitt.configOf USE_MOCK_DATA]. rewrite Hflag. reflexivity.
  - apply orb_true_iff. right.
    cbn [Ecowitt.configOf accounts]. unfold Ecowitt.accountsOf.
    cbn [List.filter]. unfold Ecowitt.credentialed.
    cbn [RawAccount.appKey RawAccount.apiKey RawAccount.mac].
    rewrite H1, H2. reflexivity.
Qed.

Lemma unconfigured_process_serves_mock_witness :
  sensorsHandler (configUTC bareEnv) (pollAt 1000) emptyWorld =
    ({| SensorsResponse.sensors := [];
        SensorsResponse.mock := true;
        SensorsResponse.errors := None;
        SensorsResponse.lastUpdated := 1000 |},
     emptyWorld, []).
Proof.
  apply (unconfigured_process_serves_mock bareEnv (fun t => (t / 60000)%Z)
           (fun _ _ => "") (pollAt 1000) emptyWorld).
  right. split; reflexivity.
Defined.

End PollerRuns.

(** ** More on the settings record *)
Module SettingsRuns.
Import SettingsApi SettingsRoutes Samples MoreSamples.

Lemma loadSettings_run (w : World) :
  loadSettings w =
  (match settingsFile w with Some p => normal p | None => defaults end,
   w, [ReadSettingsFile]).
Proof. reflexivity. Qed.

Lemma normal_truthy (settings : Settings.t) :
  falsy (Settings.thresholds (normal settings)) = false.
Proof.
  unfold normal. destruct (falsy (Settings.thresholds settings)) eqn:E;
    [reflexivity | exact E].
Qed.

Lemma normal_fixed (settings : Settings.t) :
  falsy (Settings.thresholds settings) = false -> normal settings = settings.
Proof. intros E. unfold normal. now rewrite E. Qed.

Lemma loaded_truthy (w : World) :
  falsy (Settings.thresholds (value_of (loadSettings w))) = false.
Proof.
  rewrite loadSettings_run. unfold value_of. cbn [fst].
  destruct (settingsFile w); [apply normal_truthy | reflexivity].
Qed.

(** X21: whatever the settings file holds, [loadSettings] hands back a
    record whose [thresholds] is present and truthy: the all-empty default
    when there is no readable file, the file's record otherwise, with a
    missing or falsy [thresholds] read as the empty object.  Loading changes
    nothing, and a record that was loaded loads as itself. *)
Theorem loadSettings_complete (w : World) :
  exists settings,
    loadSettings w = (settings, w, [ReadSettingsFile]) /\
    falsy (Settings.thresholds settings) = false /\
    (settingsFile w = None -> settings = defaults) /\
    (forall persisted, settingsFile w = Some persisted ->
       Settings.names settings = Settings.names persisted /\
       Settings.colors settings = Settings.colors persisted /\
       Settings.order settings = Settings.order persisted /\
       Settings.hidden settings = Settings.hidden persisted /\
       Settings.thresholds settings =
         if falsy (Settings.thresholds persisted) then Some (JObj [])
         else Settings.thresholds persisted) /\
    value_of (loadSettings (worldWithSettings settings)) = settings.
Proof.
  eexists. split; [apply loadSettings_run|].
  split; [apply (loaded_truthy w)|]. split; [intros ->; reflexivity|]. split.
  - intros persisted ->. unfold normal.
    destruct (falsy (Settings.thresholds persisted)); repeat split; reflexivity.
  - rewrite loadSettings_run. unfold value_of. cbn [fst worldWithSettings settingsFile].
    apply normal_fixed. destruct (settingsFile w); [apply normal_truthy | reflexivity].
Qed.

Lemma postSettings_run (body : Settings.t) (w : World) :
  postSettings body w =
  (merge body (value_of (loadSettings w)),
   {| historyFile := historyFile w;
      settingsFile := Some (merge body (value_of (loadSettings w)));
      sensorCache := sensorCache w; sensorCacheTime := sensorCacheTime w |},
   [ReadSettingsFile; WriteSettingsFile]).
Proof. reflexivity. Qed.

(** X22: reading the settings back after an update.  What is read is what
    the update answered, except that a [thresholds] the update set to a falsy
    value (null, false, 0, the empty string) reads back as the empty
    object. *)
Theorem post_then_get (body : Settings.t) (w : World) :
  let posted := value_of (postSettings body w) in
  let read := value_of (getSettings (world_of (postSettings body w))) in
  read = normal posted /\
  (falsy (Settings.thresholds body) = false \/ Settings.thresholds body = None ->
   read = posted) /\
  (Settings.thresholds body <> None -> falsy (Settings.thresholds body) = true ->
   Settings.thresholds read = Some (JObj []) /\
   Settings.thresholds posted = Settings.thresholds body).
Proof.
  intros posted read. subst posted read.
  rewrite postSettings_run. unfold getSettings, value_of, world_of.
  cbn [fst snd]. rewrite loadSettings_run. cbn [fst settingsFile].
  split; [reflexivity|].
  pose proof (loaded_truthy w) as Hloaded. rewrite loadSettings_run in Hloaded.
  unfold value_of in Hloaded. cbn [fst] in Hloaded.
  set (current := match settingsFile w with
                  | Some p => normal p | None => defaults end) in *.
  split.
  - intros Hbody. apply normal_fixed. unfold merge. cbn [Settings.thresholds].
    destruct (Settings.thresholds body) as [v|]; cbn [orCurrent];
      [destruct Hbody as [H|H]; [exact H | discriminate] | exact Hloaded].
  - intros Hsome Hfalsy.
    destruct (Settings.thresholds body) as [v|] eqn:E; [|congruence].
    unfold normal, merge. cbn [Settings.thresholds]. rewrite E. cbn [orCurrent].
    rewrite Hfalsy. split; reflexivity.
Qed.

Lemma post_then_get_witness :
  Settings.thresholds nullThresholds <> None /\
  falsy (Settings.thresholds nullThresholds) = true /\
  Settings.thresholds
    (value_of (getSettings (world_of (postSettings nullThresholds
                                        (worldWithSettings olderSettings)))))
  = Some (JObj []) /\
  Settings.thresholds
    (value_of (postSettings nullThresholds (worldWithSettings olderSettings)))
  = Some JNull.
Proof.
  assert (Settings.thresholds nullThresholds <> None) as H1 by discriminate.
  assert (falsy (Settings.thresholds nullThresholds) = true) as H2 by reflexivity.
  split; [exact H1|]. split; [exact H2|].
  exact (proj2 (proj2 (post_then_get nullThresholds
                         (worldWithSettings olderSettings))) H1 H2).
Defined.

(** X23: sending the same update twice leaves the settings file as sending
    it once does, and is answered alike. *)
Theorem postSettings_idempotent (body : Settings.t) (w : World) :
  postSettings body (world_of (postSettings body w)) = postSettings body w.
Proof.
  rewrite !postSettings_run. unfold world_of, value_of. cbn [fst snd].
  rewrite !loadSettings_run. cbn [fst settingsFile historyFile sensorCache
                                  sensorCacheTime].
  pose proof (loaded_truthy w) as Hloaded. rewrite loadSettings_run in Hloaded.
  unfold value_of in Hloaded. cbn [fst] in Hloaded.
  set (current := match settingsFile w with
                  | Some p => normal p | None => defaults end) in *.
  assert (merge body (normal (merge body current)) = merge body current) as ->;
    [|reflexivity].
  unfold normal. destruct (falsy (Settings.thresholds (merge body current))) eqn:E.
  - unfold merge in *. cbn [Settings.names Settings.colors Settings.order
                            Settings.hidden Settings.thresholds] in *.
    destruct (Settings.thresholds body) as [v|]; cbn [orCurrent] in *;
      [|congruence].
    f_equal; (match goal with |- orCurrent ?b _ = _ => destruct b end); reflexivity.
  - unfold merge. cbn [Settings.names Settings.colors Settings.order
                       Settings.hidden Settings.thresholds].
    f_equal; (match goal with |- orCurrent ?b _ = _ => destruct b end); reflexivity.
Qed.

(** X24: the order and hidden routes replace their field, absent when the
    request carries none, and keep the others as loaded; the answer is the
    new field, and the settings read back are the loaded ones with that field
    replaced. *)
Theorem whole_field_routes (field : option JSON) (w : World) :
  let before := value_of (loadSettings w) in
  (postOrder field w =
     (field,
      {| historyFile := historyFile w;
         settingsFile := Some (setOrder before field);
         sensorCache := sensorCache w; sensorCacheTime := sensorCacheTime w |},
      [ReadSettingsFile; WriteSettingsFile]) /\
   value_of (getSettings (world_of (postOrder field w))) = setOrder before field) /\
  (postHidden field w =
     (field,
      {| historyFile := historyFile w;
         settingsFile := Some (setHidden before field);
         sensorCache := sensorCache w; sensorCacheTime := sensorCacheTime w |},
      [ReadSettingsFile; WriteSettingsFile]) /\
   value_of (getSettings (world_of (postHidden field w))) = setHidden before field).
Proof.
  intros before. pose proof (loaded_truthy w) as Hloaded. fold before in Hloaded.
  split; (split; [reflexivity|]).
  - change (world_of (postOrder field w)) with
      {| historyFile := historyFile w;
         settingsFile := Some (setOrder before field);
         sensorCache := sensorCache w; sensorCacheTime := sensorCacheTime w |}.
    unfold getSettings. rewrite loadSettings_run. unfold value_of at 1.
    cbn [fst settingsFile]. apply normal_fixed. exact Hloaded.
  - change (world_of (postHidden field w)) with
      {| historyFile := historyFile w;
         settingsFile := Some (setHidden before field);
         sensorCache := sensorCache w; sensorCacheTime := sensorCacheTime w |}.
    unfold getSettings. rewrite loadSettings_run. unfold value_of at 1.
    cbn [fst settingsFile]. apply normal_fixed. exact Hloaded.
Qed.

End SettingsRuns.

(** ** The date format *)
Module DateFormatFacts.
Import DateFormat MoreSamples.

Lemma length_append (a b : string) :
  String.length (String.append a b) = String.length a + String.length b.
Proof.
  induction a as [|c a IH]; [reflexivity|].
  rewrite ResolverFacts.append_cons. cbn [String.length]. now rewrite IH.
Qed.

Lemma append_inj_length (a a' b b' : string) :
  String.length a = String.length a' ->
  String.append a b = String.append a' b' -> a = a' /\ b = b'.
Proof.
  revert a'. induction a as [|c a IH]; intros [|c' a'] Hlen; try discriminate.
  - auto.
  - rewrite !ResolverFacts.append_cons. intros [= -> Heq].
    cbn in Hlen. destruct (IH a' ltac:(lia) Heq) as [-> ->]. auto.
Qed.

Lemma pad_length (n : nat) : n < 100 -> String.length (pad n) = 2.
Proof.
  intros Hn.
  assert (forallb (fun n => String.length (pad n) =? 2) (seq 0 100) = true) as Hall
    by (vm_compute; reflexivity).
  rewrite forallb_forall in Hall.
  apply Nat.eqb_eq, Hall, in_seq. lia.
Qed.

Lemma pad_inj (n m : nat) : n < 100 -> m < 100 -> pad n = pad m -> n = m.
Proof.
  intros Hn Hm Heq.
  assert (forallb (fun n => forallb (fun m => negb (String.eqb (pad n) (pad m))
                                              || (n =? m)) (seq 0 100))
                  (seq 0 100) = true) as Hall by (vm_compute; reflexivity).
  rewrite forallb_forall in Hall.
  specialize (Hall n ltac:(apply in_seq; lia)).
  rewrite forallb_forall in Hall.
  specialize (Hall m ltac:(apply in_seq; lia)).
  apply orb_true_iff in Hall as [Hne|Hnm]; [|now apply Nat.eqb_eq].
  apply negb_true_iff, String.eqb_neq in Hne. contradiction.
Qed.

Lemma year_length (y : Z) :
  (1000 <= y <= 9999)%Z -> String.length (pretty y) = 4.
Proof.
  intros Hy.
  assert (forallb (fun n => String.length (pretty (Z.of_nat n)) =? 4)
                  (seq (Z.to_nat 1000) (Z.to_nat 9000)) = true) as Hall
    by (vm_compute; reflexivity).
  rewrite forallb_forall in Hall.
  specialize (Hall (Z.to_nat y)). rewrite Z2Nat.id in Hall by lia.
  apply Nat.eqb_eq, Hall, in_seq. lia.
Qed.

(** X25: for a date with a four-digit year, [formatEcowittDate] yields
    exactly the 19 characters of [YYYY-MM-DD HH:MM:SS], and two such dates
    with the same text have the same six fields. *)
Theorem formatEcowittDate_shape (date : LocalDate) :
  fourDigitYear date ->
  String.length (formatEcowittDate date) = 19 /\
  forall other, fourDigitYear other ->
    formatEcowittDate other = formatEcowittDate date -> other = date.
Proof.
  intros (Hy & Hmo & Hd & Hh & Hmi & Hs). split.
  - unfold formatEcowittDate. rewrite !length_append.
    rewrite year_length by assumption. rewrite !pad_length by lia. reflexivity.
  - intros other (Hy' & Hmo' & Hd' & Hh' & Hmi' & Hs') Heq.
    unfold formatEcowittDate in Heq.
    apply append_inj_length in Heq as [Eyear Heq];
      [|rewrite !year_length by assumption; reflexivity].
    apply (append_inj_length "-" "-") in Heq as [_ Heq]; [|reflexivity].
    apply append_inj_length in Heq as [Emonth Heq];
      [|rewrite !pad_length by lia; reflexivity].
    apply (append_inj_length "-" "-") in Heq as [_ Heq]; [|reflexivity].
    apply append_inj_length in Heq as [Eday Heq];
      [|rewrite !pad_length by lia; reflexivity].
    apply (append_inj_length " " " ") in Heq as [_ Heq]; [|reflexivity].
    apply append_inj_length in Heq as [Ehour Heq];
      [|rewrite !pad_length by lia; reflexivity].
    apply (append_inj_length ":" ":") in Heq as [_ Heq]; [|reflexivity].
    apply append_inj_length in Heq as [Emin Heq];
      [|rewrite !pad_length by lia; reflexivity].
    apply (append_inj_length ":" ":") in Heq as [_ Esec]; [|reflexivity].
    apply pretty_Z_inj in Eyear.
    apply pad_inj in Emonth, Eday, Ehour, Emin, Esec; try lia.
    destruct date, other. cbn in *. f_equal; lia.
Qed.

Lemma formatEcowittDate_shape_witness :
  fourDigitYear eveningDate /\
  formatEcowittDate eveningDate = "2026-01-18 22:25:00" /\
  String.length (formatEcowittDate eveningDate) = 19.
Proof.
  assert (fourDigitYear eveningDate) as H
    by (unfold fourDigitYear, eveningDate; cbn; lia).
  split; [exact H|]. split; [vm_compute; reflexivity|].
  exact (proj1 (formatEcowittDate_shape eveningDate H)).
Defined.

End DateFormatFacts.

(** ** Ids, periods and the cache across requests *)
Module Crosscuts.
Import Store Resolver Poller StoreFacts ResolverFacts PollerFacts PollerRuns
       Polling Samples MoreSamples.

(** X26: the matcher of the history route accepts exactly the ids made of
    [account], a non-empty run of digits, [_soil_ch] and a non-empty run of
    digits, and hands back the account id and the channel; in particular it
    parses such an id, put together from its parts, back into them. *)
Theorem sensor_id_pattern (sensorId accountId channel : string) :
  (matchSensorId sensorId = Some (accountId, channel) <->
   wellFormedId sensorId accountId channel) /\
  (forall digits,
     digits <> "" -> allDigits digits = true ->
     channel <> "" -> allDigits channel = true ->
     matchSensorId
       (String.append (String.append "account" digits)
          (String.append "_soil_ch" channel))
     = Some (String.append "account" digits, channel)).
Proof.
  split; [apply matchSensorId_spec|].
  intros digits Hd Dd Hc Dc. apply matchSensorId_spec.
  exists digits. repeat split; assumption.
Qed.

Lemma sensor_id_pattern_witness :
  matchSensorId "account12_soil_ch7" = Some ("account12", "7") /\
  matchSensorId "account1_soil_ch" = None /\
  matchSensorId "account_soil_ch1" = None /\
  matchSensorId "account1_soil_ch1x" = None.
Proof.
  split.
  - apply (proj2 (sensor_id_pattern "" "" "7") "12"); (discriminate || reflexivity).
  - repeat split; vm_compute; reflexivity.
Defined.



(** X28: a period the server does not know is served from the local store
    as the last 24 hours at full resolution: every retained reading at or
    after now - 24 h, in stored order, none skipped. *)
Theorem unknown_period_local (cfg : Config) (now : Z) (sensorId period : string)
    (w : World) :
  period <> "1h" -> period <> "24h" -> period <> "7d" ->
  period <> "30d" -> period <> "1y" ->
  getHistory cfg now sensorId period w =
    (map (toPoint cfg period)
       (List.filter (fun r => (now - day <=? Reading.timestamp r)%Z)
                    (default [] (historyFile w !! sensorId))),
     w, [ReadHistoryFile]) /\
  Downsample.maxPoints period = 200 /\
  startDate period now = (now - day)%Z.
Proof.
  intros H1 H24 H7 H30 Hy.
  apply String.eqb_neq in H1, H24, H7, H30, Hy.
  rewrite getHistory_run. unfold selectReadings, cutoffTime, skipFactor,
    Downsample.maxPoints, startDate.
  rewrite H1, H24, H7, H30, Hy, everyNth_one. auto.
Qed.

Lemma unknown_period_local_witness :
  value_of (getHistory utc 600000 "account1_soil_ch1" unknownPeriod
              (worldWith threeReadings))
  = map (toPoint utc unknownPeriod) threeReadings.
Proof.
  destruct (unknown_period_local utc 600000 "account1_soil_ch1" unknownPeriod
              (worldWith threeReadings)) as [Hrun _]; try discriminate.
  rewrite Hrun. vm_compute. reflexivity.
Defined.

End Crosscuts.
